(** * Anonymous chat bot: storage layer ([db.py]) and update handlers ([main.py])

    A shallow embedding of the matchmaking, session and entitlement code.

    - User ids are Python integers: [Z].  Truth tests on ids ([if partner:])
      are written out, since the id [0] and [None] are both falsy.
    - Timestamps ([datetime], PostgreSQL [TIMESTAMP]) have microsecond
      resolution on both sides: a timestamp is the number of microseconds
      since [datetime.min], a [timedelta] a number of microseconds.  Python's
      [datetime] ends with year 9999 and its arithmetic raises
      [OverflowError] outside that range.
    - The [users] table is keyed by its primary key: a [gmap].  The
      [search_queue] table is a list of rows in the order a sequential scan
      returns them ([LIMIT 1] takes the head of the filtered scan); a new row
      goes to the end, and so does a row updated by an upsert.
      [active_chats] has no key at all: a list of rows, duplicates allowed.
    - The connection is never put in a transaction block, so every
      [conn.execute] / [conn.fetchrow] commits on its own.  A [Database]
      method is therefore a sequence of atomic SQL statements; [run] executes
      the sequence, [committed] lists the states other connections can see
      in between. *)

From stdpp Require Import base numbers option list gmap strings.
From Stdlib Require Import ZArith Lia Ascii.

Local Open Scope Z_scope.

(** ** Python values *)

(** [bool(x)] for an optional integer: [None] and [0] are falsy. *)
Definition truthy (x : option Z) : bool :=
  match x with
  | Some n => negb (n =? 0)
  | None => false
  end.

(** [bool(s)] for an optional string: [None] and [''] are falsy. *)
Definition truthy_str (x : option string) : bool :=
  match x with
  | Some s => negb (String.eqb s "")
  | None => false
  end.

(** One day, the unit of [timedelta(days=...)], in microseconds. *)
Definition DAY : Z := 86400000000.

(** [datetime.max], 9999-12-31 23:59:59.999999: the last microsecond of day
    3652059, counted from [datetime.min]. *)
Definition MAX_DATETIME : Z := 3652059 * DAY - 1.

(** [timedelta(days=d)]; [None] is [OverflowError], raised when the
    magnitude of [d] exceeds 999999999. *)
Definition timedelta_days (d : Z) : option Z :=
  if Z.abs d <=? 999999999 then Some (d * DAY) else None.

(** [t + delta] for a [datetime] and a [timedelta]; [None] is
    [OverflowError], raised when the sum is no [datetime]. *)
Definition datetime_add (t delta : Z) : option Z :=
  if (0 <=? t + delta) && (t + delta <=? MAX_DATETIME) then Some (t + delta) else None.

(** [now + timedelta(days=days)]. *)
Definition days_from (now days : Z) : option Z :=
  timedelta_days days ≫= datetime_add now.

(** [delta.days]: timedeltas are normalised with [0 <= seconds < 86400], so
    the [days] field is the floor of the quotient. *)
Definition td_days (delta : Z) : Z := delta `div` DAY.

(** ** Storage layer: [db.py] *)

Module Db.

(** A row of [users]; [user_id] is the key of the map that holds it. *)
Record user_row := UserRow {
  gender : option string;
  country : option string;
  age : option Z;
  is_premium : bool;
  vip_expiry : option Z;
  current_order_id : option string
}.

(** The four tables of [create_tables]. *)
Record Database := MkDatabase {
  users : gmap Z user_row;
  search_queue : list (Z * string);
  active_chats : list (Z * Z);
  banned_users : gset Z
}.

Definition empty_db : Database := MkDatabase ∅ [] [] ∅.

Definition set_users (f : gmap Z user_row → gmap Z user_row) (d : Database) : Database :=
  MkDatabase (f (users d)) (search_queue d) (active_chats d) (banned_users d).

Definition set_queue (f : list (Z * string) → list (Z * string)) (d : Database) : Database :=
  MkDatabase (users d) (f (search_queue d)) (active_chats d) (banned_users d).

Definition set_chats (f : list (Z * Z) → list (Z * Z)) (d : Database) : Database :=
  MkDatabase (users d) (search_queue d) (f (active_chats d)) (banned_users d).

Definition set_banned (f : gset Z → gset Z) (d : Database) : Database :=
  MkDatabase (users d) (search_queue d) (active_chats d) (f (banned_users d)).

(** *** Programs over a connection *)

(** A method body: atomic statements, each committed before the next. *)
Inductive sql (A : Type) : Type :=
| Return (a : A)
| Execute (stmt : Database → Database) (k : sql A)
| Fetch {B : Type} (query : Database → B) (k : B → sql A).

Arguments Return {A} a.
Arguments Execute {A} stmt k.
Arguments Fetch {A B} query k.

Fixpoint sql_bind {A B : Type} (f : A → sql B) (p : sql A) : sql B :=
  match p with
  | Return a => f a
  | Execute stmt k => Execute stmt (sql_bind f k)
  | Fetch query k => Fetch query (λ b, sql_bind f (k b))
  end.

#[export] Instance sql_ret : MRet sql := λ A a, Return a.
#[export] Instance sql_mbind : MBind sql := λ A B f p, sql_bind f p.

(** [await conn.execute(...)]. *)
Definition execute (stmt : Database → Database) : sql unit :=
  Execute stmt (Return tt).

(** [await conn.fetchrow(...)], [await conn.fetchval(...)]. *)
Definition fetch {B : Type} (query : Database → B) : sql B :=
  Fetch query Return.

(** Result and final state of a method. *)
Fixpoint run {A : Type} (p : sql A) (d : Database) : A * Database :=
  match p with
  | Return a => (a, d)
  | Execute stmt k => run k (stmt d)
  | Fetch query k => run (k (query d)) d
  end.

(** The states the method commits, in order: one per [execute]. *)
Fixpoint committed {A : Type} (p : sql A) (d : Database) : list Database :=
  match p with
  | Return _ => []
  | Execute stmt k => stmt d :: committed k (stmt d)
  | Fetch query k => committed (k (query d)) d
  end.

(** *** User management *)

(** The row [INSERT INTO users (user_id)] creates: every other column takes
    its default, [NULL], or [FALSE] for [is_premium]. *)
Definition blank_row : user_row := UserRow None None None false None None.

Definition add_user (user_id : Z) : sql unit :=
  execute (set_users (λ us,
    match us !! user_id with
    | Some _ => us
    | None => <[user_id := blank_row]> us
    end)).

Definition get_user (user_id : Z) : sql (option user_row) :=
  fetch (λ d, users d !! user_id).

Definition set_gender (user_id : Z) (g : option string) : sql unit :=
  execute (set_users (alter (λ r,
    UserRow g (country r) (age r) (is_premium r) (vip_expiry r) (current_order_id r)) user_id)).

Definition set_country (user_id : Z) (c : option string) : sql unit :=
  execute (set_users (alter (λ r,
    UserRow (gender r) c (age r) (is_premium r) (vip_expiry r) (current_order_id r)) user_id)).

Definition set_age (user_id : Z) (a : option Z) : sql unit :=
  execute (set_users (alter (λ r,
    UserRow (gender r) (country r) a (is_premium r) (vip_expiry r) (current_order_id r)) user_id)).

(** *** Payment and VIP *)

Definition set_order_id (user_id : Z) (order_id : option string) : sql unit :=
  execute (set_users (alter (λ r,
    UserRow (gender r) (country r) (age r) (is_premium r) (vip_expiry r) order_id) user_id)).

(** [check_premium]; [now] is the value of [datetime.now()]. *)
Definition check_premium (now : Z) (user_id : Z) : sql bool :=
  row ← fetch (λ d, users d !! user_id);
  match row with
  | None => mret false
  | Some r =>
      if is_premium r then mret true
      else match vip_expiry r with
           | Some e => if e >? now then mret true else mret false
           | None => mret false
           end
  end.

(** The upsert of [make_premium]: on conflict only [vip_expiry] and
    [current_order_id] are assigned. *)
Definition upsert_expiry (user_id : Z) (expiry_date : Z) (us : gmap Z user_row) : gmap Z user_row :=
  match us !! user_id with
  | Some r =>
      <[user_id := UserRow (gender r) (country r) (age r) (is_premium r) (Some expiry_date) None]> us
  | None =>
      <[user_id := UserRow None None None false (Some expiry_date) None]> us
  end.

(** [make_premium]; the result [None] stands for the [OverflowError] that
    computing [expiry_date] can raise, before any statement is executed. *)
Definition make_premium (now : Z) (user_id : Z) (days : Z) : sql (option unit) :=
  match days_from now days with
  | Some expiry_date =>
      execute (set_users (upsert_expiry user_id expiry_date));;
      mret (Some tt)
  | None => mret None
  end.

(** *** Chat and ban *)

(** A row of [active_chats] mentions [u] on either side. *)
Definition mentions (u : Z) (row : Z * Z) : bool :=
  (row.1 =? u) || (row.2 =? u).

Definition ban_user (user_id : Z) : sql unit :=
  execute (set_banned (λ b, {[user_id]} ∪ b));;
  execute (set_users (delete user_id));;
  execute (set_queue (filter (λ row, row.1 ≠ user_id)));;
  execute (set_chats (filter (λ row, mentions user_id row = false))).

Definition unban_user (user_id : Z) : sql unit :=
  execute (set_banned (λ b, b ∖ {[user_id]})).

Definition is_banned (user_id : Z) : sql bool :=
  fetch (λ d, bool_decide (user_id ∈ banned_users d)).

(** [INSERT ... ON CONFLICT (user_id) DO UPDATE SET looking_for = $2].  The
    list is the table in the order a scan returns its rows.  A new row is
    returned last; so is an updated one, which the table holds as a new
    version of the row: a user who is queued again moves to the end. *)
Definition upsert_queue (user_id : Z) (looking_for : string) (q : list (Z * string)) : list (Z * string) :=
  filter (λ row, row.1 ≠ user_id) q ++ [(user_id, looking_for)].

Definition add_to_queue (user_id : Z) (looking_for : string) : sql unit :=
  execute (set_queue (upsert_queue user_id looking_for)).

Definition remove_from_queue (user_id : Z) : sql unit :=
  execute (set_queue (filter (λ row, row.1 ≠ user_id))).

(** [user_id IN (SELECT user_id FROM users WHERE gender = $2)]; a [NULL]
    gender equals nothing. *)
Definition has_gender (d : Database) (looking_for : string) (user_id : Z) : bool :=
  match users d !! user_id with
  | Some r =>
      match gender r with
      | Some g => String.eqb g looking_for
      | None => false
      end
  | None => false
  end.

(** The [WHERE] clause [find_match] assembles. *)
Definition eligible (d : Database) (user_id : Z) (looking_for : string) (row : Z * string) : bool :=
  negb (row.1 =? user_id)
  && (if String.eqb looking_for "any" then true else has_gender d looking_for row.1).

(** [... LIMIT 1 FOR UPDATE SKIP LOCKED].  The row lock lasts as long as the
    statement's own transaction, which is the statement: no statement ever
    finds a row locked. *)
Definition select_candidate (user_id : Z) (looking_for : string) (d : Database) : option (Z * string) :=
  List.find (eligible d user_id looking_for) (search_queue d).

Definition find_match (user_id : Z) (looking_for : string) : sql (option Z) :=
  row ← fetch (select_candidate user_id looking_for);
  match row with
  | Some r =>
      let partner_id := r.1 in
      execute (set_chats (λ c, c ++ [(user_id, partner_id)]));;
      execute (set_queue (filter (λ row, ¬ (row.1 = user_id ∨ row.1 = partner_id))));;
      mret (Some partner_id)
  | None => mret None
  end.

Definition get_partner (user_id : Z) : sql (option Z) :=
  row ← fetch (λ d, List.find (mentions user_id) (active_chats d));
  match row with
  | Some r => mret (Some (if r.1 =? user_id then r.2 else r.1))
  | None => mret None
  end.

Definition disconnect (user_id : Z) : sql (option Z) :=
  partner ← get_partner user_id;
  (if truthy partner then
     match partner with
     | Some p =>
         execute (set_chats (filter (λ row,
           mentions user_id row = false ∧ mentions p row = false)))
     | None => mret tt
     end
   else mret tt);;
  mret partner.

Definition is_searching (user_id : Z) : sql bool :=
  fetch (λ d, bool_decide (user_id ∈ (search_queue d).*1)).

Definition connect_users (user1_id user2_id : Z) : sql bool :=
  execute (set_queue (filter (λ row, ¬ (row.1 = user1_id ∨ row.1 = user2_id))));;
  execute (set_chats (λ c, c ++ [(user1_id, user2_id)]));;
  mret true.

(** [get_user_by_order_id]: the first row with that order id, or [None].
    Nothing in the code fixes the order in which [users] is scanned; the rows
    are taken here in the order of the map. *)
Definition get_user_by_order_id (order_id : string) : sql (option Z) :=
  row ← fetch (λ d,
    List.find (λ kv : Z * user_row, bool_decide (current_order_id kv.2 = Some order_id))
      (map_to_list (users d)));
  match row with
  | Some r => mret (Some r.1)
  | None => mret None
  end.

End Db.

(** ** String helpers for the handlers of [main.py] *)

(** [s in l]. *)
Definition str_in (s : string) (l : list string) : bool :=
  existsb (String.eqb s) l.

(** [s.startswith(p)]. *)
Definition startswith (p s : string) : bool := String.prefix p s.

(** [p in s] for strings. *)
Fixpoint contains (p s : string) : bool :=
  String.prefix p s ||
  match s with
  | EmptyString => false
  | String _ s' => contains p s'
  end.

Definition ascii_lower (c : ascii) : ascii :=
  let n := nat_of_ascii c in
  if ((65 <=? n) && (n <=? 90))%nat then ascii_of_nat (n + 32) else c.

Fixpoint lower (s : string) : string :=
  match s with
  | EmptyString => EmptyString
  | String c s' => String (ascii_lower c) (lower s')
  end.

(** [re.search(r"(http|https|t\.me|www|\.com)", text, re.IGNORECASE)]: none
    of the pattern's letters has a case variant outside ASCII. *)
Definition has_link (text : string) : bool :=
  let t := lower text in
  contains "http" t || contains "t.me" t || contains "www" t || contains ".com" t.

(** The white space of ASCII, the separators of [str.split()]: space,
    [\t] to [\r], and the separators [\x1c] to [\x1f]. *)
Definition is_space (c : ascii) : bool :=
  let n := nat_of_ascii c in
  ((n =? 32) || ((9 <=? n) && (n <=? 13)) || ((28 <=? n) && (n <=? 31)))%nat.

(** [s.split()], with the word being read kept in [cur]. *)
Fixpoint split_ws (cur : string) (s : string) : list string :=
  match s with
  | EmptyString => if String.eqb cur "" then [] else [cur]
  | String c s' =>
      if is_space c then
        (if String.eqb cur "" then split_ws "" s' else cur :: split_ws "" s')
      else split_ws (cur +:+ String c EmptyString) s'
  end.

Definition split (s : string) : list string := split_ws "" s.

(** *** [str.isdigit] and [int] *)

(** A text is held as its UTF-8 bytes; [str.isdigit] and [int] read its
    code points. *)
Definition continuation (b : ascii) : option N :=
  let n := N_of_ascii b in
  if ((128 <=? n) && (n <? 192))%N then Some (n - 128)%N else None.

(** The code points of a UTF-8 string, [None] if the bytes are not UTF-8. *)
Fixpoint code_points (s : string) : option (list N) :=
  match s with
  | EmptyString => Some []
  | String b0 s1 =>
      let n0 := N_of_ascii b0 in
      if (n0 <? 128)%N then cons n0 <$> code_points s1
      else if (n0 <? 192)%N then None
      else if (n0 <? 224)%N then
        match s1 with
        | String b1 s2 =>
            c1 ← continuation b1;
            cons ((n0 - 192) * 64 + c1)%N <$> code_points s2
        | _ => None
        end
      else if (n0 <? 240)%N then
        match s1 with
        | String b1 (String b2 s3) =>
            c1 ← continuation b1;
            c2 ← continuation b2;
            cons (((n0 - 224) * 64 + c1) * 64 + c2)%N <$> code_points s3
        | _ => None
        end
      else if (n0 <? 248)%N then
        match s1 with
        | String b1 (String b2 (String b3 s4)) =>
            c1 ← continuation b1;
            c2 ← continuation b2;
            c3 ← continuation b3;
            cons ((((n0 - 240) * 64 + c1) * 64 + c2) * 64 + c3)%N <$> code_points s4
        | _ => None
        end
      else None
  end.

(** The decimal digits of Unicode 14.0, the table of CPython 3.11, as runs
    [(first, length)] of consecutive code points: ASCII, Arabic-Indic,
    Devanagari and so on.  The value of a digit is its offset in its run
    modulo 10. *)
Definition DECIMAL_DIGITS : list (N * N) :=
  [
   (48, 10); (1632, 10); (1776, 10); (1984, 10); (2406, 10); (2534, 10); (2662, 10);
   (2790, 10); (2918, 10); (3046, 10); (3174, 10); (3302, 10); (3430, 10); (3558,
   10); (3664, 10); (3792, 10); (3872, 10); (4160, 10); (4240, 10); (6112, 10);
   (6160, 10); (6470, 10); (6608, 10); (6784, 10); (6800, 10); (6992, 10); (7088,
   10); (7232, 10); (7248, 10); (42528, 10); (43216, 10); (43264, 10); (43472, 10);
   (43504, 10); (43600, 10); (44016, 10); (65296, 10); (66720, 10); (68912, 10);
   (69734, 10); (69872, 10); (69942, 10); (70096, 10); (70384, 10); (70736, 10);
   (70864, 10); (71248, 10); (71360, 10); (71472, 10); (71904, 10); (72016, 10);
   (72784, 10); (73040, 10); (73120, 10); (92768, 10); (92864, 10); (93008, 10);
   (120782, 50); (123200, 10); (123632, 10); (125264, 10); (130032, 10)
  ]%N.

(** The other characters [str.isdigit] accepts (superscripts, circled
    digits and the like); [int] refuses them. *)
Definition OTHER_DIGITS : list (N * N) :=
  [
   (178, 2); (185, 1); (4969, 9); (6618, 1); (8304, 1); (8308, 6); (8320, 10);
   (9312, 9); (9332, 9); (9352, 9); (9450, 1); (9461, 9); (9471, 1); (10102, 9);
   (10112, 9); (10122, 9); (68160, 4); (69216, 9); (69714, 9); (127232, 11)
  ]%N.

Definition in_run (c : N) (r : N * N) : bool :=
  ((r.1 <=? c) && (c <? r.1 + r.2))%N.

(** The value of a decimal digit. *)
Definition decimal (c : N) : option Z :=
  (λ r : N * N, Z.of_N ((c - r.1) `mod` 10)%N) <$> List.find (in_run c) DECIMAL_DIGITS.

Definition isdigit_char (c : N) : bool :=
  existsb (in_run c) DECIMAL_DIGITS || existsb (in_run c) OTHER_DIGITS.

(** [s.isdigit()]: at least one character, and digits only. *)
Definition isdigit (s : string) : bool :=
  match code_points s with
  | Some (c :: cs) => forallb isdigit_char (c :: cs)
  | _ => false
  end.

Fixpoint decimal_value (acc : Z) (cs : list N) : option Z :=
  match cs with
  | [] => Some acc
  | c :: cs' => v ← decimal c; decimal_value (10 * acc + v) cs'
  end.

(** [int(s)] for a string that passed [s.isdigit()]: the number its decimal
    digits write, of whatever script; [None] stands for the [ValueError]
    raised for a digit that is not decimal, and for more than 4300 digits. *)
Definition int_str (s : string) : option Z :=
  match code_points s with
  | Some (c :: cs) =>
      if (4300 <? length (c :: cs))%nat then None else decimal_value 0 (c :: cs)
  | _ => None
  end.

(** [len(s)]: the number of code points of the UTF-8 encoded [s], every
    byte counted except the continuation bytes [10xxxxxx]. *)
Fixpoint len (s : string) : Z :=
  match s with
  | EmptyString => 0
  | String c s' =>
      let n := nat_of_ascii c in
      (if ((128 <=? n) && (n <=? 191))%nat then 0 else 1) + len s'
  end.

(** ** Update handlers: [main.py] *)

Module Bot.
Import Db.

(** *** Configuration and per-update environment *)

(** The ids read from the process environment at start-up. *)
Record Config := MkConfig {
  ADMIN_ID : Z;
  LOG_REPORTS : Z;
  LOG_MEDIA : Z;
  LOG_PAYMENTS : Z
}.

(** What one run of a handler takes from outside: the clock (a handler runs
    for far less than a second, so its calls of [datetime.now()] read one
    value), whether the platform accepts a message for a chat (a refusal
    raises), whether the calls on the callback query succeed, the random
    strings drawn, and whether [qrcode.jpg] is on disk. *)
Record Env := MkEnv {
  now : Z;
  delivers : Z → bool;
  query_ok : bool;
  random_session_id : string;
  random_report_tag : string;
  qrcode_found : bool
}.

(** *** Process memory *)

(** The values [user_states] holds: [f"WAITING_PAYMENT_{days}"] and the
    literal strings the handlers set or test. *)
Inductive ustate :=
| WAITING_REPORT_REASON
| WAITING_AGE
| WAITING_COUNTRY
| WAITING_GENDER
| WAITING_MANUAL_LOC
| WAITING_PAYMENT (days : Z).

#[export] Instance ustate_eq_dec : EqDecision ustate.
Proof. solve_decision. Defined.

(** An entry of [active_sessions]. *)
Record session := MkSession {
  start_time : Z;
  session_id : string
}.

(** An entry of [last_partners] or [reporting_cache]: [{'id': ..., 'tag': ...}]. *)
Record ticket := MkTicket {
  id : option Z;
  tag : string
}.

Record World := MkWorld {
  db : Database;
  user_states : gmap Z ustate;
  active_sessions : gmap Z session;
  reporting_cache : gmap Z ticket;
  last_partners : gmap Z ticket;
  user_preferences : gmap Z string
}.

Definition empty_world (d : Database) : World := MkWorld d ∅ ∅ ∅ ∅ ∅.

Definition set_db (d : Database) (w : World) : World :=
  MkWorld d (user_states w) (active_sessions w) (reporting_cache w)
    (last_partners w) (user_preferences w).

Definition set_user_states (f : gmap Z ustate → gmap Z ustate) (w : World) : World :=
  MkWorld (db w) (f (user_states w)) (active_sessions w) (reporting_cache w)
    (last_partners w) (user_preferences w).

Definition set_active_sessions (f : gmap Z session → gmap Z session) (w : World) : World :=
  MkWorld (db w) (user_states w) (f (active_sessions w)) (reporting_cache w)
    (last_partners w) (user_preferences w).

Definition set_reporting_cache (f : gmap Z ticket → gmap Z ticket) (w : World) : World :=
  MkWorld (db w) (user_states w) (active_sessions w) (f (reporting_cache w))
    (last_partners w) (user_preferences w).

Definition set_last_partners (f : gmap Z ticket → gmap Z ticket) (w : World) : World :=
  MkWorld (db w) (user_states w) (active_sessions w) (reporting_cache w)
    (f (last_partners w)) (user_preferences w).

Definition set_user_preferences (f : gmap Z string → gmap Z string) (w : World) : World :=
  MkWorld (db w) (user_states w) (active_sessions w) (reporting_cache w)
    (last_partners w) (f (user_preferences w)).

(** *** Updates received and messages sent *)

(** [callback_data] of the inline buttons, as the handlers parse it: the
    prefix the patterns of [lifespan] route on, and what follows it. *)
Inductive callback :=
| approve_ (target_id days_to_add : Z)
| reject_ (target_id : Z)
| pay_ (plan : string)
| accept_rechat_ (original_requester : Z)
| find_new_partner
| report_ (tag_from_btn : string)
| set_pref_ (target_pref : string)
| ban_appeal
| reg_ (rest : string)
| reset_ (field : string)
| close_settings.

(** The kinds of message [handle_media] is registered for. *)
Inductive media := photo | video | voice | audio | video_note | document | sticker.

#[export] Instance media_eq_dec : EqDecision media.
Proof. solve_decision. Defined.

(** What the settings card and the welcome show as status. *)
Inductive status := FreeMember | VipLifetime | VipUntil (expiry : Z) | Superuser.

(** The texts the bot writes itself, with the values they carry. *)
Inductive notice :=
| YouAreBanned | NotInAChat | YouLeftTheChat (report_tag : string)
| MainMenu | PartnerLeftTheChat (report_tag : string)
| ReportCancelledContinuing | ReportCancelled | ActionCancelled
| ReportSessionExpired | ReportSubmitted | NoPartnerToReport
| ReportingUser (target_tag : string) | SearchCancelled | HomeMenu
| GenderUpdated (g : string) | LocationUpdated (loc : string)
| AgeUpdated (a : string) | InvalidAge | TooLong | LocationSet (loc : string)
| MatchPreferences (current : string) | VipOnlyFeature | AlreadyInChatExitFirst
| NoPreviousPartner | PartnerBusy | ReconnectRequest | RequestSent | RechatFailed
| AlreadyInChat | SearchingFor (target : string) | SearchingForPartner
| SettingsCard (st : status) | ActionBlocked | StopSearchingFirst | ChooseVipPlan
| AboutText | HelpText | LinksProhibited | PartnerDisconnected | SearchingWait
| NotCurrentlyInChat
| AskGender | AskAge | AskLocation | RegistrationComplete (vip superuser : bool)
| PartnerMatched (shown_gender : option string) (loc : option string) (a : option Z)
| PaymentProof (user_id : Z) (requested_plan : option Z)
| ScreenshotReceived | MediaLocked (remaining : Z)
| YouAreAlreadyInAChat | TooLate | Connected
| Approved (target_id days_to_add total_days : Z)
| PaymentLogged (target_id : Z) (estimated_amount : option Z) (admin : Z)
| PaymentVerified (total_days : Z) (stacked_on : option Z)
| Rejected (target_id : Z) | PaymentRejected
| UpgradeToVip (plan : string) (rupees : Z) | QrCodeNotFound
| Usage | BannedUser (uid : Z) | UnbannedUser (uid : Z)
| VipAdded (uid days expiry_date : Z) | VipRemoved (uid : Z)
| UserIdMustBeNumber | SystemError
| VipOnly | PreferenceUpdated (target_pref : string) | OldSessionExpired
| UserReport (reporter : Z) (accused : option Z) (report_tag reason : string)
| EvidenceLog (from to : Z) (kind : media).

(** The calls on the platform, in the order they are made.  [buttons] is
    the inline keyboard of a message; the reply keyboards ([main_menu],
    [stop_menu]), which only offer texts to type, are left out. *)
Inductive action :=
| send_message (chat_id : Z) (text : notice) (buttons : list callback)
| send_text (chat_id : Z) (text : string)
| send_photo (chat_id : Z) (caption : notice) (buttons : list callback)
| copy_message (chat_id : Z) (kind : media)
| answer_query (text : option notice)
| edit_message (text : notice)
| delete_message.

(** *** The handler monad *)

(** The exceptions the handlers meet; [TransportError] stands for whatever
    a refused platform call raises. *)
Inductive exn := ValueError | AttributeError | TypeError | OverflowError | TransportError.

(** How a piece of a handler ends: it falls through with a value, it
    executes [return], or it raises. *)
Inductive outcome (A : Type) : Type :=
| Ok (a : A)
| Returned
| Raised (e : exn).

Arguments Ok {A} a.
Arguments Returned {A}.
Arguments Raised {A} e.

(** A piece of handler code: from the process memory and database to the
    way it ends, the memory and database it leaves, and the platform calls
    it made. *)
Definition M (A : Type) : Type := World → outcome A * World * list action.

#[export] Instance M_ret : MRet M := λ A a w, (Ok a, w, []).

#[export] Instance M_bind : MBind M := λ A B f m w,
  match m w with
  | (Ok a, w', out) => let '(r, w'', out') := f a w' in (r, w'', out ++ out')
  | (Returned, w', out) => (Returned, w', out)
  | (Raised e, w', out) => (Raised e, w', out)
  end.

(** [return]. *)
Definition return_ {A : Type} : M A := λ w, (Returned, w, []).

(** [raise]. *)
Definition raise {A : Type} (e : exn) : M A := λ w, (Raised e, w, []).

(** [try: body / except ...: handler e].  A [return] inside [body] leaves
    the function, it is not caught. *)
Definition try_catch (body : M unit) (handler : exn → M unit) : M unit := λ w,
  match body w with
  | (Raised e, w', out) => let '(r, w'', out') := handler e w' in (r, w'', out ++ out')
  | res => res
  end.

(** [try: body / except: handler], whatever was raised. *)
Definition try_except (body handler : M unit) : M unit :=
  try_catch body (λ _, handler).

(** A whole function body: its [return] ends the function, not the caller. *)
Definition proc (body : M unit) : M unit := λ w,
  match body w with
  | (Returned, w', out) => (Ok tt, w', out)
  | res => res
  end.

(** [await db.method(...)]. *)
Definition await {A : Type} (p : sql A) : M A := λ w,
  let '(a, d) := run p (db w) in (Ok a, set_db d w, []).

(** [await db.method(...)] for a method that can raise [OverflowError]. *)
Definition await_checked {A : Type} (p : sql (option A)) : M A := λ w,
  let '(a, d) := run p (db w) in
  match a with
  | Some v => (Ok v, set_db d w, [])
  | None => (Raised OverflowError, set_db d w, [])
  end.

Definition get {A : Type} (f : World → A) : M A := λ w, (Ok (f w), w, []).

Definition modify (f : World → World) : M unit := λ w, (Ok tt, f w, []).

Definition emit (a : action) : M unit := λ w, (Ok tt, w, [a]).

Definition when (b : bool) (body : M unit) : M unit :=
  if b then body else mret tt.

(** The outcome, final state and platform calls of a handler run. *)
Definition result (r : outcome unit * World * list action) : outcome unit := r.1.1.
Definition world (r : outcome unit * World * list action) : World := r.1.2.
Definition calls (r : outcome unit * World * list action) : list action := r.2.

Section Handlers.

Context (cfg : Config) (env : Env).

(** A call on the platform addressed to [chat_id]: made if the platform
    accepts it, an exception otherwise. *)
Definition deliver (chat_id : Z) (a : action) : M unit :=
  if delivers env chat_id then emit a else raise TransportError.

(** A call on the callback query ([answer], [edit_message_text],
    [message.delete]). *)
Definition on_query (a : action) : M unit :=
  if query_ok env then emit a else raise TransportError.

Definition is_vip (user_id : Z) : M bool :=
  p ← await (check_premium (now env) user_id);
  mret (p || (user_id =? ADMIN_ID cfg)).

(** [send_report_log], [send_payment_log]: nothing without a channel id, a
    failed send is printed and dropped. *)
Definition send_log (channel : Z) (text : notice) : M unit :=
  when (negb (channel =? 0))
    (try_except (deliver channel (send_message channel text [])) (mret tt)).

Definition get_gender_kb : list callback :=
  [reg_ "gender_male"; reg_ "gender_female"].

Definition get_country_kb : list callback :=
  [reg_ "country_India"; reg_ "country_USA"; reg_ "country_UK";
   reg_ "country_Canada"; reg_ "country_Other"; reg_ "manual_entry"].

(** [check_registration]: [user_data.get] on a missing row raises. *)
Definition check_registration (user_id : Z) : M bool :=
  user_data ← await (get_user user_id);
  match user_data with
  | None => raise AttributeError
  | Some r =>
      if negb (truthy_str (gender r)) then
        deliver user_id (send_message user_id AskGender get_gender_kb);;
        mret false
      else if negb (truthy (age r)) then
        modify (set_user_states <[user_id := WAITING_AGE]>);;
        deliver user_id (send_message user_id AskAge []);;
        mret false
      else if negb (truthy_str (country r)) then
        deliver user_id (send_message user_id AskLocation get_country_kb);;
        mret false
      else
        modify (set_user_states (delete user_id));;
        mret true
  end.

Definition send_welcome (user_id : Z) : M unit :=
  p ← await (check_premium (now env) user_id);
  deliver user_id
    (send_message user_id (RegistrationComplete p (user_id =? ADMIN_ID cfg)) []).

(** [send_match_messages]: both texts are built, from both rows, before the
    first is sent; [u['gender'].capitalize()] raises [TypeError] on a missing
    row and [AttributeError] on a [NULL] gender, the text for [user1_id]
    (from the row of [user2_id]) being built first. *)
Definition send_match_messages (user1_id user2_id : Z) : M unit :=
  let meta := MkSession (now env) (random_session_id env) in
  modify (set_active_sessions <[user1_id := meta]>);;
  modify (set_active_sessions <[user2_id := meta]>);;
  u1_data ← await (get_user user1_id);
  u2_data ← await (get_user user2_id);
  u1_vip ← is_vip user1_id;
  u2_vip ← is_vip user2_id;
  match u2_data, u1_data with
  | Some r2, Some r1 =>
      match gender r2, gender r1 with
      | Some g2, Some g1 =>
          let msg_to_u1 :=
            PartnerMatched (if u1_vip : bool then Some g2 else None) (country r2) (age r2) in
          let msg_to_u2 :=
            PartnerMatched (if u2_vip : bool then Some g1 else None) (country r1) (age r1) in
          deliver user1_id (send_message user1_id msg_to_u1 []);;
          deliver user2_id (send_message user2_id msg_to_u2 [])
      | _, _ => raise AttributeError
      end
  | Some r2, None =>
      match gender r2 with
      | Some _ => raise TypeError
      | None => raise AttributeError
      end
  | None, _ => raise TypeError
  end.

(** [update.message.reply_text(...)]: the update's chat is the private chat
    of [user_id]. *)
Definition reply_text (user_id : Z) (text : notice) (buttons : list callback) : M unit :=
  deliver user_id (send_message user_id text buttons).

(** [if x: body(x)] for an optional id. *)
Definition if_truthy (x : option Z) (body : Z → M unit) : M unit :=
  match x with
  | Some n => if negb (n =? 0) then body n else mret tt
  | None => mret tt
  end.

(** [VIP_PLANS]: key, amount in paise, days, label. *)
Definition VIP_PLANS : list (string * (Z * Z * string)) :=
  [ ("pay_1m", (20000, 30, "1 Month"));
    ("pay_3m", (50000, 90, "3 Months"));
    ("pay_6m", (105000, 180, "6 Months"));
    ("pay_12m", (209900, 365, "12 Months")) ].

(** *** [handle_text] *)

(** PRIORITY 1: EXIT CHAT. *)
Definition exit_chat (user_id : Z) (text : string) (state : option ustate) : M unit :=
  when (str_in text ["❌ Exit Chat"; "/exit"])
    (when (bool_decide (is_Some state))
       (modify (set_user_states (delete user_id));;
        modify (set_reporting_cache (delete user_id)));;
     searching ← await (is_searching user_id);
     partner ← await (get_partner user_id);
     when (negb searching && negb (truthy partner))
       (reply_text user_id NotInAChat [];; return_);;
     partner_id ← await (disconnect user_id);
     await (remove_from_queue user_id);;
     modify (set_active_sessions (delete user_id));;
     modify (set_active_sessions (from_option delete (λ m, m) partner_id));;
     let report_tag := random_report_tag env in
     modify (set_last_partners <[user_id := MkTicket partner_id report_tag]>);;
     if_truthy partner_id (λ p,
       modify (set_last_partners <[p := MkTicket (Some user_id) report_tag]>));;
     let kb_markup := [report_ report_tag; find_new_partner] in
     reply_text user_id (YouLeftTheChat report_tag) kb_markup;;
     reply_text user_id MainMenu [];;
     if_truthy partner_id (λ p,
       try_except
         (deliver p (send_message p (PartnerLeftTheChat report_tag) kb_markup);;
          deliver p (send_message p MainMenu []))
         (mret tt));;
     return_).

(** PRIORITY 2: CANCEL COMMAND. *)
Definition cancel_command (user_id : Z) (text : string) (state : option ustate) : M unit :=
  when (str_in text ["/cancel"; "🔙 Cancel"])
    (if bool_decide (state = Some WAITING_REPORT_REASON) then
       modify (set_user_states (delete user_id));;
       modify (set_reporting_cache (delete user_id));;
       partner ← await (get_partner user_id);
       (if truthy partner then reply_text user_id ReportCancelledContinuing []
        else reply_text user_id ReportCancelled []);;
       return_
     else if bool_decide (state ∈ [Some WAITING_AGE; Some WAITING_MANUAL_LOC]) then
       modify (set_user_states (delete user_id));;
       reply_text user_id ActionCancelled [];;
       return_
     else mret tt).

(** PRIORITY 3: CAPTURE REPORT REASON.  Whether the reporter is in a chat
    only picks the keyboard under the confirmation. *)
Definition capture_report_reason (user_id : Z) (text : string) (state : option ustate) : M unit :=
  when (bool_decide (state = Some WAITING_REPORT_REASON))
    (if str_in text ["💬 Chat"; "⚙️ Settings"; "💎 Premium"; "❤️ Preferences"] then
       modify (set_user_states (delete user_id))
     else
       report_data ← get (λ w, reporting_cache w !! user_id);
       match report_data with
       | None =>
           modify (set_user_states (delete user_id));;
           reply_text user_id ReportSessionExpired [];;
           return_
       | Some t =>
           send_log (LOG_REPORTS cfg) (UserReport user_id (id t) (tag t) text);;
           modify (set_reporting_cache (delete user_id));;
           modify (set_user_states (delete user_id));;
           _ ← await (get_partner user_id);
           reply_text user_id ReportSubmitted [];;
           return_
       end).

(** PRIORITY 4: MANUAL REPORT COMMAND.  [target] holds [target_id] and
    [target_tag]; the tag is read only once the id is truthy, and by then
    it has been assigned together with the id. *)
Definition manual_report (user_id : Z) (text : string) : M unit :=
  when (String.eqb text "🚨 Report Partner" || startswith "/report" text)
    (current_partner ← await (get_partner user_id);
     last ← get (λ w, last_partners w !! user_id);
     let target1 :=
       if truthy current_partner then
         match last with
         | Some l =>
             if bool_decide (id l = current_partner) then MkTicket (id l) (tag l)
             else MkTicket current_partner "LIVE_CHAT"
         | None => MkTicket current_partner "LIVE_CHAT"
         end
       else MkTicket None "" in
     let target2 :=
       if negb (truthy (id target1)) then
         match split text, last with
         | _ :: input_tag :: _, Some l =>
             if String.eqb (tag l) input_tag then MkTicket (id l) input_tag else target1
         | _, _ => target1
         end
       else target1 in
     let target3 :=
       if negb (truthy (id target2)) then
         match last with
         | Some l => MkTicket (id l) (tag l)
         | None => target2
         end
       else target2 in
     when (negb (truthy (id target3)))
       (reply_text user_id NoPartnerToReport [];; return_);;
     modify (set_reporting_cache <[user_id := target3]>);;
     modify (set_user_states <[user_id := WAITING_REPORT_REASON]>);;
     reply_text user_id (ReportingUser (tag target3)) [];;
     return_).

(** PRIORITY 5: STANDARD MENU BUTTONS. *)
Definition MENU_BUTTONS : list string :=
  ["🔙 Back"; "⚙️ Settings"; "💬 Chat"; "💎 Premium"; "❓ Help"; "ℹ️ About";
   "🔄 Re-Chat"; "❤️ Preferences"].

Definition menu_buttons (user_id : Z) (text : string) (state : option ustate) : M unit :=
  when (str_in text MENU_BUTTONS)
    (searching ← await (is_searching user_id);
     when searching
       (await (remove_from_queue user_id);;
        reply_text user_id SearchCancelled [];;
        return_);;
     when (bool_decide (state ∈ [Some WAITING_AGE; Some WAITING_COUNTRY;
                                  Some WAITING_GENDER; Some WAITING_MANUAL_LOC]))
       (modify (set_user_states (delete user_id)));;
     when (String.eqb text "🔙 Back")
       (reply_text user_id HomeMenu [];; return_)).

(** 6. INPUT HANDLING (Registration). *)
Definition registration_input (user_id : Z) (text : string) (state : option ustate) : M unit :=
  when (bool_decide (state = Some WAITING_GENDER))
    (let clean :=
       if contains "Male" text then Some "male"
       else if contains "Female" text then Some "female" else None in
     match clean with
     | Some g =>
         await (set_gender user_id (Some g));;
         reply_text user_id (GenderUpdated g) [];;
         _ ← check_registration user_id;
         return_
     | None => mret tt
     end);;
  when (bool_decide (state = Some WAITING_COUNTRY))
    (await (set_country user_id (Some text));;
     reply_text user_id (LocationUpdated text) [];;
     _ ← check_registration user_id;
     return_);;
  when (bool_decide (state = Some WAITING_AGE))
    (if isdigit text then
       match int_str text with
       | Some a =>
           if (16 <=? a) && (a <=? 80) then
             await (set_age user_id (Some a));;
             reply_text user_id (AgeUpdated text) [];;
             _ ← check_registration user_id;
             return_
           else reply_text user_id InvalidAge [];; return_
       | None => raise ValueError
       end
     else reply_text user_id InvalidAge [];; return_);;
  when (bool_decide (state = Some WAITING_MANUAL_LOC))
    (when (len text >? 30) (reply_text user_id TooLong [];; return_);;
     await (set_country user_id (Some text));;
     reply_text user_id (LocationSet text) [];;
     modify (set_user_states (delete user_id));;
     send_welcome user_id;;
     return_).

(** 8. MENU COMMANDS: preferences. *)
Definition preferences_menu (user_id : Z) (text : string) : M unit :=
  when (str_in text ["❤️ Preferences"; "/preferences"])
    (current ← get (λ w, default "any" (user_preferences w !! user_id));
     reply_text user_id (MatchPreferences current)
       [set_pref_ "any"; set_pref_ "female"; set_pref_ "male"];;
     return_).

(** NEW: VIP RE-CHAT FEATURE.  [last_info['id']] may be [None]: no row has
    a [NULL] side equal to it, and no message can be sent to it. *)
Definition rechat (user_id : Z) (text : string) : M unit :=
  when (str_in text ["🔄 Re-Chat"; "/rechat"])
    (vip ← is_vip user_id;
     when (negb vip) (reply_text user_id VipOnlyFeature [];; return_);;
     partner ← await (get_partner user_id);
     when (truthy partner) (reply_text user_id AlreadyInChatExitFirst [];; return_);;
     last_info ← get (λ w, last_partners w !! user_id);
     match last_info with
     | None => reply_text user_id NoPreviousPartner [];; return_
     | Some l =>
         let target_id := id l in
         busy ← from_option (λ t, await (get_partner t)) (mret None) target_id;
         when (truthy busy) (reply_text user_id PartnerBusy [];; return_);;
         try_except
           (from_option
              (λ t, deliver t (send_message t ReconnectRequest [accept_rechat_ user_id]))
              (raise TransportError) target_id;;
            reply_text user_id RequestSent [])
           (reply_text user_id RechatFailed []);;
         return_
     end).

(** CHAT LOGIC. *)
Definition chat (user_id : Z) (text : string) : M unit :=
  when (str_in text ["💬 Chat"; "/chat"])
    (partner ← await (get_partner user_id);
     when (truthy partner) (reply_text user_id AlreadyInChat [];; return_);;
     target ← get (λ w, default "any" (user_preferences w !! user_id));
     vip ← is_vip user_id;
     let target := if negb (String.eqb target "any") && negb vip then "any" else target in
     reply_text user_id (SearchingFor target) [];;
     await (add_to_queue user_id target);;
     match_id ← await (find_match user_id target);
     if_truthy match_id (λ m, send_match_messages user_id m);;
     return_).

(** SETTINGS. *)
Definition settings (user_id : Z) (text : string) (user_data : user_row) : M unit :=
  when (str_in text ["⚙️ Settings"; "/settings"])
    (let st :=
       if is_premium user_data then VipLifetime
       else match vip_expiry user_data with
            | Some e => if e >? now env then VipUntil e else FreeMember
            | None => FreeMember
            end in
     let st := if user_id =? ADMIN_ID cfg then Superuser else st in
     reply_text user_id (SettingsCard st)
       [reset_ "gender"; reset_ "age"; reset_ "loc"; close_settings];;
     return_).

Definition premium (user_id : Z) (text : string) : M unit :=
  when (str_in text ["💎 Premium"; "/premium"])
    (partner ← await (get_partner user_id);
     when (truthy partner) (reply_text user_id ActionBlocked [];; return_);;
     searching ← await (is_searching user_id);
     when searching (reply_text user_id StopSearchingFirst [];; return_);;
     reply_text user_id ChooseVipPlan (pay_ <$> VIP_PLANS.*1);;
     return_).

Definition about_help (user_id : Z) (text : string) : M unit :=
  when (String.eqb text "ℹ️ About") (reply_text user_id AboutText [];; return_);;
  when (String.eqb text "❓ Help") (reply_text user_id HelpText [];; return_).

Definition blocked_words : list string :=
  ["❌ Exit Chat"; "🚨 Report Partner"; "🔙 Back"; "⚙️ Settings"; "💬 Chat";
   "💎 Premium"; "❓ Help"; "ℹ️ About"; "🔄 Re-Chat"; "❤️ Preferences";
   "🎲 Random"; "👩 Girls (VIP)"; "👨 Boys (VIP)"].

(** 9. CHAT RELAY. *)
Definition chat_relay (user_id : Z) (text : string) : M unit :=
  partner_id ← await (get_partner user_id);
  if_truthy partner_id (λ p,
    when (has_link text) (reply_text user_id LinksProhibited [];; return_);;
    when (startswith "/" text || str_in text blocked_words) return_;;
    try_except
      (deliver p (send_text p text))
      (_ ← await (disconnect user_id);
       reply_text user_id PartnerDisconnected []);;
    return_).

(** 10. IDLE / NOT IN CHAT HANDLING. *)
Definition idle (user_id : Z) : M unit :=
  searching ← await (is_searching user_id);
  when searching (reply_text user_id SearchingWait [];; return_);;
  reply_text user_id NotCurrentlyInChat [].

(** The master text handler; [private] is [update.effective_chat.type ==
    "private"]. *)
Definition handle_text (private : bool) (user_id : Z) (text : string) : M unit :=
  proc
    (when (negb private) return_;;
     banned ← await (is_banned user_id);
     when banned (reply_text user_id YouAreBanned [ban_appeal];; return_);;
     state ← get (λ w, user_states w !! user_id);
     exit_chat user_id text state;;
     cancel_command user_id text state;;
     capture_report_reason user_id text state;;
     manual_report user_id text;;
     menu_buttons user_id text state;;
     registration_input user_id text state;;
     user_data ← await (get_user user_id);
     match user_data with
     | None => raise AttributeError
     | Some r =>
         let is_registered :=
           truthy_str (gender r) && truthy (age r) && truthy_str (country r) in
         when (negb is_registered) (_ ← check_registration user_id; return_);;
         preferences_menu user_id text;;
         rechat user_id text;;
         chat user_id text;;
         settings user_id text r;;
         premium user_id text;;
         about_help user_id text;;
         chat_relay user_id text;;
         idle user_id
     end).

(** *** [handle_media] *)

(** [elapsed < 120] and [int(120 - elapsed)] on [total_seconds()]: a
    duration is a whole number of microseconds, so the comparison and the
    truncation are those of the exact quotient. *)
Definition MEDIA_LOCK : Z := 120 * 1000000.

(** [send_media_log]: nothing without a channel id, a failed send is
    printed and dropped. *)
Definition send_media_log (user_id partner_id : Z) (kind : media) : M unit :=
  send_log (LOG_MEDIA cfg) (EvidenceLog user_id partner_id kind).

Definition handle_media (user_id : Z) (kind : media) : M unit :=
  proc
    (banned ← await (is_banned user_id);
     when banned return_;;
     partner_id ← await (get_partner user_id);
     when (negb (truthy partner_id))
       (if bool_decide (kind = photo) then
          state ← get (λ w, user_states w !! user_id);
          let requested :=
            match state with
            | Some (WAITING_PAYMENT d) => Some d
            | _ => None
            end in
          let days_to_add := default 30 requested in
          try_except
            (deliver (ADMIN_ID cfg)
               (send_photo (ADMIN_ID cfg) (PaymentProof user_id requested)
                  [approve_ user_id days_to_add; reject_ user_id]);;
             reply_text user_id ScreenshotReceived [])
            (mret tt);;
          modify (set_user_states (delete user_id));;
          return_
        else return_);;
     if_truthy partner_id (λ p,
       session ← get (λ w, active_sessions w !! user_id);
       match session with
       | Some s =>
           let elapsed := now env - start_time s in
           when (elapsed <? MEDIA_LOCK)
             (let remaining := (MEDIA_LOCK - elapsed) `quot` 1000000 in
              reply_text user_id (MediaLocked remaining) [];;
              return_)
       | None => mret tt
       end;;
       try_except
         (deliver p (copy_message p kind))
         (_ ← await (disconnect user_id);
          reply_text user_id PartnerDisconnected [];;
          return_);;
       when (negb (LOG_MEDIA cfg =? 0))
         (when (bool_decide (kind = sticker)) return_;;
          try_except (send_media_log user_id p kind) (mret tt)))).

(** *** [handle_rechat_accept] *)

Definition handle_rechat_accept (user_id : Z) (data : callback) : M unit :=
  proc
    match data with
    | accept_rechat_ original_requester =>
        mine ← await (get_partner user_id);
        when (truthy mine)
          (on_query (answer_query (Some YouAreAlreadyInAChat));; return_);;
        theirs ← await (get_partner original_requester);
        when (truthy theirs) (on_query (edit_message TooLate);; return_);;
        _ ← await (connect_users user_id original_requester);
        on_query (answer_query (Some Connected));;
        on_query delete_message;;
        send_match_messages user_id original_requester
    | _ => mret tt
    end.

(** *** [handle_payment_selection] *)

(** The amount shown in the payment log: that of the first plan with as
    many days. *)
Definition estimated_amount (days_to_add : Z) : option Z :=
  (λ p, p.2.1.1 `div` 100) <$> List.find (λ p, p.2.1.2 =? days_to_add) VIP_PLANS.

Definition handle_payment_selection (user_id : Z) (data : callback) : M unit :=
  proc
    match data with
    | approve_ target_id days_to_add =>
        user_data ← await (get_user target_id);
        match user_data with
        | None => raise AttributeError
        | Some r =>
            let current_expiry := vip_expiry r in
            let '(total_days, msg_extra) :=
              match current_expiry with
              | Some e =>
                  if e >? now env then
                    let delta := e - now env in
                    let remaining_days := td_days delta + 1 in
                    (remaining_days + days_to_add, Some remaining_days)
                  else (days_to_add, None)
              | None => (days_to_add, None)
              end in
            await_checked (make_premium (now env) target_id total_days);;
            on_query (edit_message (Approved target_id days_to_add total_days));;
            send_log (LOG_PAYMENTS cfg)
              (PaymentLogged target_id (estimated_amount days_to_add) user_id);;
            try_except
              (deliver target_id (send_message target_id (PaymentVerified total_days msg_extra) []))
              (mret tt);;
            return_
        end
    | reject_ target_id =>
        on_query (edit_message (Rejected target_id));;
        try_except
          (deliver target_id (send_message target_id PaymentRejected []))
          (mret tt);;
        return_
    | pay_ key =>
        match List.find (λ p, String.eqb p.1 key) VIP_PLANS with
        | Some (_, (amt, days, _)) =>
            (if qrcode_found env then
               deliver user_id (send_photo user_id (UpgradeToVip key (amt `div` 100)) []);;
               modify (set_user_states <[user_id := WAITING_PAYMENT days]>)
             else reply_text user_id QrCodeNotFound []);;
            on_query (answer_query None)
        | None => mret tt
        end
    | _ => mret tt
    end.

(** *** [admin_op] *)

(** A word of the command line, by what [int(...)] makes of it. *)
Inductive token := TInt (n : Z) | TWord (s : string).

Definition int (t : token) : M Z :=
  match t with
  | TInt n => mret n
  | TWord _ => raise ValueError
  end.

(** [parts = update.message.text.split()]: [cmd] is [parts[0]], [args] the
    rest. *)
Definition admin_op (user_id : Z) (cmd : string) (args : list token) : M unit :=
  proc
    (when (negb (user_id =? ADMIN_ID cfg)) return_;;
     try_catch
       (match args with
        | [] => reply_text user_id Usage [];; return_
        | a1 :: rest =>
            uid ← int a1;
            if contains "/ban" cmd then
              await (ban_user uid);;
              reply_text user_id (BannedUser uid) []
            else if contains "/unban" cmd then
              await (unban_user uid);;
              reply_text user_id (UnbannedUser uid) []
            else if contains "/addvip" cmd then
              days ← match rest with
                     | a2 :: _ => int a2
                     | [] => mret 30
                     end;
              await_checked (make_premium (now env) uid days);;
              expiry_date ← from_option mret (raise OverflowError)
                               (days_from (now env) days);
              reply_text user_id (VipAdded uid days expiry_date) []
            else if contains "/removevip" cmd then
              await_checked (make_premium (now env) uid 0);;
              reply_text user_id (VipRemoved uid) []
            else mret tt
        end)
       (λ e, match e with
             | ValueError => reply_text user_id UserIdMustBeNumber []
             | _ => reply_text user_id SystemError []
             end)).

(** *** [handle_report_buttons] *)

Definition handle_report_buttons (user_id : Z) (data : callback) : M unit :=
  proc
    (on_query (answer_query None);;
     match data with
     | set_pref_ target_pref =>
         vip ← is_vip user_id;
         when (str_in target_pref ["male"; "female"] && negb vip)
           (reply_text user_id VipOnly [];; return_);;
         modify (set_user_preferences <[user_id := target_pref]>);;
         on_query (edit_message (PreferenceUpdated target_pref));;
         return_
     | find_new_partner =>
         target ← get (λ w, default "any" (user_preferences w !! user_id));
         vip ← is_vip user_id;
         let target := if negb (String.eqb target "any") && negb vip then "any" else target in
         reply_text user_id (SearchingFor target) [];;
         reply_text user_id SearchingForPartner [];;
         await (add_to_queue user_id target);;
         match_id ← await (find_match user_id target);
         if_truthy match_id (λ m, send_match_messages user_id m)
     | report_ tag_from_btn =>
         last_info ← get (λ w, last_partners w !! user_id);
         match last_info with
         | Some l =>
             if String.eqb (tag l) tag_from_btn then
               modify (set_reporting_cache <[user_id := MkTicket (id l) tag_from_btn]>);;
               modify (set_user_states <[user_id := WAITING_REPORT_REASON]>);;
               reply_text user_id (ReportingUser tag_from_btn) []
             else on_query (edit_message OldSessionExpired)
         | None => on_query (edit_message OldSessionExpired)
         end
     | _ => mret tt
     end).

End Handlers.


(** *** Updates and their handlers *)

(** An update routed to one of the handlers above, as [lifespan] registers
    them: a private or group text (or one of the commands [/chat], [/exit],
    [/report], [/cancel], [/rechat], [/premium], [/settings]), a media
    message, a click on an inline button, or one of the admin commands. *)
Inductive update :=
| text_message (private : bool) (user_id : Z) (text : string)
| media_message (user_id : Z) (kind : media)
| button_click (user_id : Z) (data : callback)
| admin_command (user_id : Z) (cmd : string) (args : list token).

(** The callback patterns of [lifespan]; the registration and ban-appeal
    buttons go to handlers that are not part of this development. *)
Definition handle (cfg : Config) (env : Env) (u : update) : M unit :=
  match u with
  | text_message private user_id text => handle_text cfg env private user_id text
  | media_message user_id kind => handle_media cfg env user_id kind
  | button_click user_id data =>
      match data with
      | approve_ _ _ | reject_ _ | pay_ _ => handle_payment_selection cfg env user_id data
      | accept_rechat_ _ => handle_rechat_accept cfg env user_id data
      | find_new_partner | report_ _ | set_pref_ _ => handle_report_buttons cfg env user_id data
      | _ => mret tt
      end
  | admin_command user_id cmd args => admin_op cfg env user_id cmd args
  end.

(** The world after a sequence of updates, each with its environment, and
    the platform calls made along the way. *)
Fixpoint run_updates (cfg : Config) (us : list (Env * update)) (w : World) : World * list action :=
  match us with
  | [] => (w, [])
  | (env, u) :: us' =>
      let r := handle cfg env u w in
      let '(w', out) := run_updates cfg us' (world r) in
      (w', calls r ++ out)
  end.

End Bot.

(** ** Group moderation: [main.py] *)

Module Group.

(** What one run of [group_moderation] takes from outside: the status the
    platform reports for the author ([None] when [chat.get_member] raises),
    and whether the platform carries out the deletion, the ban and the
    messages to the group (a refusal raises). *)
Record Env := MkEnv {
  member_status : option string;
  deletes : bool;
  bans : bool;
  sends : bool
}.

(** The texts sent to the group. *)
Inductive notice :=
| Warning (current_warns remaining : Z)
| BannedNotice
| BanFailed.

(** The calls on the platform, in the order they are made. *)
Inductive action :=
| delete_message
| ban_member (user_id : Z)
| send_message (text : notice).

(** How the handler ends: it returns, or an exception leaves it. *)
Inductive outcome := Done | Raised.

(** [BAD_WORDS] when the environment sets none. *)
Definition FALLBACK_BAD_WORDS : list string := ["scam"; "fraud"; "kill"; "abuse"].

Section Moderation.

(** [BAD_WORDS] as read at start-up. *)
Context (BAD_WORDS : list string) (env : Env).

(** The loop over [BAD_WORDS]: [bad in text] for some word. *)
Definition found_bad_word (text : string) : bool :=
  existsb (λ bad, contains bad text) BAD_WORDS.

(** [group_moderation], on the dictionary [group_warnings].  [text] is
    [message.text.lower()], and [None] when there is no message or no text;
    the emptiness test of the handler is on the original text, which is
    empty exactly when the lower-cased one is. *)
Definition group_moderation (private : bool) (user_id : Z) (text : option string)
    (group_warnings : gmap Z Z) : outcome * gmap Z Z * list action :=
  match text with
  | None => (Done, group_warnings, [])
  | Some text =>
      if String.eqb text "" then (Done, group_warnings, [])
      else if private then (Done, group_warnings, [])
      else if from_option (λ s, str_in s ["administrator"; "creator"]) false
                (member_status env)
      then (Done, group_warnings, [])
      else if found_bad_word text then
        let deleted := if deletes env then [delete_message] else [] in
        let current_warns := default 0 (group_warnings !! user_id) + 1 in
        let warned := <[user_id := current_warns]> group_warnings in
        if current_warns <? 3 then
          let remaining := 3 - current_warns in
          if sends env
          then (Done, warned, deleted ++ [send_message (Warning current_warns remaining)])
          else (Raised, warned, deleted)
        else if bans env then
          if sends env
          then (Done, delete user_id warned,
                deleted ++ [ban_member user_id; send_message BannedNotice])
          else (Raised, warned, deleted ++ [ban_member user_id])
        else
          if sends env
          then (Done, warned, deleted ++ [send_message BanFailed])
          else (Raised, warned, deleted)
      else (Done, group_warnings, [])
  end.

End Moderation.

End Group.

Import Db Bot.

(** ** Tables and updates used as examples *)

Module Example.

(** A complete profile: gender, location, age, no lifetime flag. *)
Definition profile (g : string) (expiry : option Z) : user_row :=
  UserRow (Some g) (Some "India") (Some 25) false expiry None.

(** Three registered users: 101 is male, 102 is female with time-limited
    premium, 103 is female. *)
Definition three_users : gmap Z user_row :=
  <[101 := profile "male" None]>
    (<[102 := profile "female" (Some (400 * DAY))]>
       (<[103 := profile "female" None]> ∅)).

(** 101 searches with filter ['any'], 102 with filter ['female']. *)
Definition two_waiting : Database :=
  MkDatabase three_users [(101, "any"); (102, "female")] [] ∅.

(** The same queue once 103 has joined it. *)
Definition three_waiting : Database :=
  (run (add_to_queue 103 "any") two_waiting).2.

(** 101 is in session with 102, and 101 is waiting in the queue as well. *)
Definition one_session : Database :=
  MkDatabase three_users [(101, "any")] [(101, 102)] ∅.

(** Admin 1, no log channel configured. *)
Definition cfg0 : Config := MkConfig 1 0 0 0.

(** An update handled on day 100, every message delivered. *)
Definition env0 : Env :=
  MkEnv (100 * DAY) (λ _, true) true "SESSN1" "TAG00001" true.

(** The three users registered, nobody searching or chatting. *)
Definition idle_world : World :=
  empty_world (MkDatabase three_users [] [] ∅).

(** 101 and 102 have been in a chat since time 0. *)
Definition chatting_world : World :=
  MkWorld (MkDatabase three_users [] [(101, 102)] ∅) ∅
    (<[101 := MkSession 0 "SESSN1"]> (<[102 := MkSession 0 "SESSN1"]> ∅)) ∅ ∅ ∅.

(** Nobody searches or chats, and 101 is banned. *)
Definition banned_world : World :=
  empty_world (MkDatabase three_users [] [] {[101]}).

(** The environment of an update handled at time [t], every message
    delivered. *)
Definition at_time (t : Z) : Env :=
  MkEnv t (λ _, true) true "SESSN1" "TAG00001" true.

(** Admin 1, with the log channels 901 (reports), 902 (media) and 903
    (payments). *)
Definition cfg_logs : Config := MkConfig 1 901 902 903.

(** The world once 101 has left the chat with 102: each is the other's last
    partner under the tag of the leave notice. *)
Definition left_world : World :=
  MkWorld (MkDatabase three_users [] [] ∅) ∅ ∅ ∅
    (<[102 := MkTicket (Some 101) "TAG00001"]>
       (<[101 := MkTicket (Some 102) "TAG00001"]> ∅)) ∅.

(** A group in which the author is an ordinary member and the platform
    carries out every call. *)
Definition group_env : Group.Env := Group.MkEnv (Some "member") true true true.

(** 201 and 202 are male and premium, 203 is female. *)
Definition filtering_users : gmap Z user_row :=
  <[201 := profile "male" (Some (400 * DAY))]>
    (<[202 := profile "male" (Some (400 * DAY))]>
       (<[203 := profile "female" None]> ∅)).

(** Nobody searches or chats; 201 and 202 have chosen the preference
    female. *)
Definition filtering_world : World :=
  MkWorld (MkDatabase filtering_users [] [] ∅) ∅ ∅ ∅ ∅
    (<[201 := "female"]> (<[202 := "female"]> ∅)).

(** An update handled on day 100 while the platform refuses every message
    for [p]. *)
Definition refusing (p : Z) : Env :=
  MkEnv (100 * DAY) (λ chat_id, negb (chat_id =? p)) true "SESSN1" "TAG00001" true.

(** 101 and 102 chat and 101 leaves, which shows both the button
    [find_new_partner].  Then 101 searches and is matched with 103, 102
    searches and waits, and 101 clicks the button of the earlier message. *)
Definition second_search : list (Env * update) :=
  [ (at_time 1000000, text_message true 101 "/chat");
    (at_time 2000000, text_message true 102 "/chat");
    (at_time 3000000, text_message true 101 "/exit");
    (at_time 4000000, text_message true 101 "/chat");
    (at_time 5000000, text_message true 103 "/chat");
    (at_time 6000000, text_message true 102 "/chat");
    (at_time 7000000, button_click 101 find_new_partner) ].

(** 201 searches, 202 searches, 201 searches again, then 203 searches. *)
Definition requeue : list (Env * update) :=
  [ (at_time 1000000, text_message true 201 "/chat");
    (at_time 2000000, text_message true 202 "/chat");
    (at_time 3000000, text_message true 201 "/chat");
    (at_time 4000000, text_message true 203 "/chat") ].

End Example.

(** ** Vocabulary of the statements *)

(** The spec's [ceil(E - now)], in whole days. *)
Definition ceil_days (delta : Z) : Z := - ((- delta) `div` DAY).

(** The days the approval hands to [make_premium]. *)
Definition approved_days (now : Z) (r : user_row) (days_to_add : Z) : Z :=
  match vip_expiry r with
  | Some e => if e >? now then td_days (e - now) + 1 + days_to_add else days_to_add
  | None => days_to_add
  end.

(** The ids of [active_chats], row by row, both sides. *)
Definition session_ids (chats : list (Z * Z)) : list Z :=
  flat_map (λ row, [row.1; row.2]) chats.

(** Every id is in at most one session, and no session pairs an id with
    itself. *)
Definition sessions_wf (d : Database) : Prop :=
  NoDup (session_ids (active_chats d)).

(** Nobody is both queued and in a session. *)
Definition queue_excl (d : Database) : Prop :=
  ∀ row, row ∈ search_queue d → row.1 ∉ session_ids (active_chats d).

(** [user_id] is the primary key of [search_queue]. *)
Definition queue_keyed (d : Database) : Prop :=
  NoDup (search_queue d).*1.

(** A text the relay forwards: no link, no command, no menu label. *)
Definition relayable (text : string) : Prop :=
  has_link text = false
  ∧ startswith "/" text = false
  ∧ str_in text blocked_words = false.

(** The commands and menu labels [handle_text] answers before it reads the
    sender's profile. *)
Definition early_commands : list string :=
  ["❌ Exit Chat"; "/exit"; "🚨 Report Partner"] ++ MENU_BUTTONS.

(** A text that reaches the profile check of [handle_text]. *)
Definition passes_early (text : string) : Prop :=
  str_in text early_commands = false ∧ startswith "/report" text = false.

(** All the commands and menu labels [handle_text] answers itself before it
    comes to the relay. *)
Definition own_commands : list string :=
  early_commands ++ ["/preferences"; "/rechat"; "/chat"; "/settings"; "/premium"].

(** A text none of the menus of [handle_text] takes. *)
Definition passes_menus (text : string) : Prop :=
  str_in text own_commands = false ∧ startswith "/report" text = false.

(** The user owes the bot a typed answer (a report reason, or a profile
    field); a pending plan selection is not one. *)
Definition awaits_input (state : option ustate) : bool :=
  match state with
  | None | Some (WAITING_PAYMENT _) => false
  | Some _ => true
  end.

(** [is_registered] of [handle_text]. *)
Definition is_registered (r : user_row) : bool :=
  truthy_str (gender r) && truthy (age r) && truthy_str (country r).

(** A sender [handle_text] takes to its menus and relay: not banned, owing
    no answer, with a complete profile. *)
Definition ready (w : World) (user_id : Z) : Prop :=
  (user_id ∉ banned_users (db w))
  ∧ awaits_input (user_states w !! user_id) = false
  ∧ (∃ r, users (db w) !! user_id = Some r ∧ is_registered r = true).

(** A piece of handler code that leaves the tables as they are. *)
Definition reads_only {A : Type} (m : M A) : Prop :=
  ∀ w, db (m w).1.2 = db w.

(** Runs a handler symbolically: unfolds the monad and simplifies. *)
Ltac exec :=
  repeat (progress (cbn;
    unfold mbind, mret, M_bind, M_ret, sql_mbind, sql_ret, try_except, try_catch,
      await, await_checked, emit, raise, return_, when, modify, get, proc, reply_text,
      deliver,
      on_query, if_truthy, send_log, int)).

(** ** The storage layer, statement by statement *)

Section DbFacts.

Implicit Types (d : Database) (u p : Z).

Lemma run_bind {A B : Type} (f : A → sql B) (m : sql A) d :
  run (m ≫= f) d = run (f (run m d).1) (run m d).2.
Proof.
  revert d. induction m as [a | stmt k IH | C query k IH]; intros d; simpl.
  - reflexivity.
  - apply IH.
  - apply IH.
Qed.

Lemma find_eligible d u f row :
  select_candidate u f d = Some row →
  row ∈ search_queue d ∧ row.1 ≠ u ∧ (f ≠ "any" → has_gender d f row.1 = true).
Proof.
  unfold select_candidate. intros H.
  apply find_some in H as [Hin Hel].
  unfold eligible in Hel.
  apply andb_true_iff in Hel as [Hne Hg].
  split; [by apply list_elem_of_In|].
  split.
  - apply negb_true_iff, Z.eqb_neq in Hne. exact Hne.
  - intros Hf. destruct (String.eqb f "any") eqn:E; [|exact Hg].
    apply String.eqb_eq in E. contradiction.
Qed.

Lemma find_match_result d u f :
  (run (find_match u f) d).1 = fst <$> select_candidate u f d.
Proof.
  unfold find_match. simpl.
  destruct (select_candidate u f d) as [row|]; reflexivity.
Qed.

Lemma get_partner_result d u :
  (run (get_partner u) d).1 =
  (λ r : Z * Z, if r.1 =? u then r.2 else r.1) <$> List.find (mentions u) (active_chats d).
Proof.
  unfold get_partner. simpl.
  destruct (List.find (mentions u) (active_chats d)); reflexivity.
Qed.

Lemma get_partner_none d u :
  (∀ row, row ∈ active_chats d → mentions u row = false) →
  (run (get_partner u) d).1 = None.
Proof.
  intros H. rewrite get_partner_result.
  destruct (List.find (mentions u) (active_chats d)) as [row|] eqn:E; [|reflexivity].
  apply find_some in E as [Hin Hm].
  rewrite (H row) in Hm; [discriminate|by apply list_elem_of_In].
Qed.

End DbFacts.

Section Matching.

Implicit Types (d : Database) (u p : Z) (q : list (Z * string)).

Lemma has_gender_stored d f u :
  has_gender d f u = true ↔ ∃ r, users d !! u = Some r ∧ gender r = Some f.
Proof.
  unfold has_gender. split.
  - destruct (users d !! u) as [r|]; [|discriminate].
    destruct (gender r) as [g|] eqn:G; [|discriminate].
    intros E. apply String.eqb_eq in E. subst g. by exists r.
  - intros (r & -> & ->). apply String.eqb_refl.
Qed.

Lemma find_is_head_filter {A : Type} (P : A → bool) (l : list A) :
  List.find P l = head (List.filter P l).
Proof.
  induction l as [|x l IH]; simpl; [reflexivity|].
  destruct (P x); [reflexivity|exact IH].
Qed.

Lemma select_any_head d u :
  select_candidate u "any" d = head (filter (λ row, row.1 ≠ u) (search_queue d)).
Proof.
  unfold select_candidate.
  induction (search_queue d) as [|row q IH]; [reflexivity|].
  simpl. unfold eligible at 1. simpl. rewrite andb_true_r.
  rewrite filter_cons.
  destruct (decide (row.1 ≠ u)) as [Hne|Heq].
  - apply Z.eqb_neq in Hne. rewrite Hne. reflexivity.
  - apply dec_stable in Heq. apply Z.eqb_eq in Heq. rewrite Heq. simpl. exact IH.
Qed.

(** A new entrant goes to the end of the queue, and so does one who is
    queued already. *)
Lemma filter_other_id q u : u ∉ q.*1 → filter (λ row : Z * string, row.1 ≠ u) q = q.
Proof.
  induction q as [|row q IH]; intros Hu; [reflexivity|].
  rewrite filter_cons. rewrite fmap_cons in Hu.
  apply not_elem_of_cons in Hu as [Hne Hu].
  destruct (decide (row.1 ≠ u)) as [_|Heq]; [by rewrite IH|].
  exfalso. apply Heq. congruence.
Qed.

Lemma upsert_queue_new q u f :
  u ∉ q.*1 → upsert_queue u f q = q ++ [(u, f)].
Proof. intros Hu. unfold upsert_queue. by rewrite filter_other_id. Qed.

Lemma upsert_queue_ids q u f :
  (upsert_queue u f q).*1 = filter (λ v, v ≠ u) q.*1 ++ [u].
Proof.
  unfold upsert_queue. rewrite fmap_app. f_equal.
  induction q as [|row q IH]; [reflexivity|].
  rewrite fmap_cons, !filter_cons.
  destruct (decide (row.1 ≠ u)); [rewrite fmap_cons|]; by rewrite IH.
Qed.

Lemma select_none d u f :
  select_candidate u f d = None ↔
  ∀ row, row ∈ search_queue d → eligible d u f row = false.
Proof.
  unfold select_candidate. split.
  - intros H row Hin. apply list_elem_of_In in Hin.
    exact (find_none _ _ H row Hin).
  - intros H. destruct (List.find _ _) as [row|] eqn:E; [|reflexivity].
    apply find_some in E as [Hin Hel].
    rewrite (H row) in Hel; [discriminate|by apply list_elem_of_In].
Qed.

End Matching.

(** C5.  No self-match: whatever the tables hold and whatever the filter,
    [find_match(u, filter)] does not return [u]. *)
Theorem find_match_never_self (d : Database) (user_id : Z) (looking_for : string) :
  (run (find_match user_id looking_for) d).1 ≠ Some user_id.
Proof.
  rewrite find_match_result.
  destruct (select_candidate user_id looking_for d) as [row|] eqn:E; [|discriminate].
  apply find_eligible in E as (_ & Hne & _).
  simpl. congruence.
Qed.

Lemma find_match_never_self_witness :
  (run (find_match 101 "any") Example.two_waiting).1 = Some 102
  ∧ (run (find_match 101 "any") Example.two_waiting).1 ≠ Some 101.
Proof.
  split.
  - vm_compute. reflexivity.
  - apply (find_match_never_self Example.two_waiting 101 "any").
Defined.

(** C6, as the code has it.  With a filter other than ['any'] the partner
    [find_match] returns is a queued user whose stored gender equals the
    filter, and there is no match exactly as long as no queued user other
    than the caller has that gender; with ['any'] the match is the first row
    the scan of the queue returns whose id is not the caller's, whatever
    that row's own [looking_for].  The scan returns the rows in the order of
    each user's latest [add_to_queue]: entering again moves a user to the
    end. *)
Theorem find_match_one_sided_filter (d : Database) (user_id : Z) (looking_for : string) :
  (looking_for ≠ "any" →
   ∀ p, (run (find_match user_id looking_for) d).1 = Some p →
        p ∈ (search_queue d).*1 ∧
        ∃ r, users d !! p = Some r ∧ gender r = Some looking_for)
  ∧ (looking_for ≠ "any" →
     ((run (find_match user_id looking_for) d).1 = None ↔
      ∀ row, row ∈ search_queue d → row.1 ≠ user_id →
             ¬ ∃ r, users d !! row.1 = Some r ∧ gender r = Some looking_for))
  ∧ (run (find_match user_id "any") d).1
    = fst <$> head (filter (λ row, row.1 ≠ user_id) (search_queue d))
  ∧ search_queue (run (add_to_queue user_id looking_for) d).2
    = filter (λ row, row.1 ≠ user_id) (search_queue d) ++ [(user_id, looking_for)].
Proof.
  split; [|split; [|split; [|reflexivity]]].
  - intros Hf p. rewrite find_match_result.
    destruct (select_candidate user_id looking_for d) as [row|] eqn:E; [|discriminate].
    apply find_eligible in E as (Hin & _ & Hg).
    simpl. intros [= <-]. split.
    + apply list_elem_of_fmap. by exists row.
    + apply has_gender_stored. by apply Hg.
  - intros Hf. rewrite find_match_result.
    assert (Hany : String.eqb looking_for "any" = false)
      by (apply String.eqb_neq; exact Hf).
    split.
    + intros H row Hin Hne Hg.
      destruct (select_candidate user_id looking_for d) eqn:E; [discriminate|].
      pose proof (proj1 (select_none _ _ _) E row Hin) as Hel.
      unfold eligible in Hel. rewrite Hany in Hel.
      apply has_gender_stored in Hg. rewrite Hg in Hel.
      apply Z.eqb_neq in Hne. rewrite Hne in Hel. discriminate.
    + intros H.
      destruct (select_candidate user_id looking_for d) as [row|] eqn:E; [|reflexivity].
      apply find_eligible in E as (Hin & Hne & Hg).
      exfalso. apply (H row Hin Hne). apply has_gender_stored. by apply Hg.
  - rewrite find_match_result, select_any_head. reflexivity.
Qed.

Section Ban.

Implicit Types (d : Database) (u p : Z).

Lemma ban_user_state d u :
  (run (ban_user u) d).2 =
  MkDatabase (delete u (users d))
             (filter (λ row, row.1 ≠ u) (search_queue d))
             (filter (λ row, mentions u row = false) (active_chats d))
             ({[u]} ∪ banned_users d).
Proof. reflexivity. Qed.

Lemma mentions_sides u (row : Z * Z) :
  mentions u row = false ↔ row.1 ≠ u ∧ row.2 ≠ u.
Proof.
  unfold mentions. rewrite orb_false_iff, !Z.eqb_neq. reflexivity.
Qed.

Lemma is_searching_result d u :
  (run (is_searching u) d).1 = bool_decide (u ∈ (search_queue d).*1).
Proof. reflexivity. Qed.

Lemma mentions_in_ids u (chats : list (Z * Z)) (row : Z * Z) :
  row ∈ chats → mentions u row = true → u ∈ session_ids chats.
Proof.
  intros Hin Hm. unfold session_ids. apply list_elem_of_In, in_flat_map.
  exists row. split; [by apply list_elem_of_In|].
  unfold mentions in Hm. apply orb_true_iff in Hm as [H|H]; apply Z.eqb_eq in H; subst u.
  - by left.
  - right. by left.
Qed.

(** Where every id is in at most one session, the row that mentions an id
    is the only one. *)
Lemma wf_one_row p (chats : list (Z * Z)) (r1 r2 : Z * Z) :
  NoDup (session_ids chats) →
  r1 ∈ chats → r2 ∈ chats → mentions p r1 = true → mentions p r2 = true → r1 = r2.
Proof.
  induction chats as [|row chats IH]; intros Hnd H1 H2 M1 M2.
  - by apply elem_of_nil in H1.
  - cbn [session_ids flat_map app] in Hnd. fold (session_ids chats) in Hnd.
    apply NoDup_cons in Hnd as [Hx Hnd]. apply NoDup_cons in Hnd as [Hy Hnd].
    assert (Hrow : ∀ r, r ∈ chats → mentions p r = true → mentions p row = false).
    { intros r Hr Mr. pose proof (mentions_in_ids p chats r Hr Mr) as Hp.
      apply mentions_sides. split; intros E; subst p.
      - apply Hx. by apply list_elem_of_further.
      - by apply Hy. }
    apply elem_of_cons in H1 as [->|H1]; apply elem_of_cons in H2 as [->|H2].
    + reflexivity.
    + rewrite (Hrow r2 H2 M2) in M1. discriminate.
    + rewrite (Hrow r1 H1 M1) in M2. discriminate.
    + by apply IH.
Qed.

(** On well-formed sessions, every row with the partner of [u] is the row
    with [u]. *)
Lemma wf_partner_rows d u p :
  sessions_wf d → (run (get_partner u) d).1 = Some p →
  ∀ row, row ∈ active_chats d → mentions p row = true → mentions u row = true.
Proof.
  unfold sessions_wf. rewrite get_partner_result. intros Hwf Hp row Hin Hm.
  destruct (List.find (mentions u) (active_chats d)) as [r|] eqn:E; [|discriminate].
  apply find_some in E as [Hr Hu]. apply list_elem_of_In in Hr.
  simpl in Hp. injection Hp as Hp.
  assert (Hpr : mentions p r = true).
  { unfold mentions in *. subst p. destruct (r.1 =? u) eqn:E1.
    - rewrite Z.eqb_refl. apply orb_true_r.
    - rewrite Z.eqb_refl. reflexivity. }
  by rewrite (wf_one_row p _ row r Hwf Hin Hr Hm Hpr).
Qed.

End Ban.


Lemma find_match_one_sided_filter_witness :
  (run (find_match 102 "female") Example.two_waiting).1 = None
  ∧ (run (find_match 101 "any") Example.two_waiting).1 = Some 102
  ∧ (run (find_match 102 "female") Example.three_waiting).1 = Some 103
  ∧ ∃ r, users Example.three_waiting !! 103 = Some r ∧ gender r = Some "female".
Proof.
  split; [vm_compute; reflexivity|].
  split; [vm_compute; reflexivity|].
  split; [vm_compute; reflexivity|].
  refine (proj2 (proj1 (find_match_one_sided_filter Example.three_waiting 102 "female")
                   _ 103 _)).
  - discriminate.
  - vm_compute. reflexivity.
Defined.

(** C6, counterexample.  201 and 202, both male, search for a female
    partner and wait, 201 first.  201 searches again, which moves 201 behind
    202, and then 203 searches with ['any']: the match is 202, not 201, the
    first who queued and still waits. *)
Lemma find_match_takes_the_later_entrant :
  search_queue (db (run_updates Example.cfg0 (take 2 Example.requeue)
                      Example.filtering_world).1)
  = [(201, "female"); (202, "female")]
  ∧ search_queue (db (run_updates Example.cfg0 (take 3 Example.requeue)
                        Example.filtering_world).1)
    = [(202, "female"); (201, "female")]
  ∧ (run (find_match 203 "any")
       (db (run_updates Example.cfg0 (take 3 Example.requeue)
              Example.filtering_world).1)).1 = Some 202
  ∧ active_chats (db (run_updates Example.cfg0 Example.requeue
                        Example.filtering_world).1)
    = [(203, 202)]
  ∧ search_queue (db (run_updates Example.cfg0 Example.requeue
                        Example.filtering_world).1)
    = [(201, "female")].
Proof. repeat split; vm_compute; reflexivity. Qed.



Lemma upsert_queue_queued (q : list (Z * string)) (u : Z) (f : string) :
  u ∈ (upsert_queue u f q).*1.
Proof.
  unfold upsert_queue. rewrite fmap_app. apply elem_of_app. right.
  apply list_elem_of_here.
Qed.

(** C1, as the code has it.  A successful [find_match(user, filter)] commits
    two statements, first the new row of [active_chats], then the deletion
    of both queue rows; once it has returned, the session row of the two ids
    exists and neither is queued, and nothing else was written.  Without a
    match nothing is committed, so the caller, queued by [add_to_queue] just
    before, stays queued. *)
Theorem find_match_commits (d : Database) (user_id : Z) (looking_for : string) :
  match (run (find_match user_id looking_for) d).1 with
  | Some p =>
      let d1 := set_chats (λ c, c ++ [(user_id, p)]) d in
      let d2 := set_queue (filter (λ row, ¬ (row.1 = user_id ∨ row.1 = p))) d1 in
      committed (find_match user_id looking_for) d = [d1; d2]
      ∧ (run (find_match user_id looking_for) d).2 = d2
      ∧ (user_id, p) ∈ active_chats d2
      ∧ (run (is_searching user_id) d2).1 = false
      ∧ (run (is_searching p) d2).1 = false
      ∧ search_queue d1 = search_queue d
  | None =>
      committed (find_match user_id looking_for) d = []
      ∧ (run (find_match user_id looking_for) d).2 = d
  end
  ∧ let searched :=
      run (add_to_queue user_id looking_for;; find_match user_id looking_for) d in
    match searched.1 with
    | Some p => (run (is_searching user_id) searched.2).1 = false
    | None => (run (is_searching user_id) searched.2).1 = true
    end.
Proof.
  split.
  - unfold find_match. simpl.
    destruct (select_candidate user_id looking_for d) as [row|] eqn:E; simpl.
    + split; [reflexivity|]. split; [reflexivity|].
      split; [set_solver|].
      split.
      * apply bool_decide_eq_false.
        intros Hin. apply list_elem_of_fmap in Hin as (r & -> & Hin).
        apply list_elem_of_filter in Hin as [Hne _]. apply Hne. by left.
      * split; [|reflexivity].
        apply bool_decide_eq_false.
        intros Hin. apply list_elem_of_fmap in Hin as (r & Hr & Hin).
        apply list_elem_of_filter in Hin as [Hne _]. apply Hne. by right.
    + split; reflexivity.
  - unfold find_match, add_to_queue. simpl.
    destruct (select_candidate user_id looking_for _) as [row|] eqn:E; simpl.
    + apply bool_decide_eq_false.
      intros Hin. apply list_elem_of_fmap in Hin as (r & -> & Hin).
      apply list_elem_of_filter in Hin as [Hne _]. apply Hne. by left.
    + apply bool_decide_eq_true. apply upsert_queue_queued.
Qed.

(** C1, counterexample.  102 is queued and calls [find_match(102, 'any')]
    with 101 waiting: the call succeeds, and the first state it commits has
    both 101 and 102 in the queue and in the session at once. *)
Lemma find_match_not_atomic :
  (run (find_match 102 "any") Example.two_waiting).1 = Some 101
  ∧ ∃ s, s ∈ committed (find_match 102 "any") Example.two_waiting
         ∧ (run (is_searching 102) s).1 = true
         ∧ (run (get_partner 102) s).1 = Some 101
         ∧ (run (is_searching 101) s).1 = true
         ∧ (run (get_partner 101) s).1 = Some 102.
Proof.
  split; [vm_compute; reflexivity|].
  exists (set_chats (λ c, c ++ [(102, 101)]) Example.two_waiting).
  split.
  - vm_compute. apply list_elem_of_here.
  - repeat split; vm_compute; reflexivity.
Qed.

(** ** Entitlement: [make_premium], [/addvip], [/removevip], approval *)

Section Entitlement.

Context (cfg : Config) (env : Env).

Implicit Types (d : Database) (w : World) (r : user_row).

Lemma days_from_sum now days e :
  days_from now days = Some e → e = now + days * DAY.
Proof.
  unfold days_from, timedelta_days, datetime_add.
  destruct (Z.abs days <=? 999999999); [|discriminate]. simpl.
  destruct ((0 <=? now + days * DAY) && (now + days * DAY <=? MAX_DATETIME));
    [|discriminate].
  by intros [= <-].
Qed.

(** Zero days from a [datetime] is that [datetime]. *)
Lemma days_from_zero now :
  0 ≤ now ≤ MAX_DATETIME → days_from now 0 = Some now.
Proof.
  intros [H0 H1]. unfold days_from, timedelta_days, datetime_add. simpl.
  rewrite Z.add_0_r.
  apply Z.leb_le in H0, H1. rewrite H0, H1. reflexivity.
Qed.

Lemma upsert_expiry_lookup (us : gmap Z user_row) (u e : Z) :
  upsert_expiry u e us !! u =
  Some (from_option
          (λ r, UserRow (gender r) (country r) (age r) (is_premium r) (Some e) None)
          (UserRow None None None false (Some e) None)
          (us !! u)).
Proof.
  unfold upsert_expiry. destruct (us !! u); simpl; apply lookup_insert_eq.
Qed.

Lemma upsert_expiry_other (us : gmap Z user_row) (u v e : Z) :
  v ≠ u → upsert_expiry u e us !! v = us !! v.
Proof.
  intros H. unfold upsert_expiry. destruct (us !! u); by apply lookup_insert_ne.
Qed.

(** [make_premium] either raises and writes nothing, or writes the one
    upsert. *)
Lemma make_premium_run d now u days :
  run (make_premium now u days) d =
  match days_from now days with
  | Some e => (Some tt, set_users (upsert_expiry u e) d)
  | None => (None, d)
  end.
Proof.
  unfold make_premium. destruct (days_from now days); reflexivity.
Qed.

(** [/removevip <uid>] from the admin changes the database as
    [make_premium(uid, 0)] does, delivered or not. *)
Lemma removevip_db w uid :
  db (world (admin_op cfg env (ADMIN_ID cfg) "/removevip" [TInt uid] w))
  = (run (make_premium (now env) uid 0) (db w)).2.
Proof.
  unfold admin_op, world. exec. rewrite Z.eqb_refl. exec.
  rewrite make_premium_run.
  destruct (days_from (now env) 0); exec;
    destruct (delivers env (ADMIN_ID cfg)); exec; reflexivity.
Qed.

(** [/addvip <uid> <days>] from the admin changes the database as
    [make_premium(uid, days)] does. *)
Lemma addvip_db w uid days :
  db (world (admin_op cfg env (ADMIN_ID cfg) "/addvip" [TInt uid; TInt days] w))
  = (run (make_premium (now env) uid days) (db w)).2.
Proof.
  unfold admin_op, world. exec. rewrite Z.eqb_refl. exec.
  rewrite make_premium_run.
  destruct (days_from (now env) days); exec;
    destruct (delivers env (ADMIN_ID cfg)); exec; reflexivity.
Qed.

(** The approval changes the database as [make_premium(target, total_days)]
    does, before anything else that can fail. *)
Lemma approve_db w admin target days r :
  users (db w) !! target = Some r →
  db (world (handle_payment_selection cfg env admin (approve_ target days) w))
  = (run (make_premium (now env) target (approved_days (now env) r days)) (db w)).2.
Proof.
  intros Hr. unfold handle_payment_selection, world, approved_days. exec.
  rewrite Hr. exec.
  destruct (vip_expiry r) as [e|]; [destruct (e >? now env)|]; exec;
    rewrite make_premium_run;
    match goal with
    | |- context [days_from ?n ?t] => destruct (days_from n t)
    end; exec; try reflexivity;
    destruct (query_ok env); exec; try reflexivity;
    destruct (LOG_PAYMENTS cfg =? 0); exec;
    repeat (match goal with
            | |- context [delivers env ?c] => destruct (delivers env c); exec
            end); reflexivity.
Qed.

End Entitlement.



Lemma floor_ceil_days (delta : Z) :
  0 ≤ (td_days delta + 1 - ceil_days delta) * DAY ≤ DAY.
Proof.
  unfold td_days, ceil_days, DAY. Z.div_mod_to_equations. lia.
Qed.




(** C3, as the code has it.  [/addvip user days] and the approval both write
    through [make_premium], but only the approval stacks: [/addvip] hands over
    [days] as typed.  For a user with a profile row the two leave the same
    database when the stored expiry is unset or not in the future; when it
    lies in the future the approval hands over [floor(E - now) + 1] days
    more. *)
Theorem addvip_does_not_stack (cfg : Config) (env : Env) (w : World)
    (admin uid days : Z) (r : user_row) :
  users (db w) !! uid = Some r →
  let by_addvip :=
    db (world (admin_op cfg env (ADMIN_ID cfg) "/addvip" [TInt uid; TInt days] w)) in
  let by_approve :=
    db (world (handle_payment_selection cfg env admin (approve_ uid days) w)) in
  by_addvip = (run (make_premium (now env) uid days) (db w)).2
  ∧ ((vip_expiry r = None ∨ ∃ E, vip_expiry r = Some E ∧ E ≤ now env) →
     by_approve = by_addvip)
  ∧ (∀ E, vip_expiry r = Some E → now env < E →
       by_approve
       = (run (make_premium (now env) uid (td_days (E - now env) + 1 + days)) (db w)).2).
Proof.
  intros Hr by_addvip by_approve. subst by_addvip by_approve.
  rewrite addvip_db, (approve_db cfg env w admin uid days r Hr).
  split; [reflexivity|]. unfold approved_days. split.
  - intros [HN | (E & HE & Hpast)].
    + rewrite HN. reflexivity.
    + rewrite HE. replace (E >? now env) with false; [reflexivity|].
      symmetry. rewrite Z.gtb_ltb. apply Z.ltb_ge. exact Hpast.
  - intros E HE Hfut. rewrite HE.
    replace (E >? now env) with true by (symmetry; apply Z.gtb_lt; lia).
    reflexivity.
Qed.

Lemma addvip_does_not_stack_witness :
  users (db Example.idle_world) !! 101 = Some (Example.profile "male" None)
  ∧ db (world (handle_payment_selection Example.cfg0 Example.env0 1
                 (approve_ 101 30) Example.idle_world))
    = db (world (admin_op Example.cfg0 Example.env0 1 "/addvip"
                   [TInt 101; TInt 30] Example.idle_world)).
Proof.
  split; [vm_compute; reflexivity|].
  refine (proj1 (proj2 (addvip_does_not_stack Example.cfg0 Example.env0
                          Example.idle_world 1 101 30
                          (Example.profile "male" None) _)) _).
  - vm_compute. reflexivity.
  - left. reflexivity.
Defined.

(** C3, counterexample.  On day 100 user 102 holds an expiry on day 400.
    [/addvip 102 30] moves the expiry to day 130; approving 30 days for 102
    from the same state moves it to day 431. *)
Lemma addvip_differs_from_approve :
  (users (db (world (admin_op Example.cfg0 Example.env0 1 "/addvip"
                       [TInt 102; TInt 30] Example.idle_world))) !! 102)
    ≫= vip_expiry = Some (130 * DAY)
  ∧ (users (db (world (handle_payment_selection Example.cfg0 Example.env0 1
                         (approve_ 102 30) Example.idle_world))) !! 102)
    ≫= vip_expiry = Some (431 * DAY).
Proof. split; vm_compute; reflexivity. Qed.

(** ** Sessions over sequences of updates *)

Section Sessions.

Implicit Types (d : Database) (u p : Z) (chats : list (Z * Z)).

Lemma find_mentions_none u chats :
  u ∉ session_ids chats → List.find (mentions u) chats = None.
Proof.
  intros Hu. destruct (List.find (mentions u) chats) as [row|] eqn:E; [|reflexivity].
  apply find_some in E as [Hin Hm]. exfalso. apply Hu.
  eapply mentions_in_ids; [by apply list_elem_of_In|exact Hm].
Qed.

Lemma other_side_in u chats row :
  row ∈ chats → (if row.1 =? u then row.2 else row.1) ∈ session_ids chats.
Proof.
  intros Hin. unfold session_ids. apply list_elem_of_In, in_flat_map.
  exists row. split; [by apply list_elem_of_In|].
  destruct (row.1 =? u); simpl; auto.
Qed.

(** On well-formed sessions the partner's partner is the user. *)
Lemma partner_symmetric chats u p :
  NoDup (session_ids chats) →
  (λ r : Z * Z, if r.1 =? u then r.2 else r.1) <$> List.find (mentions u) chats = Some p →
  (λ r : Z * Z, if r.1 =? p then r.2 else r.1) <$> List.find (mentions p) chats = Some u.
Proof.
  induction chats as [|row chats IH]; [discriminate|].
  intros Hnd. cbn [session_ids flat_map app] in Hnd. fold (session_ids chats) in Hnd.
  apply NoDup_cons in Hnd as [H1 Hnd]. apply NoDup_cons in Hnd as [H2 Hnd].
  assert (Hne : row.1 ≠ row.2) by (intros E; apply H1; rewrite E; apply list_elem_of_here).
  assert (H1' : row.1 ∉ session_ids chats)
    by (intros E; apply H1; by apply list_elem_of_further).
  cbn [List.find]. unfold mentions at 1.
  destruct (row.1 =? u) eqn:Eu1.
  - apply Z.eqb_eq in Eu1. simpl. rewrite Eu1, Z.eqb_refl. intros [= <-].
    unfold mentions. rewrite Z.eqb_refl, orb_true_r. simpl.
    replace (row.1 =? row.2) with false by (symmetry; by apply Z.eqb_neq).
    by rewrite Eu1.
  - destruct (row.2 =? u) eqn:Eu2.
    + apply Z.eqb_eq in Eu2. simpl. rewrite Eu1. intros [= <-].
      unfold mentions. rewrite Z.eqb_refl. simpl. rewrite Z.eqb_refl. by rewrite Eu2.
    + simpl. intros Hp.
      assert (Hpin : p ∈ session_ids chats).
      { destruct (List.find (mentions u) chats) as [r'|] eqn:E; [|discriminate].
        apply find_some in E as [Hin _]. simpl in Hp. injection Hp as <-.
        apply other_side_in. by apply list_elem_of_In. }
      assert (Hm : mentions p row = false).
      { unfold mentions. apply orb_false_iff. split; apply Z.eqb_neq; intros E; subst p;
          [by apply H1'|by apply H2]. }
      rewrite Hm. by apply IH.
Qed.

(** Where the sessions are well formed, [get_partner] is symmetric. *)
Lemma get_partner_symmetric d u p :
  sessions_wf d →
  (run (get_partner u) d).1 = Some p → (run (get_partner p) d).1 = Some u.
Proof.
  unfold sessions_wf. rewrite !get_partner_result. apply partner_symmetric.
Qed.

Lemma upsert_queue_elem (q : list (Z * string)) u f (row : Z * string) :
  row ∈ upsert_queue u f q → row.1 = u ∨ row ∈ q.
Proof.
  unfold upsert_queue. intros Hin. apply elem_of_app in Hin as [Hin|Hin].
  - right. by apply list_elem_of_filter in Hin as [_ Hin].
  - left. apply list_elem_of_singleton in Hin. by subst row.
Qed.

(** The search of [💬 Chat], run past its guard (the caller has no session),
    keeps the sessions well formed and the queue disjoint from them. *)
Lemma guarded_search_keeps_sessions_wf d u f :
  sessions_wf d → queue_excl d → u ∉ session_ids (active_chats d) →
  let d' := (run (add_to_queue u f;; find_match u f) d).2 in
  sessions_wf d' ∧ queue_excl d'.
Proof.
  intros Hwf Hex Hu. cbv zeta. unfold add_to_queue, find_match. simpl.
  set (dq := set_queue (upsert_queue u f) d).
  assert (Hq : ∀ row, row ∈ search_queue dq → row.1 = u ∨ row.1 ∉ session_ids (active_chats d)).
  { subst dq. simpl. intros row Hin.
    destruct (upsert_queue_elem (search_queue d) u f row Hin) as [H|H]; [by left|].
    right. by apply Hex. }
  destruct (select_candidate u f dq) as [row|] eqn:E; simpl.
  - apply find_eligible in E as (Hin & Hne & _).
    assert (Hp : row.1 ∉ session_ids (active_chats d))
      by (destruct (Hq row Hin) as [H|H]; [contradiction|exact H]).
    assert (Hids : session_ids (active_chats d ++ [(u, row.1)])
                   = session_ids (active_chats d) ++ [u; row.1]).
    { unfold session_ids. rewrite flat_map_app. reflexivity. }
    split.
    + unfold sessions_wf. simpl. rewrite Hids. apply NoDup_app. split; [exact Hwf|].
      split.
      * intros x Hx Hx'. apply elem_of_cons in Hx' as [->|Hx']; [contradiction|].
        apply list_elem_of_singleton in Hx'. subst x. contradiction.
      * apply NoDup_cons. split; [|apply NoDup_singleton].
        intros H. apply list_elem_of_singleton in H. congruence.
    + intros r Hr. simpl in Hr. apply list_elem_of_filter in Hr as [Hnot Hr].
      simpl. rewrite Hids. intros Hx. apply elem_of_app in Hx as [Hx|Hx].
      * destruct (Hq r Hr) as [H|H]; [apply Hnot; by left|contradiction].
      * apply Hnot. apply elem_of_cons in Hx as [->|Hx]; [by left|].
        apply list_elem_of_singleton in Hx. by right.
  - split; [exact Hwf|].
    intros r Hr. simpl in Hr. destruct (Hq r Hr) as [H|H]; [by rewrite H|exact H].
Qed.

End Sessions.

(** C4, the failing run.  The guard of [💬 Chat] ("BLOCK IF ALREADY IN CHAT")
    is missing where the button [find_new_partner] runs the same search: after
    [Example.second_search], 101 is in two rows of [active_chats], the partner
    of 102 is 101 and the partner of 101 is 103. *)
Theorem find_new_partner_second_session :
  let w := (run_updates Example.cfg0 Example.second_search Example.idle_world).1 in
  send_message 101 (YouLeftTheChat "TAG00001") [report_ "TAG00001"; find_new_partner]
    ∈ (run_updates Example.cfg0 (take 3 Example.second_search) Example.idle_world).2
  ∧ active_chats (db w) = [(103, 101); (101, 102)]
  ∧ (run (get_partner 102) (db w)).1 = Some 101
  ∧ (run (get_partner 101) (db w)).1 = Some 103.
Proof.
  cbv zeta. split.
  - vm_compute. do 4 apply list_elem_of_further. apply list_elem_of_here.
  - repeat split; vm_compute; reflexivity.
Qed.

(** ** Relay: text, media, payment proofs *)

Section Monad.

Lemma set_db_id (w : World) : set_db (db w) w = w.
Proof. by destruct w. Qed.

(** A step that neither writes nor sends hands its value to the rest. *)
Lemma bind_pure {A B : Type} (m : M A) (k : A → M B) (w : World) (a : A) :
  m w = (Ok a, w, []) → (m ≫= k) w = k a w.
Proof.
  intros H. unfold mbind, M_bind. rewrite H.
  destruct (k a w) as [[r w'] out]. reflexivity.
Qed.

(** A method that executes nothing leaves the world as it is. *)
Lemma await_pure {A : Type} (p : sql A) (w : World) :
  (run p (db w)).2 = db w → await p w = (Ok (run p (db w)).1, w, []).
Proof.
  unfold await. destruct (run p (db w)) as [a d]. simpl. intros ->.
  by rewrite set_db_id.
Qed.

Lemma get_partner_state (d : Database) (u : Z) : (run (get_partner u) d).2 = d.
Proof.
  unfold get_partner. simpl.
  destruct (List.find (mentions u) (active_chats d)); reflexivity.
Qed.

Lemma when_false (m : M unit) (w : World) : when false m w = (Ok tt, w, []).
Proof. reflexivity. Qed.

Lemma get_pure {A : Type} (f : World → A) (w : World) : get f w = (Ok (f w), w, []).
Proof. reflexivity. Qed.

End Monad.

Section Labels.

Implicit Types (text s : string) (l : list string).

Lemma str_in_true s l : str_in s l = true ↔ s ∈ l.
Proof.
  unfold str_in. rewrite existsb_exists. split.
  - intros (x & Hin & E). apply String.eqb_eq in E. subst. by apply list_elem_of_In.
  - intros H. exists s. split; [by apply list_elem_of_In|apply String.eqb_refl].
Qed.

(** A relayable text is none of the commands and labels the handler tests
    for: each of them starts with a slash or is one of [blocked_words]. *)
Lemma relayable_not_in text l :
  relayable text →
  forallb (λ s, startswith "/" s || str_in s blocked_words) l = true →
  str_in text l = false.
Proof.
  intros (_ & Hslash & Hblocked) Hl.
  destruct (str_in text l) eqn:E; [|reflexivity].
  apply str_in_true in E. rewrite forallb_forall in Hl.
  apply list_elem_of_In in E. specialize (Hl text E).
  rewrite Hslash, Hblocked in Hl. discriminate.
Qed.

Lemma relayable_neq text s :
  relayable text →
  startswith "/" s || str_in s blocked_words = true →
  String.eqb text s = false.
Proof.
  intros (_ & Hslash & Hblocked) Hs.
  destruct (String.eqb text s) eqn:E; [|reflexivity].
  apply String.eqb_eq in E. subst s. rewrite Hslash, Hblocked in Hs. discriminate.
Qed.

Lemma relayable_no_prefix text s :
  relayable text → startswith "/" s = true → startswith s text = false.
Proof.
  intros (_ & Hslash & _) Hs. unfold startswith in *.
  destruct s as [|c s]; [discriminate|]. destruct text as [|c' text]; [reflexivity|].
  cbn [String.prefix] in *.
  destruct (ascii_dec "/" c) as [<-|]; [|discriminate].
  destruct (ascii_dec "/" c') as [<-|]; [|reflexivity].
  destruct text; discriminate.
Qed.

End Labels.

(** The pieces of [handle_text] a relayable text from a user who owes no
    answer falls through. *)
Section FallThrough.

Context (cfg : Config) (env : Env).

Implicit Types (w : World) (text : string) (state : option ustate).

Lemma exit_chat_skip user_id text state w :
  relayable text → exit_chat env user_id text state w = (Ok tt, w, []).
Proof.
  intros H. unfold exit_chat. rewrite (relayable_not_in text _ H) by reflexivity.
  reflexivity.
Qed.

Lemma cancel_command_skip user_id text state w :
  awaits_input state = false → cancel_command env user_id text state w = (Ok tt, w, []).
Proof.
  intros H. unfold cancel_command. destruct (str_in text _); [|reflexivity].
  destruct state as [[]|]; try discriminate; reflexivity.
Qed.

Lemma capture_report_reason_skip user_id text state w :
  awaits_input state = false →
  capture_report_reason cfg env user_id text state w = (Ok tt, w, []).
Proof.
  intros H. destruct state as [[]|]; try discriminate; reflexivity.
Qed.

Lemma manual_report_skip user_id text w :
  relayable text → manual_report env user_id text w = (Ok tt, w, []).
Proof.
  intros H. unfold manual_report.
  rewrite (relayable_neq text _ H) by reflexivity.
  rewrite (relayable_no_prefix text _ H) by reflexivity.
  reflexivity.
Qed.

Lemma menu_buttons_skip user_id text state w :
  relayable text → menu_buttons env user_id text state w = (Ok tt, w, []).
Proof.
  intros H. unfold menu_buttons. rewrite (relayable_not_in text _ H) by reflexivity.
  reflexivity.
Qed.

Lemma registration_input_skip user_id text state w :
  awaits_input state = false →
  registration_input cfg env user_id text state w = (Ok tt, w, []).
Proof.
  intros H. destruct state as [[]|]; try discriminate; reflexivity.
Qed.

Lemma preferences_menu_skip user_id text w :
  relayable text → preferences_menu env user_id text w = (Ok tt, w, []).
Proof.
  intros H. unfold preferences_menu.
  rewrite (relayable_not_in text _ H) by reflexivity. reflexivity.
Qed.

Lemma rechat_skip user_id text w :
  relayable text → rechat cfg env user_id text w = (Ok tt, w, []).
Proof.
  intros H. unfold rechat.
  rewrite (relayable_not_in text _ H) by reflexivity. reflexivity.
Qed.

Lemma chat_skip user_id text w :
  relayable text → chat cfg env user_id text w = (Ok tt, w, []).
Proof.
  intros H. unfold chat.
  rewrite (relayable_not_in text _ H) by reflexivity. reflexivity.
Qed.

Lemma settings_skip user_id text r w :
  relayable text → settings cfg env user_id text r w = (Ok tt, w, []).
Proof.
  intros H. unfold settings.
  rewrite (relayable_not_in text _ H) by reflexivity. reflexivity.
Qed.

Lemma premium_skip user_id text w :
  relayable text → premium env user_id text w = (Ok tt, w, []).
Proof.
  intros H. unfold premium.
  rewrite (relayable_not_in text _ H) by reflexivity. reflexivity.
Qed.

Lemma about_help_skip user_id text w :
  relayable text → about_help env user_id text w = (Ok tt, w, []).
Proof.
  intros H. unfold about_help.
  rewrite !(relayable_neq text _ H) by reflexivity. reflexivity.
Qed.

End FallThrough.

Section Relay.

Context (cfg : Config) (env : Env).

Implicit Types (w : World) (text : string).

Ltac pure_step :=
  first
    [ apply when_false
    | apply get_pure
    | apply await_pure; reflexivity
    | apply await_pure; apply get_partner_state
    | apply exit_chat_skip; assumption
    | apply cancel_command_skip; assumption
    | apply capture_report_reason_skip; assumption
    | apply manual_report_skip; assumption
    | apply menu_buttons_skip; assumption
    | apply registration_input_skip; assumption
    | apply preferences_menu_skip; assumption
    | apply rechat_skip; assumption
    | apply chat_skip; assumption
    | apply settings_skip; assumption
    | apply premium_skip; assumption
    | apply about_help_skip; assumption ].

Ltac next := erewrite bind_pure by pure_step; cbv beta.

(** 9. CHAT RELAY, for a relayable text and a reachable partner. *)
Lemma chat_relay_forwards w user_id p text :
  (run (get_partner user_id) (db w)).1 = Some p → p ≠ 0 →
  relayable text → delivers env p = true →
  chat_relay env user_id text w = (Returned, w, [send_text p text]).
Proof.
  intros Hp Hp0 (Hlink & Hslash & Hblocked) Hdel.
  unfold chat_relay. next. rewrite Hp.
  unfold if_truthy. apply Z.eqb_neq in Hp0. rewrite Hp0.
  rewrite Hlink, Hslash, Hblocked. cbn [negb orb].
  next. next.
  unfold mbind, M_bind, try_except, try_catch, deliver. rewrite Hdel.
  reflexivity.
Qed.

(** A relayable text from a registered user in a chat goes to the partner,
    and nothing else happens: no state is read but the tables and
    [user_states]. *)
Lemma handle_text_relays w user_id p text r :
  user_id ∉ banned_users (db w) →
  (run (get_partner user_id) (db w)).1 = Some p → p ≠ 0 →
  awaits_input (user_states w !! user_id) = false →
  users (db w) !! user_id = Some r → is_registered r = true →
  relayable text → delivers env p = true →
  handle_text cfg env true user_id text w = (Ok tt, w, [send_text p text]).
Proof.
  intros Hban Hp Hp0 Hst Hr Hreg Hrel Hdel.
  unfold handle_text, proc.
  change (negb true) with false.
  next. next.
  change (run (is_banned user_id) (db w)).1
    with (bool_decide (user_id ∈ banned_users (db w))).
  rewrite (bool_decide_eq_false_2 _ Hban).
  do 9 next.
  change (run (get_user user_id) (db w)).1 with (users (db w) !! user_id).
  rewrite Hr. cbv iota.
  unfold is_registered in Hreg. rewrite Hreg. cbn [negb].
  do 7 next.
  unfold mbind, M_bind.
  rewrite (chat_relay_forwards w user_id p text Hp Hp0 Hrel Hdel).
  reflexivity.
Qed.

(** [handle_media] in a chat, before the lock has run out. *)
Lemma handle_media_locked w user_id p kind s :
  user_id ∉ banned_users (db w) →
  (run (get_partner user_id) (db w)).1 = Some p → p ≠ 0 →
  active_sessions w !! user_id = Some s →
  now env - start_time s < MEDIA_LOCK →
  handle_media cfg env user_id kind w =
  if delivers env user_id then
    (Ok tt, w,
     [send_message user_id
        (MediaLocked ((MEDIA_LOCK - (now env - start_time s)) `quot` 1000000)) []])
  else (Raised TransportError, w, []).
Proof.
  intros Hban Hp Hp0 Hs Hlock.
  unfold handle_media, proc. next.
  change (run (is_banned user_id) (db w)).1
    with (bool_decide (user_id ∈ banned_users (db w))).
  rewrite (bool_decide_eq_false_2 _ Hban).
  do 2 next. rewrite Hp.
  apply Z.eqb_neq in Hp0. unfold truthy, if_truthy. rewrite Hp0. cbn [negb].
  do 2 next. rewrite Hs.
  apply Z.ltb_lt in Hlock. rewrite Hlock.
  exec. destruct (delivers env user_id); reflexivity.
Qed.

(** [handle_media] in a chat, once the lock has run out, with a reachable
    partner. *)
Lemma handle_media_forwards w user_id p kind s :
  user_id ∉ banned_users (db w) →
  (run (get_partner user_id) (db w)).1 = Some p → p ≠ 0 →
  active_sessions w !! user_id = Some s →
  MEDIA_LOCK ≤ now env - start_time s →
  delivers env p = true →
  handle_media cfg env user_id kind w =
  (Ok tt, w,
   copy_message p kind ::
   (if (LOG_MEDIA cfg =? 0) || bool_decide (kind = sticker) then []
    else if delivers env (LOG_MEDIA cfg) then
      [send_message (LOG_MEDIA cfg) (EvidenceLog user_id p kind) []]
    else [])).
Proof.
  intros Hban Hp Hp0 Hs Hlock Hdel.
  unfold handle_media, proc. next.
  change (run (is_banned user_id) (db w)).1
    with (bool_decide (user_id ∈ banned_users (db w))).
  rewrite (bool_decide_eq_false_2 _ Hban).
  do 2 next. rewrite Hp.
  apply Z.eqb_neq in Hp0. unfold truthy, if_truthy. rewrite Hp0. cbn [negb].
  do 2 next. rewrite Hs.
  apply Z.ltb_ge in Hlock. rewrite Hlock.
  unfold send_media_log. exec. rewrite Hdel. exec.
  destruct (LOG_MEDIA cfg =? 0); exec; [reflexivity|].
  destruct (decide (kind = sticker)) as [->|Hkind].
  - rewrite !bool_decide_eq_true_2 by reflexivity. reflexivity.
  - rewrite !bool_decide_eq_false_2 by exact Hkind. exec.
    destruct (delivers env (LOG_MEDIA cfg)); reflexivity.
Qed.

(** [handle_media] for a user who passes the ban check and has no partner. *)
Lemma handle_media_idle w user_id kind :
  user_id ∉ banned_users (db w) →
  truthy (run (get_partner user_id) (db w)).1 = false →
  handle_media cfg env user_id kind w =
  if bool_decide (kind = photo) then
    let requested :=
      match user_states w !! user_id with
      | Some (WAITING_PAYMENT d) => Some d
      | _ => None
      end in
    (Ok tt, set_user_states (delete user_id) w,
     if delivers env (ADMIN_ID cfg) then
       send_photo (ADMIN_ID cfg) (PaymentProof user_id requested)
         [approve_ user_id (default 30 requested); reject_ user_id]
       :: (if delivers env user_id then [send_message user_id ScreenshotReceived []]
           else [])
     else [])
  else (Ok tt, w, []).
Proof.
  intros Hban Hidle.
  unfold handle_media, proc. next.
  change (run (is_banned user_id) (db w)).1
    with (bool_decide (user_id ∈ banned_users (db w))).
  rewrite (bool_decide_eq_false_2 _ Hban).
  do 2 next. rewrite Hidle. cbn [negb].
  destruct (bool_decide (kind = photo)); [|reflexivity].
  exec.
  destruct (delivers env (ADMIN_ID cfg)); exec;
    [destruct (delivers env user_id); exec|]; reflexivity.
Qed.

End Relay.

(** C8.  The sender passes the ban check, is in a chat with [p] and the
    chat's start is on record; [elapsed] is the time since then.  Media sent
    before 120 seconds have elapsed is answered with the lock notice and not
    copied to the partner; from 120 seconds on it is copied to the partner.
    A text message is forwarded whatever the elapsed time: [handle_text]
    applies no lock. *)
Theorem media_locked_for_120_seconds (cfg : Config) (env : Env) (w : World)
    (user_id p : Z) (s : session) :
  user_id ∉ banned_users (db w) →
  (run (get_partner user_id) (db w)).1 = Some p → p ≠ 0 →
  active_sessions w !! user_id = Some s →
  let elapsed := now env - start_time s in
  (∀ kind, elapsed < 120 * 1000000 →
     handle_media cfg env user_id kind w =
     if delivers env user_id then
       (Ok tt, w,
        [send_message user_id (MediaLocked ((120 * 1000000 - elapsed) `quot` 1000000)) []])
     else (Raised TransportError, w, []))
  ∧ (∀ kind, 120 * 1000000 ≤ elapsed → delivers env p = true →
       ∃ log, handle_media cfg env user_id kind w = (Ok tt, w, copy_message p kind :: log)
              ∧ ∀ a, a ∈ log →
                     a = send_message (LOG_MEDIA cfg) (EvidenceLog user_id p kind) [])
  ∧ (∀ text r,
       awaits_input (user_states w !! user_id) = false →
       users (db w) !! user_id = Some r → is_registered r = true →
       relayable text → delivers env p = true →
       handle_text cfg env true user_id text w = (Ok tt, w, [send_text p text])).
Proof.
  intros Hban Hp Hp0 Hs elapsed. subst elapsed. split; [|split].
  - intros kind Hlock.
    exact (handle_media_locked cfg env w user_id p kind s Hban Hp Hp0 Hs Hlock).
  - intros kind Hlock Hdel.
    rewrite (handle_media_forwards cfg env w user_id p kind s Hban Hp Hp0 Hs Hlock Hdel).
    eexists. split; [reflexivity|].
    intros a Ha.
    destruct ((LOG_MEDIA cfg =? 0) || bool_decide (kind = sticker));
      [by apply elem_of_nil in Ha|].
    destruct (delivers env (LOG_MEDIA cfg)); [|by apply elem_of_nil in Ha].
    by apply list_elem_of_singleton in Ha.
  - intros text r Hst Hr Hreg Hrel Hdel.
    exact (handle_text_relays cfg env w user_id p text r Hban Hp Hp0 Hst Hr Hreg Hrel Hdel).
Qed.

Lemma media_locked_for_120_seconds_witness :
  handle_media Example.cfg0 (Example.at_time 119999999) 101 video Example.chatting_world
  = (Ok tt, Example.chatting_world, [send_message 101 (MediaLocked 0) []])
  ∧ (∃ log,
       handle_media Example.cfg0 (Example.at_time 120000000) 101 video Example.chatting_world
       = (Ok tt, Example.chatting_world, copy_message 102 video :: log))
  ∧ handle_text Example.cfg0 (Example.at_time 1000000) true 101 "hello" Example.chatting_world
    = (Ok tt, Example.chatting_world, [send_text 102 "hello"]).
Proof.
  assert (Hban : 101 ∉ banned_users (db Example.chatting_world))
    by apply not_elem_of_empty.
  assert (Hp : (run (get_partner 101) (db Example.chatting_world)).1 = Some 102)
    by reflexivity.
  assert (Hs : active_sessions Example.chatting_world !! 101 = Some (MkSession 0 "SESSN1"))
    by reflexivity.
  split; [|split].
  - apply (proj1 (media_locked_for_120_seconds Example.cfg0 (Example.at_time 119999999)
                    Example.chatting_world 101 102 _ Hban Hp ltac:(discriminate) Hs) video).
    reflexivity.
  - destruct (proj1 (proj2 (media_locked_for_120_seconds Example.cfg0
                              (Example.at_time 120000000) Example.chatting_world
                              101 102 _ Hban Hp ltac:(discriminate) Hs)) video)
      as (log & Hlog & _).
    + discriminate.
    + reflexivity.
    + exists log. exact Hlog.
  - apply (proj2 (proj2 (media_locked_for_120_seconds Example.cfg0 (Example.at_time 1000000)
                           Example.chatting_world 101 102 _ Hban Hp ltac:(discriminate) Hs))
             "hello" (Example.profile "male" None)).
    + reflexivity.
    + reflexivity.
    + reflexivity.
    + repeat split.
    + reflexivity.
Defined.

(** C10, as the code has it.  The ban check comes first.  From a sender who
    passes it and has no partner, a photo is forwarded to the admin as a
    payment proof with the buttons [approve_<user>_<days>] and
    [reject_<user>], where [days] is the plan recorded in [user_states], and
    30 when none is recorded; the sender is told so, and the recorded state
    is dropped.  A failed send to the admin is swallowed.  Any other media
    from such a sender is ignored: nothing is sent, nothing changes. *)
Theorem idle_photo_is_payment_proof (cfg : Config) (env : Env) (w : World)
    (user_id : Z) (kind : media) :
  user_id ∉ banned_users (db w) →
  truthy (run (get_partner user_id) (db w)).1 = false →
  let requested :=
    match user_states w !! user_id with
    | Some (WAITING_PAYMENT d) => Some d
    | _ => None
    end in
  (kind = photo →
   handle_media cfg env user_id kind w =
   (Ok tt, set_user_states (delete user_id) w,
    if delivers env (ADMIN_ID cfg) then
      send_photo (ADMIN_ID cfg) (PaymentProof user_id requested)
        [approve_ user_id (default 30 requested); reject_ user_id]
      :: (if delivers env user_id then [send_message user_id ScreenshotReceived []]
          else [])
    else []))
  ∧ ((∀ d, user_states w !! user_id ≠ Some (WAITING_PAYMENT d)) →
     requested = None ∧ default 30 requested = 30)
  ∧ (kind ≠ photo → handle_media cfg env user_id kind w = (Ok tt, w, [])).
Proof.
  intros Hban Hidle requested.
  pose proof (handle_media_idle cfg env w user_id kind Hban Hidle) as H.
  split; [|split].
  - intros ->. rewrite H. reflexivity.
  - intros Hno. subst requested.
    destruct (user_states w !! user_id) as [[]|] eqn:E; try (split; reflexivity).
    exfalso. by eapply Hno.
  - intros Hkind. rewrite H. by rewrite bool_decide_eq_false_2.
Qed.

Lemma idle_photo_is_payment_proof_witness :
  handle_media Example.cfg0 Example.env0 101 photo Example.idle_world
  = (Ok tt, Example.idle_world,
     [send_photo 1 (PaymentProof 101 None) [approve_ 101 30; reject_ 101];
      send_message 101 ScreenshotReceived []])
  ∧ handle_media Example.cfg0 Example.env0 101 sticker Example.idle_world
    = (Ok tt, Example.idle_world, []).
Proof.
  assert (Hban : 101 ∉ banned_users (db Example.idle_world))
    by apply not_elem_of_empty.
  assert (Hidle : truthy (run (get_partner 101) (db Example.idle_world)).1 = false)
    by reflexivity.
  pose proof (idle_photo_is_payment_proof Example.cfg0 Example.env0 Example.idle_world
                101) as H.
  split.
  - exact (proj1 (H photo Hban Hidle) eq_refl).
  - apply (proj2 (proj2 (H sticker Hban Hidle))). discriminate.
Defined.

(** C10, counterexample.  101 is banned and in no chat, and sends a photo:
    nothing is forwarded to the admin, nothing is sent at all. *)
Lemma banned_photo_is_dropped :
  (run (get_partner 101) (db Example.banned_world)).1 = None
  ∧ handle_media Example.cfg0 Example.env0 101 photo Example.banned_world
    = (Ok tt, Example.banned_world, []).
Proof. split; vm_compute; reflexivity. Qed.

(** ** Further properties of the storage layer *)

Section Queue.

Implicit Types (d : Database) (u v : Z) (q : list (Z * string)) (f g : string).

Lemma filter_ids_NoDup q (P : Z * string → Prop) `{!∀ x, Decision (P x)} :
  NoDup q.*1 → NoDup (filter P q).*1.
Proof.
  induction q as [|row q IH]; [done|].
  intros Hnd. apply NoDup_cons in Hnd as [Hrow Hnd].
  rewrite filter_cons. destruct (decide (P row)); [|by apply IH].
  csimpl. apply NoDup_cons. split; [|by apply IH].
  intros Hin. apply Hrow. apply list_elem_of_fmap in Hin as (r & -> & Hr).
  apply list_elem_of_fmap. exists r. split; [done|].
  by apply list_elem_of_filter in Hr as [_ Hr].
Qed.

Lemma upsert_queue_NoDup q u f : NoDup q.*1 → NoDup (upsert_queue u f q).*1.
Proof.
  intros Hnd. unfold upsert_queue. rewrite fmap_app. apply NoDup_app.
  split; [by apply filter_ids_NoDup|]. split; [|apply NoDup_singleton].
  intros x Hx Hx'. apply list_elem_of_singleton in Hx'. simpl in Hx'. subst x.
  apply list_elem_of_fmap in Hx as (row & Hrow & Hin).
  by apply list_elem_of_filter in Hin as [Hne _].
Qed.

Lemma upsert_queue_row q u f g : (u, g) ∈ upsert_queue u f q → NoDup q.*1 → g = f.
Proof.
  unfold upsert_queue. intros H _. apply elem_of_app in H as [H|H].
  - by apply list_elem_of_filter in H as [Hne _].
  - apply list_elem_of_singleton in H. congruence.
Qed.

Lemma upsert_queue_other q u f v g :
  v ≠ u → (v, g) ∈ upsert_queue u f q ↔ (v, g) ∈ q.
Proof.
  intros Hv. unfold upsert_queue.
  rewrite elem_of_app, list_elem_of_filter, list_elem_of_singleton. split.
  - intros [[_ H]|H]; [exact H|congruence].
  - intros H. left. by split.
Qed.

Lemma filter_filter_id q u :
  filter (λ row : Z * string, row.1 ≠ u) (filter (λ row : Z * string, row.1 ≠ u) q)
  = filter (λ row : Z * string, row.1 ≠ u) q.
Proof.
  induction q as [|row q IH]; [reflexivity|].
  rewrite filter_cons. destruct (decide (row.1 ≠ u)) as [Hne|Heq]; [|exact IH].
  rewrite filter_cons. destruct (decide (row.1 ≠ u)); [|done]. by rewrite IH.
Qed.

Lemma upsert_queue_twice q u f g :
  upsert_queue u f (upsert_queue u g q) = upsert_queue u f q.
Proof.
  unfold upsert_queue. rewrite filter_app, filter_filter_id. f_equal.
  rewrite filter_cons. destruct (decide ((u, g).1 ≠ u)) as [Hne|_]; [done|].
  by rewrite filter_nil, app_nil_r.
Qed.

End Queue.

(** X1.  [user_id] stays the key of [search_queue]: every method that writes
    the queue ([add_to_queue], [remove_from_queue], [find_match],
    [connect_users], [ban_user]) leaves at most one row per user, as the
    primary key demands. *)
Theorem queue_key_kept (d : Database) (u v : Z) (f : string) :
  queue_keyed d →
  queue_keyed (run (add_to_queue u f) d).2
  ∧ queue_keyed (run (remove_from_queue u) d).2
  ∧ queue_keyed (run (find_match u f) d).2
  ∧ queue_keyed (run (connect_users u v) d).2
  ∧ queue_keyed (run (ban_user u) d).2.
Proof.
  unfold queue_keyed. intros Hnd.
  split; [by apply upsert_queue_NoDup|].
  split; [by apply filter_ids_NoDup|].
  split.
  { unfold find_match. simpl.
    destruct (select_candidate u f d); simpl; [by apply filter_ids_NoDup|done]. }
  split; simpl; by apply filter_ids_NoDup.
Qed.

Lemma queue_key_kept_witness :
  queue_keyed (run (add_to_queue 101 "male") Example.two_waiting).2
  ∧ search_queue (run (add_to_queue 101 "male") Example.two_waiting).2
    = [(102, "female"); (101, "male")].
Proof.
  split; [|reflexivity].
  refine (proj1 (queue_key_kept Example.two_waiting 101 102 "male" _)).
  unfold queue_keyed. simpl. apply NoDup_cons. split; [|apply NoDup_singleton].
  intros H. apply list_elem_of_singleton in H. discriminate.
Defined.

(** X2.  [add_to_queue] is an upsert: afterwards the user is queued with the
    filter just given and with no other, the rows of the other users are the
    same as before, and entering again replaces the filter rather than
    adding a row. *)
Theorem add_to_queue_upserts (d : Database) (u : Z) (f : string) :
  queue_keyed d →
  let d' := (run (add_to_queue u f) d).2 in
  (u, f) ∈ search_queue d'
  ∧ (∀ g, (u, g) ∈ search_queue d' → g = f)
  ∧ (∀ v g, v ≠ u → (v, g) ∈ search_queue d' ↔ (v, g) ∈ search_queue d)
  ∧ (∀ g, (run (add_to_queue u f) (run (add_to_queue u g) d).2).2 = d')
  ∧ users d' = users d ∧ active_chats d' = active_chats d
  ∧ banned_users d' = banned_users d.
Proof.
  unfold queue_keyed. intros Hnd. cbv zeta. simpl.
  assert (Hin : (u, f) ∈ upsert_queue u f (search_queue d)).
  { pose proof (upsert_queue_queued (search_queue d) u f) as H.
    apply list_elem_of_fmap in H as ([u' g] & Hu & H). simpl in Hu. subst u'.
    pose proof (upsert_queue_row _ _ _ _ H Hnd) as E. by subst g. }
  split; [exact Hin|].
  split; [intros g Hg; by eapply upsert_queue_row|].
  split; [intros v g Hv; by apply upsert_queue_other|].
  split; [|done].
  intros g. unfold set_queue. simpl. by rewrite upsert_queue_twice.
Qed.

Lemma add_to_queue_upserts_witness :
  (102, "any") ∈ search_queue (run (add_to_queue 102 "any") Example.two_waiting).2
  ∧ length (search_queue (run (add_to_queue 102 "any") Example.two_waiting).2) = 2%nat.
Proof.
  split; [|reflexivity].
  refine (proj1 (add_to_queue_upserts Example.two_waiting 102 "any" _)).
  unfold queue_keyed. simpl. apply NoDup_cons. split; [|apply NoDup_singleton].
  intros H. apply list_elem_of_singleton in H. discriminate.
Defined.

(** X3.  [remove_from_queue] always succeeds: afterwards the user is not
    searching, the rows of the other users are untouched, and for a user who
    was not queued the database is unchanged. *)
Theorem remove_from_queue_cancels (d : Database) (u : Z) :
  let d' := (run (remove_from_queue u) d).2 in
  (run (is_searching u) d').1 = false
  ∧ (∀ row, row.1 ≠ u → row ∈ search_queue d' ↔ row ∈ search_queue d)
  ∧ ((run (is_searching u) d).1 = false → d' = d).
Proof.
  cbv zeta. simpl. split; [|split].
  - apply bool_decide_eq_false. intros Hin.
    apply list_elem_of_fmap in Hin as (row & -> & Hin).
    by apply list_elem_of_filter in Hin as [Hne _].
  - intros row Hrow. rewrite list_elem_of_filter. tauto.
  - intros Hs. apply bool_decide_eq_false in Hs.
    destruct d as [us q c b]. unfold set_queue. simpl in *. f_equal.
    induction q as [|row q IH]; [done|].
    rewrite filter_cons. destruct (decide (row.1 ≠ u)) as [Hne|Heq].
    + f_equal. apply IH. intros H. apply Hs. csimpl.
      by apply list_elem_of_further.
    + exfalso. apply Hs. apply dec_stable in Heq. csimpl. rewrite Heq.
      apply list_elem_of_here.
Qed.

Section Profile.

Implicit Types (d : Database) (u v : Z) (r : user_row).

Lemma database_eta d :
  MkDatabase (users d) (search_queue d) (active_chats d) (banned_users d) = d.
Proof. by destruct d. Qed.

Lemma alter_missing (f : user_row → user_row) (us : gmap Z user_row) u :
  us !! u = None → alter f u us = us.
Proof.
  intros H. apply map_eq. intros v. rewrite lookup_alter.
  destruct (decide (u = v)) as [<-|]; [|done].
  by rewrite H.
Qed.

Lemma find_order_id (us : gmap Z user_row) (o : string) v r :
  List.find (λ kv : Z * user_row, bool_decide (current_order_id kv.2 = Some o))
    (map_to_list us) = Some (v, r) →
  us !! v = Some r ∧ current_order_id r = Some o.
Proof.
  intros H. apply find_some in H as [Hin Ho].
  apply list_elem_of_In, elem_of_map_to_list in Hin.
  apply bool_decide_eq_true in Ho. by split.
Qed.

Lemma find_order_id_none (us : gmap Z user_row) (o : string) v r :
  List.find (λ kv : Z * user_row, bool_decide (current_order_id kv.2 = Some o))
    (map_to_list us) = None →
  us !! v = Some r → current_order_id r ≠ Some o.
Proof.
  intros H Hv Ho.
  pose proof (find_none _ _ H (v, r)) as Hn. simpl in Hn.
  rewrite bool_decide_eq_true_2 in Hn by done.
  assert (Hin : In (v, r) (map_to_list us))
    by by apply list_elem_of_In, elem_of_map_to_list.
  specialize (Hn Hin). discriminate.
Qed.

End Profile.

(** [disconnect] with a partner deletes the rows of both. *)
Lemma disconnect_run (d : Database) (u p : Z) :
  (run (get_partner u) d).1 = Some p → p ≠ 0 →
  run (disconnect u) d =
  (Some p, set_chats (filter (λ row, mentions u row = false ∧ mentions p row = false)) d).
Proof.
  intros Hp Hp0. rewrite get_partner_result in Hp.
  unfold disconnect, get_partner. simpl.
  destruct (List.find (mentions u) (active_chats d)) as [r|]; [|discriminate].
  simpl in Hp. injection Hp as Hp. simpl. rewrite Hp.
  apply Z.eqb_neq in Hp0. rewrite Hp0. reflexivity.
Qed.

(** After it neither of the two has a partner. *)
Lemma disconnect_frees (d : Database) (u p : Z) :
  let d' := set_chats (filter (λ row, mentions u row = false ∧ mentions p row = false)) d in
  (run (get_partner u) d').1 = None ∧ (run (get_partner p) d').1 = None.
Proof.
  split; apply get_partner_none; simpl; intros row Hin;
    apply list_elem_of_filter in Hin as [[H1 H2] _]; assumption.
Qed.

(** X4.  [disconnect] is safe without a session: it returns [None] and
    changes nothing.  With a partner [p] it returns [p] and deletes every row
    that has the user or [p] on either side, and only those: afterwards
    neither of the two has a partner, and the other tables are as before. *)
Theorem disconnect_frees_both (d : Database) (u : Z) :
  ((run (get_partner u) d).1 = None → run (disconnect u) d = (None, d))
  ∧ (∀ p, (run (get_partner u) d).1 = Some p → p ≠ 0 →
       let d' := (run (disconnect u) d).2 in
       (run (disconnect u) d).1 = Some p
       ∧ (run (get_partner u) d').1 = None
       ∧ (run (get_partner p) d').1 = None
       ∧ (∀ row, row ∈ active_chats d →
            mentions u row = false → mentions p row = false → row ∈ active_chats d')
       ∧ users d' = users d ∧ search_queue d' = search_queue d
       ∧ banned_users d' = banned_users d).
Proof.
  split.
  - rewrite get_partner_result. unfold disconnect, get_partner. simpl.
    destruct (List.find (mentions u) (active_chats d)); [discriminate|reflexivity].
  - intros p Hp Hp0. cbv zeta. rewrite (disconnect_run d u p Hp Hp0). cbn [fst snd].
    split; [reflexivity|].
    split; [apply disconnect_frees|]. split; [apply disconnect_frees|].
    split; [|done].
    intros row Hin Hu Hpr. by apply list_elem_of_filter.
Qed.

Lemma disconnect_frees_both_witness :
  run (disconnect 103) Example.one_session = (None, Example.one_session)
  ∧ (run (get_partner 102) (run (disconnect 101) Example.one_session).2).1 = None.
Proof.
  split.
  - apply (proj1 (disconnect_frees_both Example.one_session 103)). reflexivity.
  - refine (proj1 (proj2 (proj2 (proj2 (disconnect_frees_both Example.one_session 101)
                                          102 _ _)))).
    + reflexivity.
    + discriminate.
Defined.

(** X5.  A grant opens a window: once [make_premium(user, days)] has written,
    [check_premium] is true while the time is strictly before [now + days]
    and, for a user without the lifetime flag, false from that instant on;
    the lifetime flag alone keeps it true. *)
Theorem grant_window (d : Database) (now u days e later : Z) :
  days_from now days = Some e →
  let d' := (run (make_premium now u days) d).2 in
  (run (check_premium later u) d').1
  = from_option is_premium false (users d !! u) || (later <? now + days * DAY).
Proof.
  intros He. cbv zeta. rewrite make_premium_run, He.
  apply days_from_sum in He. subst e.
  unfold check_premium. simpl. rewrite upsert_expiry_lookup.
  destruct (users d !! u) as [r|]; simpl.
  - destruct (is_premium r); [reflexivity|]. simpl. rewrite Z.gtb_ltb.
    destruct (later <? now + days * DAY); reflexivity.
  - rewrite Z.gtb_ltb. destruct (later <? now + days * DAY); reflexivity.
Qed.

Lemma grant_window_witness :
  (run (check_premium (129 * DAY) 101)
     (run (make_premium (100 * DAY) 101 30) Example.two_waiting).2).1 = true
  ∧ (run (check_premium (130 * DAY) 101)
       (run (make_premium (100 * DAY) 101 30) Example.two_waiting).2).1 = false.
Proof.
  split.
  - rewrite (grant_window Example.two_waiting (100 * DAY) 101 30 (130 * DAY) (129 * DAY));
      reflexivity.
  - rewrite (grant_window Example.two_waiting (100 * DAY) 101 30 (130 * DAY) (130 * DAY));
      reflexivity.
Defined.

(** X6.  A ban is undone only as far as the ban set goes: after [ban_user]
    the user is banned, after [unban_user] no longer, but the profile row
    stays deleted and the queue and the sessions stay as the ban left them;
    nobody else's ban is touched, and unbanning a user who is not banned
    changes nothing. *)
Theorem unban_restores_membership_only (d : Database) (u : Z) :
  let d1 := (run (ban_user u) d).2 in
  let d2 := (run (unban_user u) d1).2 in
  (run (is_banned u) d1).1 = true
  ∧ (run (is_banned u) d2).1 = false
  ∧ users d2 !! u = None
  ∧ search_queue d2 = search_queue d1 ∧ active_chats d2 = active_chats d1
  ∧ (∀ v, v ≠ u → (run (is_banned v) d2).1 = (run (is_banned v) d).1)
  ∧ ((run (is_banned u) d).1 = false → (run (unban_user u) d).2 = d).
Proof.
  cbv zeta. rewrite ban_user_state. simpl.
  split.
  { apply bool_decide_eq_true, elem_of_union_l, elem_of_singleton. reflexivity. }
  split.
  { apply bool_decide_eq_false. intros H. apply elem_of_difference in H as [_ H].
    apply H, elem_of_singleton. reflexivity. }
  split; [apply lookup_delete_eq|].
  split; [reflexivity|]. split; [reflexivity|].
  split.
  - intros v Hv. apply bool_decide_ext.
    rewrite elem_of_difference, elem_of_union, !elem_of_singleton. tauto.
  - intros Hb. apply bool_decide_eq_false in Hb.
    rewrite <- (database_eta d) at 2. unfold set_banned. f_equal.
    apply set_eq. intros x. rewrite elem_of_difference, elem_of_singleton.
    split; [tauto|]. intros Hx. split; [done|]. intros ->. contradiction.
Qed.

(** X7.  Order ids: for a user with a profile row, once [set_order_id] has
    stored an id that no other user holds, [get_user_by_order_id] finds that
    user by it; a later grant by [make_premium] clears the id, after which
    the lookup finds nobody. *)
Theorem order_id_round_trip (d : Database) (u : Z) (o : string) (r : user_row) :
  users d !! u = Some r →
  (∀ v r', users d !! v = Some r' → current_order_id r' = Some o → v = u) →
  let d1 := (run (set_order_id u (Some o)) d).2 in
  (run (get_user_by_order_id o) d1).1 = Some u
  ∧ ∀ now days e, days_from now days = Some e →
      (run (get_user_by_order_id o) (run (make_premium now u days) d1).2).1 = None.
Proof.
  intros Hr Huniq. cbv zeta. simpl.
  set (us1 := alter _ u (users d)).
  assert (Hu1 : ∀ v r', us1 !! v = Some r' → current_order_id r' = Some o → v = u).
  { intros v r' Hv Ho. destruct (decide (v = u)) as [|Hne]; [done|].
    subst us1. rewrite lookup_alter_ne in Hv by done. by eapply Huniq. }
  split.
  - unfold get_user_by_order_id. simpl.
    destruct (List.find _ (map_to_list us1)) as [[v r']|] eqn:E; simpl.
    + apply find_order_id in E as [Hv Ho]. f_equal. by eapply Hu1.
    + exfalso.
      apply (find_order_id_none us1 o u
               (UserRow (gender r) (country r) (age r) (is_premium r) (vip_expiry r)
                  (Some o)) E); [|reflexivity].
      subst us1. rewrite lookup_alter_eq, Hr. reflexivity.
  - intros now days e He. rewrite make_premium_run, He. simpl.
    unfold get_user_by_order_id. simpl.
    match goal with
    | |- context [List.find ?P ?l] => destruct (List.find P l) as [[v r']|] eqn:E
    end; [|reflexivity].
    exfalso. apply find_order_id in E as [Hv Ho].
    destruct (decide (v = u)) as [->|Hne].
    + rewrite upsert_expiry_lookup in Hv. injection Hv as Hv. subst r'.
      rewrite lookup_alter_eq, Hr in Ho. discriminate.
    + rewrite upsert_expiry_other in Hv by done. by apply Hne, (Hu1 v r').
Qed.

Lemma order_id_round_trip_witness :
  (run (get_user_by_order_id "ORD-7")
     (run (set_order_id 102 (Some "ORD-7")) Example.two_waiting).2).1 = Some 102.
Proof.
  refine (proj1 (order_id_round_trip Example.two_waiting 102 "ORD-7"
                   (Example.profile "female" (Some (400 * DAY))) _ _)).
  - reflexivity.
  - intros v r' Hv Ho. exfalso.
    unfold Example.two_waiting, Example.three_users in Hv. simpl in Hv.
    destruct (decide (v = 101)) as [->|H1];
      [rewrite lookup_insert_eq in Hv; injection Hv as <-; discriminate|].
    rewrite lookup_insert_ne in Hv by done.
    destruct (decide (v = 102)) as [->|H2];
      [rewrite lookup_insert_eq in Hv; injection Hv as <-; discriminate|].
    rewrite lookup_insert_ne in Hv by done.
    destruct (decide (v = 103)) as [->|H3];
      [rewrite lookup_insert_eq in Hv; injection Hv as <-; discriminate|].
    rewrite lookup_insert_ne in Hv by done. by rewrite lookup_empty in Hv.
Defined.

(** X8.  Profile rows: the setters are plain [UPDATE]s, so on a user without
    a row they change nothing; [add_user] creates the blank row once and
    never overwrites a profile; on an existing row a setter changes its own
    column and no other. *)
Theorem setters_need_a_row (d : Database) (u : Z) (g c : option string) (a : option Z) :
  (users d !! u = None →
     (run (set_gender u g) d).2 = d ∧ (run (set_country u c) d).2 = d
     ∧ (run (set_age u a) d).2 = d
     ∧ (run (get_user u) (run (add_user u) d).2).1 = Some blank_row)
  ∧ (∀ r, users d !! u = Some r →
       (run (add_user u) d).2 = d
       ∧ (run (get_user u) (run (set_gender u g) d).2).1
         = Some (UserRow g (country r) (age r) (is_premium r) (vip_expiry r)
                   (current_order_id r))
       ∧ (run (get_user u) (run (set_age u a) d).2).1
         = Some (UserRow (gender r) (country r) a (is_premium r) (vip_expiry r)
                   (current_order_id r))
       ∧ (run (get_user u) (run (set_country u c) d).2).1
         = Some (UserRow (gender r) c (age r) (is_premium r) (vip_expiry r)
                   (current_order_id r))).
Proof.
  split.
  - intros Hn. simpl. unfold set_users. rewrite !alter_missing by done.
    rewrite Hn, database_eta. repeat split. apply lookup_insert_eq.
  - intros r Hr. simpl. unfold set_users. rewrite Hr, database_eta.
    split; [reflexivity|]. simpl. rewrite !lookup_alter_eq, Hr. by repeat split.
Qed.


(** ** The master text handler, section by section *)

Section Menus.

Context (cfg : Config) (env : Env).

Implicit Types (w : World) (text : string) (state : option ustate).

Lemma str_in_sub text (L l : list string) :
  str_in text L = false → forallb (λ s, str_in s L) l = true → str_in text l = false.
Proof.
  intros HL Hl. destruct (str_in text l) eqn:E; [|reflexivity].
  apply str_in_true, list_elem_of_In in E. rewrite forallb_forall in Hl.
  specialize (Hl text E). congruence.
Qed.

Lemma passes_menus_early text : passes_menus text → passes_early text.
Proof.
  intros [H Hr]. split; [|exact Hr].
  unfold own_commands, str_in in H. rewrite existsb_app in H.
  by apply orb_false_iff in H as [H _].
Qed.

Lemma exit_chat_pass user_id text state w :
  passes_early text → exit_chat env user_id text state w = (Ok tt, w, []).
Proof.
  intros [H _]. unfold exit_chat. rewrite (str_in_sub text _ _ H) by reflexivity.
  reflexivity.
Qed.

Lemma manual_report_pass user_id text w :
  passes_early text → manual_report env user_id text w = (Ok tt, w, []).
Proof.
  intros [H Hr]. unfold manual_report. rewrite Hr.
  pose proof (str_in_sub text _ ["🚨 Report Partner"] H eq_refl) as E.
  unfold str_in in E. cbn [existsb] in E. rewrite orb_false_r in E. rewrite E.
  reflexivity.
Qed.

Lemma menu_buttons_pass user_id text state w :
  passes_early text → menu_buttons env user_id text state w = (Ok tt, w, []).
Proof.
  intros [H _]. unfold menu_buttons. rewrite (str_in_sub text _ _ H) by reflexivity.
  reflexivity.
Qed.

Lemma preferences_menu_pass user_id text w :
  passes_menus text → preferences_menu env user_id text w = (Ok tt, w, []).
Proof.
  intros [H _]. unfold preferences_menu.
  rewrite (str_in_sub text _ _ H) by reflexivity. reflexivity.
Qed.

Lemma rechat_pass user_id text w :
  passes_menus text → rechat cfg env user_id text w = (Ok tt, w, []).
Proof.
  intros [H _]. unfold rechat. rewrite (str_in_sub text _ _ H) by reflexivity.
  reflexivity.
Qed.

Lemma chat_pass user_id text w :
  passes_menus text → chat cfg env user_id text w = (Ok tt, w, []).
Proof.
  intros [H _]. unfold chat. rewrite (str_in_sub text _ _ H) by reflexivity.
  reflexivity.
Qed.

Lemma settings_pass user_id text r w :
  passes_menus text → settings cfg env user_id text r w = (Ok tt, w, []).
Proof.
  intros [H _]. unfold settings. rewrite (str_in_sub text _ _ H) by reflexivity.
  reflexivity.
Qed.

Lemma premium_pass user_id text w :
  passes_menus text → premium env user_id text w = (Ok tt, w, []).
Proof.
  intros [H _]. unfold premium. rewrite (str_in_sub text _ _ H) by reflexivity.
  reflexivity.
Qed.

Lemma about_help_pass user_id text w :
  passes_menus text → about_help env user_id text w = (Ok tt, w, []).
Proof.
  intros [H _]. unfold about_help.
  pose proof (str_in_sub text _ ["ℹ️ About"] H eq_refl) as E1.
  pose proof (str_in_sub text _ ["❓ Help"] H eq_refl) as E2.
  unfold str_in in E1, E2. cbn [existsb] in E1, E2.
  rewrite orb_false_r in E1, E2. rewrite E1, E2. reflexivity.
Qed.

Lemma bind_ext {A B : Type} (m : M A) (k1 k2 : A → M B) (w : World) :
  (∀ a w', k1 a w' = k2 a w') → (m ≫= k1) w = (m ≫= k2) w.
Proof.
  intros H. unfold mbind, M_bind. destruct (m w) as [[[a| |e] w'] out]; [|done..].
  by rewrite H.
Qed.

Ltac pass_step :=
  first
    [ apply when_false
    | apply get_pure
    | apply await_pure; reflexivity
    | apply await_pure; apply get_partner_state
    | apply exit_chat_pass; assumption
    | apply cancel_command_skip; assumption
    | apply capture_report_reason_skip; assumption
    | apply manual_report_pass; assumption
    | apply menu_buttons_pass; assumption
    | apply registration_input_skip; assumption
    | apply preferences_menu_pass; assumption
    | apply rechat_pass; assumption
    | apply chat_pass; assumption
    | apply settings_pass; assumption
    | apply premium_pass; assumption
    | apply about_help_pass; assumption ].

Ltac pass := erewrite bind_pure by pass_step; cbv beta.

(** [handle_text] up to the profile check, for a sender who is not banned
    and owes no answer. *)
Lemma handle_text_to_profile w user_id text :
  user_id ∉ banned_users (db w) →
  awaits_input (user_states w !! user_id) = false →
  passes_early text →
  handle_text cfg env true user_id text w =
  proc
    (match users (db w) !! user_id with
     | None => raise AttributeError
     | Some r =>
         when (negb (is_registered r)) (_ ← check_registration env user_id; return_);;
         preferences_menu env user_id text;;
         rechat cfg env user_id text;;
         chat cfg env user_id text;;
         settings cfg env user_id text r;;
         premium env user_id text;;
         about_help env user_id text;;
         chat_relay env user_id text;;
         idle env user_id
     end) w.
Proof.
  intros Hban Hst Htext.
  unfold handle_text, proc.
  change (negb true) with false.
  pass. pass.
  change (run (is_banned user_id) (db w)).1
    with (bool_decide (user_id ∈ banned_users (db w))).
  rewrite (bool_decide_eq_false_2 _ Hban).
  do 9 pass.
  change (run (get_user user_id) (db w)).1 with (users (db w) !! user_id).
  destruct (users (db w) !! user_id) as [r|]; reflexivity.
Qed.

(** [handle_text] up to the relay, for a ready sender. *)
Lemma handle_text_to_relay w user_id text :
  ready w user_id → passes_menus text →
  handle_text cfg env true user_id text w
  = proc (chat_relay env user_id text;; idle env user_id) w.
Proof.
  intros (Hban & Hst & r & Hr & Hreg) Htext.
  rewrite handle_text_to_profile by auto using passes_menus_early.
  rewrite Hr, Hreg. unfold proc. cbn [negb].
  pass. do 6 pass. reflexivity.
Qed.

End Menus.

Section Gate.

Context (cfg : Config) (env : Env).

Implicit Types (w : World) (text : string).

Lemma relayable_passes text : relayable text → passes_menus text.
Proof.
  intros H. split.
  - apply (relayable_not_in text _ H). reflexivity.
  - apply (relayable_no_prefix text _ H). reflexivity.
Qed.

(** The relay for a sender without a partner. *)
Lemma chat_relay_idle w user_id text :
  truthy (run (get_partner user_id) (db w)).1 = false →
  chat_relay env user_id text w = (Ok tt, w, []).
Proof.
  intros Hp. unfold chat_relay.
  erewrite bind_pure by (apply await_pure; apply get_partner_state). cbv beta.
  unfold truthy in Hp. unfold if_truthy.
  destruct (run (get_partner user_id) (db w)).1 as [n|]; [|reflexivity].
  rewrite Hp. reflexivity.
Qed.

(** The relay for a sender with a partner, up to the forwarding. *)
Lemma chat_relay_partner w user_id p text :
  (run (get_partner user_id) (db w)).1 = Some p → p ≠ 0 →
  chat_relay env user_id text w =
  (when (has_link text) (reply_text env user_id LinksProhibited [];; return_);;
   when (startswith "/" text || str_in text blocked_words) return_;;
   try_except
     (deliver env p (send_text p text))
     (_ ← await (disconnect user_id);
      reply_text env user_id PartnerDisconnected []);;
   return_) w.
Proof.
  intros Hp Hp0. unfold chat_relay.
  erewrite bind_pure by (apply await_pure; apply get_partner_state). cbv beta.
  rewrite Hp. unfold if_truthy. apply Z.eqb_neq in Hp0. rewrite Hp0. reflexivity.
Qed.

End Gate.

(** X9.  The ban check comes first in both message handlers: whatever a
    banned user types, in whatever state, is answered with the ban notice
    and its appeal button and nothing else happens; media from a banned user
    is dropped without an answer. *)
Theorem banned_sender_is_gated (cfg : Config) (env : Env) (w : World) (user_id : Z) :
  user_id ∈ banned_users (db w) →
  (∀ text, handle_text cfg env true user_id text w =
     if delivers env user_id
     then (Ok tt, w, [send_message user_id YouAreBanned [ban_appeal]])
     else (Raised TransportError, w, []))
  ∧ (∀ kind, handle_media cfg env user_id kind w = (Ok tt, w, [])).
Proof.
  intros Hban. split.
  - intros text. unfold handle_text, proc. change (negb true) with false.
    erewrite bind_pure by apply when_false. cbv beta.
    erewrite bind_pure by (apply await_pure; reflexivity). cbv beta.
    change (run (is_banned user_id) (db w)).1
      with (bool_decide (user_id ∈ banned_users (db w))).
    rewrite (bool_decide_eq_true_2 _ Hban).
    exec. destruct (delivers env user_id); reflexivity.
  - intros kind. unfold handle_media, proc.
    erewrite bind_pure by (apply await_pure; reflexivity). cbv beta.
    change (run (is_banned user_id) (db w)).1
      with (bool_decide (user_id ∈ banned_users (db w))).
    rewrite (bool_decide_eq_true_2 _ Hban). reflexivity.
Qed.

Lemma banned_sender_is_gated_witness :
  handle_text Example.cfg0 Example.env0 true 101 "/chat" Example.banned_world
  = (Ok tt, Example.banned_world, [send_message 101 YouAreBanned [ban_appeal]]).
Proof.
  assert (Hban : 101 ∈ banned_users (db Example.banned_world)).
  { change (101 ∈ ({[101]} : gset Z)). apply elem_of_singleton. reflexivity. }
  apply (proj1 (banned_sender_is_gated Example.cfg0 Example.env0 Example.banned_world 101
                  Hban) "/chat").
Defined.

(** X10.  [handle_text] reads the sender's profile with [user_data.get]: for
    a sender without a row in [users] every text that is not an exit, a
    report or a menu label raises [AttributeError], with nothing sent and
    nothing changed. *)
Theorem text_without_profile_raises (cfg : Config) (env : Env) (w : World)
    (user_id : Z) (text : string) :
  user_id ∉ banned_users (db w) →
  awaits_input (user_states w !! user_id) = false →
  passes_early text →
  users (db w) !! user_id = None →
  handle_text cfg env true user_id text w = (Raised AttributeError, w, []).
Proof.
  intros Hban Hst Htext Hrow.
  rewrite handle_text_to_profile by assumption. rewrite Hrow. reflexivity.
Qed.

Lemma text_without_profile_raises_witness :
  handle_text Example.cfg0 Example.env0 true 7 "/chat" (empty_world empty_db)
  = (Raised AttributeError, empty_world empty_db, []).
Proof.
  apply text_without_profile_raises.
  - apply not_elem_of_empty.
  - reflexivity.
  - split; reflexivity.
  - reflexivity.
Defined.





(** X13.  When the platform refuses the message for the partner, the chat
    is over: the session rows of both are deleted, so that neither has a
    partner, and the sender is told that the partner has disconnected.  This
    holds for a forwarded text and for media past the lock alike; the
    entries of [active_sessions] are left in place. *)
Theorem failed_delivery_ends_the_chat (cfg : Config) (env : Env) (w : World)
    (user_id p : Z) :
  user_id ∉ banned_users (db w) →
  (run (get_partner user_id) (db w)).1 = Some p → p ≠ 0 →
  delivers env p = false →
  let w' := set_db (run (disconnect user_id) (db w)).2 w in
  let told :=
    if delivers env user_id
    then (Ok tt, w', [send_message user_id PartnerDisconnected []])
    else (Raised TransportError, w', []) in
  (∀ text, ready w user_id → relayable text →
     handle_text cfg env true user_id text w = told)
  ∧ (∀ kind,
       (∀ s, active_sessions w !! user_id = Some s → MEDIA_LOCK ≤ now env - start_time s) →
       handle_media cfg env user_id kind w = told)
  ∧ (run (get_partner user_id) (db w')).1 = None
  ∧ (run (get_partner p) (db w')).1 = None
  ∧ active_sessions w' = active_sessions w.
Proof.
  intros Hban Hp Hp0 Hdel. cbv zeta.
  rewrite (disconnect_run (db w) user_id p Hp Hp0). cbn [fst snd].
  split; [|split].
  - intros text Hready Hrel.
    rewrite handle_text_to_relay by auto using relayable_passes.
    unfold proc, mbind at 1, M_bind at 1.
    rewrite (chat_relay_partner env w user_id p text Hp Hp0).
    destruct Hrel as (Hlink & Hslash & Hblocked). rewrite Hlink, Hslash, Hblocked.
    cbn [orb].
    erewrite bind_pure by apply when_false. cbv beta.
    erewrite bind_pure by apply when_false. cbv beta.
    unfold mbind, M_bind, try_except, try_catch, deliver, await, reply_text.
    rewrite Hdel. unfold raise.
    rewrite (disconnect_run (db w) user_id p Hp Hp0).
    unfold deliver. destruct (delivers env user_id); reflexivity.
  - intros kind Hlock.
    unfold handle_media, proc.
    erewrite bind_pure by (apply await_pure; reflexivity). cbv beta.
    change (run (is_banned user_id) (db w)).1
      with (bool_decide (user_id ∈ banned_users (db w))).
    rewrite (bool_decide_eq_false_2 _ Hban).
    erewrite bind_pure by apply when_false. cbv beta.
    erewrite bind_pure by (apply await_pure; apply get_partner_state). cbv beta.
    rewrite Hp. pose proof Hp0 as Hp0'.
    apply Z.eqb_neq in Hp0'. unfold truthy, if_truthy. rewrite Hp0'. cbn [negb].
    erewrite bind_pure by apply when_false. cbv beta.
    erewrite bind_pure by apply get_pure. cbv beta.
    assert (Hpass : ∀ k : unit → M unit,
      ((match active_sessions w !! user_id with
        | Some s =>
            when (now env - start_time s <? MEDIA_LOCK)
              (reply_text env user_id
                 (MediaLocked ((MEDIA_LOCK - (now env - start_time s)) `quot` 1000000)) [];;
               return_)
        | None => mret tt
        end) ≫= k) w = k tt w).
    { intros k. apply bind_pure.
      destruct (active_sessions w !! user_id) as [s|] eqn:Es; [|reflexivity].
      specialize (Hlock s eq_refl). apply Z.ltb_ge in Hlock. rewrite Hlock.
      reflexivity. }
    rewrite Hpass.
    unfold mbind, M_bind, try_except, try_catch, deliver, await, reply_text.
    rewrite Hdel. unfold raise.
    rewrite (disconnect_run (db w) user_id p Hp Hp0).
    unfold deliver. destruct (delivers env user_id); reflexivity.
  - split; [apply disconnect_frees|]. split; [apply disconnect_frees|reflexivity].
Qed.

Lemma failed_delivery_ends_the_chat_witness :
  handle_text Example.cfg0 (Example.refusing 102) true 101 "hello" Example.chatting_world
  = (Ok tt,
     set_db (MkDatabase Example.three_users [] [] ∅) Example.chatting_world,
     [send_message 101 PartnerDisconnected []])
  ∧ handle_media Example.cfg0 (Example.refusing 102) 101 voice Example.chatting_world
    = (Ok tt,
       set_db (MkDatabase Example.three_users [] [] ∅) Example.chatting_world,
       [send_message 101 PartnerDisconnected []]).
Proof.
  assert (Hban : 101 ∉ banned_users (db Example.chatting_world))
    by apply not_elem_of_empty.
  pose proof (failed_delivery_ends_the_chat Example.cfg0 (Example.refusing 102)
                Example.chatting_world 101 102 Hban eq_refl ltac:(discriminate) eq_refl)
    as (Htext & Hmedia & _).
  split.
  - apply (Htext "hello").
    + split; [exact Hban|]. split; [reflexivity|].
      exists (Example.profile "male" None). split; reflexivity.
    + repeat split.
  - apply (Hmedia voice). intros s Hs. injection Hs as <-. vm_compute. discriminate.
Defined.




(** ** Handlers that write: stepping through a body *)

Section Steps.

Context {A B : Type}.

Implicit Types (w : World) (k : A → M B).

Lemma bind_ok (m : M A) k w a w1 out :
  m w = (Ok a, w1, out) →
  (m ≫= k) w = (let '(r, w2, out') := k a w1 in (r, w2, out ++ out')).
Proof. intros H. unfold mbind, M_bind. by rewrite H. Qed.

Lemma bind_await (p : sql A) k w :
  (await p ≫= k) w = k (run p (db w)).1 (set_db (run p (db w)).2 w).
Proof.
  unfold mbind, M_bind, await. destruct (run p (db w)) as [a d]. cbn [fst snd].
  by destruct (k a (set_db d w)) as [[r w2] out].
Qed.

Lemma bind_get (f : World → A) k w : (get f ≫= k) w = k (f w) w.
Proof. unfold mbind, M_bind, get. by destruct (k (f w) w) as [[r w2] out]. Qed.

Lemma bind_ret (a : A) k w : (mret a ≫= k) w = k a w.
Proof. unfold mbind, M_bind, mret, M_ret. by destruct (k a w) as [[r w2] out]. Qed.

Lemma bind_return k w : (return_ ≫= k) w = (Returned, w, []).
Proof. reflexivity. Qed.

Lemma bind_raise e k w : (raise e ≫= k) w = (Raised e, w, []).
Proof. reflexivity. Qed.

Lemma bind_assoc {C : Type} (m : M C) (f : C → M A) k w :
  ((m ≫= f) ≫= k) w = (m ≫= λ c, f c ≫= k) w.
Proof.
  unfold mbind, M_bind. destruct (m w) as [[[c| |e] w1] out]; [|done..].
  destruct (f c w1) as [[[a| |e] w2] out2]; [|done..].
  destruct (k a w2) as [[r w3] out3]. by rewrite app_assoc.
Qed.

Lemma bind_returned (m : M A) k w w1 out :
  m w = (Returned, w1, out) → (m ≫= k) w = (Returned, w1, out).
Proof. intros H. unfold mbind, M_bind. by rewrite H. Qed.

End Steps.

Section StepsUnit.

Context {B : Type}.

Implicit Types (w : World) (k : unit → M B).

Lemma bind_modify (f : World → World) k w : (modify f ≫= k) w = k tt (f w).
Proof. unfold mbind, M_bind, modify. by destruct (k tt (f w)) as [[r w2] out]. Qed.

Lemma bind_emit (a : action) k w :
  (emit a ≫= k) w = (let '(r, w2, out) := k tt w in (r, w2, a :: out)).
Proof. reflexivity. Qed.

End StepsUnit.

Lemma when_true (m : M unit) : when true m = m.
Proof. reflexivity. Qed.

Lemma when_skip (m : M unit) : when false m = mret tt.
Proof. reflexivity. Qed.

Lemma is_searching_state (d : Database) (u : Z) : (run (is_searching u) d).2 = d.
Proof. reflexivity. Qed.

Ltac fields :=
  cbn [db user_states active_sessions reporting_cache last_partners user_preferences
       set_db set_user_states set_active_sessions set_reporting_cache set_last_partners
       set_user_preferences fst snd].

Ltac step :=
  first [ rewrite bind_assoc | rewrite bind_await | rewrite bind_modify
        | rewrite bind_get | rewrite bind_ret | rewrite bind_return
        | rewrite bind_raise | rewrite bind_emit ];
  fields.

Section Exit.

Context (cfg : Config) (env : Env).

Implicit Types (w : World) (text : string) (state : option ustate).

(** The two messages for the partner who was left: sent, or dropped when
    the platform refuses them. *)
Lemma partner_notice w p (m1 m2 : action) :
  try_except (deliver env p m1;; deliver env p m2) (mret tt) w
  = (Ok tt, w, if delivers env p then [m1; m2] else []).
Proof.
  unfold try_except, try_catch, mbind, M_bind, deliver.
  destruct (delivers env p); reflexivity.
Qed.

(** What [exit_chat] leaves of the process memory of a sender in a chat
    with [p]. *)
Lemma exit_chat_partner w user_id p text state :
  str_in text ["❌ Exit Chat"; "/exit"] = true →
  (run (get_partner user_id) (db w)).1 = Some p → p ≠ 0 →
  delivers env user_id = true →
  let tag := random_report_tag env in
  let kb := [report_ tag; find_new_partner] in
  let w0 :=
    if bool_decide (is_Some state)
    then set_reporting_cache (delete user_id) (set_user_states (delete user_id) w)
    else w in
  let d' := (run (remove_from_queue user_id) (run (disconnect user_id) (db w)).2).2 in
  exit_chat env user_id text state w =
  (Returned,
   set_last_partners <[p := MkTicket (Some user_id) tag]>
     (set_last_partners <[user_id := MkTicket (Some p) tag]>
        (set_active_sessions (delete p)
           (set_active_sessions (delete user_id) (set_db d' w0)))),
   [send_message user_id (YouLeftTheChat tag) kb; send_message user_id MainMenu []]
   ++ (if delivers env p
       then [send_message p (PartnerLeftTheChat tag) kb; send_message p MainMenu []]
       else [])).
Proof.
  intros Htext Hp Hp0 Hdel. cbv zeta.
  unfold exit_chat. rewrite Htext, when_true.
  pose proof Hp0 as Hz. apply Z.eqb_neq in Hz.
  destruct (bool_decide (is_Some state));
    [rewrite when_true, bind_assoc; do 2 step|rewrite when_skip; step].
  all: rewrite bind_await; fields.
  all: rewrite bind_await; fields.
  all: rewrite ?is_searching_state, ?get_partner_state, Hp.
  all: unfold truthy; rewrite Hz, andb_false_r, when_skip; step.
  all: rewrite bind_await; fields; rewrite (disconnect_run (db w) user_id p Hp Hp0); fields.
  all: rewrite bind_await; fields.
  all: do 3 step; unfold if_truthy; rewrite Hz; cbn [negb from_option].
  all: step; unfold reply_text, deliver; rewrite Hdel.
  all: do 2 step.
  all: erewrite bind_ok by apply partner_notice.
  all: unfold return_; cbn [app]; rewrite app_nil_r; reflexivity.
Qed.

(** [handle_text] up to its first menu, for a sender who is not banned. *)
Lemma handle_text_to_exit w user_id text :
  user_id ∉ banned_users (db w) →
  handle_text cfg env true user_id text w =
  proc
    (let state := user_states w !! user_id in
     exit_chat env user_id text state;;
     cancel_command env user_id text state;;
     capture_report_reason cfg env user_id text state;;
     manual_report env user_id text;;
     menu_buttons env user_id text state;;
     registration_input cfg env user_id text state;;
     user_data ← await (get_user user_id);
     match user_data with
     | None => raise AttributeError
     | Some r =>
         when (negb (is_registered r)) (_ ← check_registration env user_id; return_);;
         preferences_menu env user_id text;;
         rechat cfg env user_id text;;
         chat cfg env user_id text;;
         settings cfg env user_id text r;;
         premium env user_id text;;
         about_help env user_id text;;
         chat_relay env user_id text;;
         idle env user_id
     end) w.
Proof.
  intros Hban. unfold handle_text, proc. change (negb true) with false.
  rewrite when_skip, bind_ret, bind_await.
  change (run (is_banned user_id) (db w)).2 with (db w). rewrite set_db_id.
  change (run (is_banned user_id) (db w)).1
    with (bool_decide (user_id ∈ banned_users (db w))).
  rewrite (bool_decide_eq_false_2 _ Hban), when_skip, bind_ret, bind_get.
  reflexivity.
Qed.

End Exit.

(** X15.  [/exit] in a chat ends it for both sides: the session rows of the
    two are deleted and the sender leaves the queue, so that neither has a
    partner; both entries of [active_sessions] are dropped; each is recorded
    as the other's last partner under one fresh report tag; the sender gets
    the leave notice with the report and find-new-partner buttons, and the
    partner the same if the platform delivers it. *)
Theorem exit_ends_the_chat_for_both (cfg : Config) (env : Env) (w : World)
    (user_id p : Z) (text : string) :
  user_id ∉ banned_users (db w) →
  str_in text ["❌ Exit Chat"; "/exit"] = true →
  (run (get_partner user_id) (db w)).1 = Some p → p ≠ 0 →
  delivers env user_id = true →
  let r := handle_text cfg env true user_id text w in
  let tag := random_report_tag env in
  let kb := [report_ tag; find_new_partner] in
  result r = Ok tt
  ∧ calls r =
      [send_message user_id (YouLeftTheChat tag) kb; send_message user_id MainMenu []]
      ++ (if delivers env p
          then [send_message p (PartnerLeftTheChat tag) kb; send_message p MainMenu []]
          else [])
  ∧ (run (get_partner user_id) (db (world r))).1 = None
  ∧ (run (get_partner p) (db (world r))).1 = None
  ∧ (run (is_searching user_id) (db (world r))).1 = false
  ∧ active_sessions (world r) !! user_id = None
  ∧ active_sessions (world r) !! p = None
  ∧ last_partners (world r) !! user_id = Some (MkTicket (Some p) tag)
  ∧ last_partners (world r) !! p = Some (MkTicket (Some user_id) tag)
  ∧ user_states (world r) !! user_id = None.
Proof.
  intros Hban Htext Hp Hp0 Hdel. cbv zeta.
  rewrite handle_text_to_exit by assumption. unfold proc. cbv zeta.
  erewrite bind_returned
    by exact (exit_chat_partner env w user_id p text _ Htext Hp Hp0 Hdel).
  unfold result, world, calls. cbn [fst snd].
  rewrite (disconnect_run (db w) user_id p Hp Hp0). fields.
  split; [reflexivity|]. split; [reflexivity|].
  split.
  { apply get_partner_none. simpl. intros row Hin.
    by apply list_elem_of_filter in Hin as [[H _] _]. }
  split.
  { apply get_partner_none. simpl. intros row Hin.
    by apply list_elem_of_filter in Hin as [[_ H] _]. }
  split.
  { simpl. apply bool_decide_eq_false. intros Hin.
    apply list_elem_of_fmap in Hin as (row & -> & Hin).
    by apply list_elem_of_filter in Hin as [Hne _]. }
  split.
  { destruct (decide (p = user_id)) as [->|Hne]; [apply lookup_delete_eq|].
    rewrite lookup_delete_ne by done. apply lookup_delete_eq. }
  split; [apply lookup_delete_eq|].
  split.
  { destruct (decide (p = user_id)) as [->|Hne]; [apply lookup_insert_eq|].
    rewrite lookup_insert_ne by done. apply lookup_insert_eq. }
  split; [apply lookup_insert_eq|].
  destruct (user_states w !! user_id) as [st|] eqn:Est.
  - rewrite bool_decide_eq_true_2 by eauto. fields. apply lookup_delete_eq.
  - rewrite bool_decide_eq_false_2 by (by intros [? ?]). exact Est.
Qed.

Lemma exit_ends_the_chat_for_both_witness :
  calls (handle_text Example.cfg0 Example.env0 true 101 "/exit" Example.chatting_world)
  = [send_message 101 (YouLeftTheChat "TAG00001") [report_ "TAG00001"; find_new_partner];
     send_message 101 MainMenu [];
     send_message 102 (PartnerLeftTheChat "TAG00001")
       [report_ "TAG00001"; find_new_partner];
     send_message 102 MainMenu []]
  ∧ (run (get_partner 102)
       (db (world (handle_text Example.cfg0 Example.env0 true 101 "/exit"
                     Example.chatting_world)))).1 = None.
Proof.
  destruct (exit_ends_the_chat_for_both Example.cfg0 Example.env0 Example.chatting_world
              101 102 "/exit" ltac:(apply not_elem_of_empty) eq_refl eq_refl
              ltac:(discriminate) eq_refl) as (_ & Hcalls & _ & Hpartner & _).
  split; [exact Hcalls|exact Hpartner].
Defined.

Section ExitAlone.

Context (cfg : Config) (env : Env).

Implicit Types (w : World) (text : string) (state : option ustate).

Lemma disconnect_alone (d : Database) (u : Z) :
  (run (get_partner u) d).1 = None → run (disconnect u) d = (None, d).
Proof.
  rewrite get_partner_result. unfold disconnect, get_partner. simpl.
  destruct (List.find (mentions u) (active_chats d)); [discriminate|reflexivity].
Qed.

Lemma exit_chat_alone w user_id text state :
  str_in text ["❌ Exit Chat"; "/exit"] = true →
  (run (get_partner user_id) (db w)).1 = None →
  delivers env user_id = true →
  let tag := random_report_tag env in
  let w0 :=
    if bool_decide (is_Some state)
    then set_reporting_cache (delete user_id) (set_user_states (delete user_id) w)
    else w in
  exit_chat env user_id text state w =
  if (run (is_searching user_id) (db w)).1 then
    (Returned,
     set_last_partners <[user_id := MkTicket None tag]>
       (set_active_sessions (delete user_id)
          (set_db (run (remove_from_queue user_id) (db w)).2 w0)),
     [send_message user_id (YouLeftTheChat tag) [report_ tag; find_new_partner];
      send_message user_id MainMenu []])
  else (Returned, w0, [send_message user_id NotInAChat []]).
Proof.
  intros Htext Hp Hdel. cbv zeta.
  unfold exit_chat. rewrite Htext, when_true.
  destruct (bool_decide (is_Some state));
    [rewrite when_true, bind_assoc; do 2 step|rewrite when_skip; step].
  all: rewrite bind_await; fields.
  all: rewrite bind_await; fields.
  all: rewrite ?is_searching_state, ?get_partner_state, Hp.
  all: destruct (run (is_searching user_id) (db w)).1; cbn [negb andb truthy].
  all: rewrite ?when_true, ?when_skip.
  2, 4: rewrite bind_assoc; unfold reply_text, deliver; rewrite Hdel;
    rewrite bind_emit, bind_return; destruct w; reflexivity.
  all: step.
  all: rewrite bind_await; fields; rewrite (disconnect_alone (db w) user_id Hp); fields.
  all: rewrite bind_await; fields.
  all: do 3 step; unfold if_truthy; cbn [from_option].
  all: step; unfold reply_text, deliver; rewrite Hdel.
  all: do 3 step.
  all: reflexivity.
Qed.

End ExitAlone.

(** X16.  [/exit] from a sender without a partner.  A sender who is not
    searching either is told so.  A sender who is only searching is taken
    out of the queue and still gets the leave notice with its buttons: a
    last partner without an id is recorded under a fresh tag.  Either way
    a pending answer is dropped and no session row is touched. *)
Theorem exit_without_partner (cfg : Config) (env : Env) (w : World)
    (user_id : Z) (text : string) :
  user_id ∉ banned_users (db w) →
  str_in text ["❌ Exit Chat"; "/exit"] = true →
  (run (get_partner user_id) (db w)).1 = None →
  delivers env user_id = true →
  let tag := random_report_tag env in
  let w0 :=
    if bool_decide (is_Some (user_states w !! user_id))
    then set_reporting_cache (delete user_id) (set_user_states (delete user_id) w)
    else w in
  handle_text cfg env true user_id text w =
  if (run (is_searching user_id) (db w)).1 then
    (Ok tt,
     set_last_partners <[user_id := MkTicket None tag]>
       (set_active_sessions (delete user_id)
          (set_db (run (remove_from_queue user_id) (db w)).2 w0)),
     [send_message user_id (YouLeftTheChat tag) [report_ tag; find_new_partner];
      send_message user_id MainMenu []])
  else (Ok tt, w0, [send_message user_id NotInAChat []]).
Proof.
  intros Hban Htext Hp Hdel. cbv zeta.
  rewrite handle_text_to_exit by assumption. unfold proc. cbv zeta.
  pose proof (exit_chat_alone env w user_id text (user_states w !! user_id)
                Htext Hp Hdel) as E.
  cbv zeta in E.
  destruct (run (is_searching user_id) (db w)).1;
    erewrite bind_returned by exact E; reflexivity.
Qed.

Lemma exit_without_partner_witness :
  handle_text Example.cfg0 Example.env0 true 101 "/exit" Example.idle_world
  = (Ok tt, Example.idle_world, [send_message 101 NotInAChat []])
  ∧ calls (handle_text Example.cfg0 Example.env0 true 102 "/exit"
             (empty_world Example.two_waiting))
    = [send_message 102 (YouLeftTheChat "TAG00001") [report_ "TAG00001"; find_new_partner];
       send_message 102 MainMenu []].
Proof.
  split.
  - apply (exit_without_partner Example.cfg0 Example.env0 Example.idle_world 101 "/exit");
      [apply not_elem_of_empty|reflexivity..].
  - rewrite (exit_without_partner Example.cfg0 Example.env0
               (empty_world Example.two_waiting) 102 "/exit");
      [reflexivity|apply not_elem_of_empty|reflexivity..].
Defined.

(** X17.  While the sender is in the queue, a label of the main menu (the
    chat button included) only cancels the search: the sender is taken out
    of the queue and told so, and the handler returns before the menu itself
    is looked at.  This is so when no report reason is awaited, and also
    when one is awaited and the label is one of the four that drop the
    pending report (chat, settings, premium, preferences); any other label
    is then taken as the reason of the report instead. *)
Theorem menu_button_cancels_search (cfg : Config) (env : Env) (w : World)
    (user_id : Z) (text : string) :
  user_id ∉ banned_users (db w) →
  str_in text MENU_BUTTONS = true →
  (run (is_searching user_id) (db w)).1 = true →
  (user_states w !! user_id = Some WAITING_REPORT_REASON →
   str_in text ["💬 Chat"; "⚙️ Settings"; "💎 Premium"; "❤️ Preferences"] = true) →
  let w0 :=
    if bool_decide (user_states w !! user_id = Some WAITING_REPORT_REASON)
    then set_user_states (delete user_id) w
    else w in
  let w' := set_db (run (remove_from_queue user_id) (db w)).2 w0 in
  handle_text cfg env true user_id text w =
  (if delivers env user_id
   then (Ok tt, w', [send_message user_id SearchCancelled []])
   else (Raised TransportError, w', []))
  ∧ (run (is_searching user_id) (db w')).1 = false.
Proof.
  intros Hban Htext Hq Hst. cbv zeta. split.
  - rewrite handle_text_to_exit by assumption. unfold proc. cbv zeta.
    assert (Hexit : str_in text ["❌ Exit Chat"; "/exit"] = false
                  ∧ str_in text ["/cancel"; "🔙 Cancel"] = false
                  ∧ String.eqb text "🚨 Report Partner" || startswith "/report" text = false).
    { apply str_in_true in Htext. unfold MENU_BUTTONS in Htext.
      repeat (apply elem_of_cons in Htext as [->|Htext]); [by repeat split..|].
      by apply elem_of_nil in Htext. }
    destruct Hexit as (Hexit & Hcancel & Hreport).
    unfold exit_chat. rewrite Hexit, when_skip, bind_ret.
    unfold cancel_command. rewrite Hcancel, when_skip, bind_ret.
    unfold capture_report_reason, manual_report, menu_buttons.
    rewrite Hreport, Htext.
    destruct (decide (user_states w !! user_id = Some WAITING_REPORT_REASON))
      as [Hpending|Hnone].
    + rewrite !(bool_decide_eq_true_2 _ Hpending), (Hst Hpending).
      cbv iota. rewrite !when_true, !when_skip, bind_modify, bind_ret.
      rewrite !bind_assoc, bind_await. fields.
      rewrite is_searching_state, Hq, when_true.
      rewrite !bind_assoc, bind_await. fields.
      unfold reply_text, deliver.
      destruct (delivers env user_id); reflexivity.
    + rewrite !(bool_decide_eq_false_2 _ Hnone).
      rewrite !when_skip, bind_ret, bind_ret, when_true.
      rewrite !bind_assoc, bind_await, is_searching_state, set_db_id, Hq, when_true.
      rewrite !bind_assoc, bind_await.
      unfold reply_text, deliver.
      destruct (delivers env user_id); reflexivity.
  - destruct (bool_decide _); simpl; apply bool_decide_eq_false; intros Hin;
      apply list_elem_of_fmap in Hin as (row & -> & Hin);
      by apply list_elem_of_filter in Hin as [Hne _].
Qed.

Lemma menu_button_cancels_search_witness :
  handle_text Example.cfg0 Example.env0 true 101 "💬 Chat" (empty_world Example.two_waiting)
  = (Ok tt,
     empty_world (MkDatabase Example.three_users [(102, "female")] [] ∅),
     [send_message 101 SearchCancelled []]).
Proof.
  apply (proj1 (menu_button_cancels_search Example.cfg0 Example.env0
                  (empty_world Example.two_waiting) 101 "💬 Chat"
                  ltac:(apply not_elem_of_empty) eq_refl eq_refl
                  ltac:(intros H; discriminate H))).
Defined.

Section Reports.

Context (cfg : Config) (env : Env).

Implicit Types (w : World) (text : string).

(** A log line is sent if a channel is configured and the platform takes
    it; the handler goes on either way. *)
Lemma send_log_run w channel (text : notice) :
  send_log env channel text w =
  (Ok tt, w,
   if negb (channel =? 0) && delivers env channel
   then [send_message channel text []] else []).
Proof.
  unfold send_log, when, try_except, try_catch, deliver.
  destruct (channel =? 0); [reflexivity|].
  destruct (delivers env channel); reflexivity.
Qed.

End Reports.

(** X18.  The report button of a leave notice opens a report on the partner
    recorded under its tag, and the next text of the reporter is the reason:
    it goes to the report log with the reporter, the accused and the tag; it
    is not forwarded to anyone, and the pending report is closed.  A button
    whose tag is not that of the last partner only answers that the session
    has expired. *)
Theorem report_reaches_the_log (cfg : Config) (env env' : Env) (w : World)
    (user_id : Z) (accused : option Z) (tag reason : string) :
  user_id ∉ banned_users (db w) →
  last_partners w !! user_id = Some (MkTicket accused tag) →
  query_ok env = true → delivers env user_id = true → delivers env' user_id = true →
  str_in reason ["❌ Exit Chat"; "/exit"; "/cancel"; "🔙 Cancel";
                 "💬 Chat"; "⚙️ Settings"; "💎 Premium"; "❤️ Preferences"] = false →
  let r1 := handle_report_buttons cfg env user_id (report_ tag) w in
  let r2 := handle_text cfg env' true user_id reason (world r1) in
  calls r1 = [answer_query None; send_message user_id (ReportingUser tag) []]
  ∧ reporting_cache (world r1) !! user_id = Some (MkTicket accused tag)
  ∧ result r2 = Ok tt
  ∧ calls r2 =
      (if negb (LOG_REPORTS cfg =? 0) && delivers env' (LOG_REPORTS cfg)
       then [send_message (LOG_REPORTS cfg) (UserReport user_id accused tag reason) []]
       else [])
      ++ [send_message user_id ReportSubmitted []]
  ∧ user_states (world r2) !! user_id = None
  ∧ reporting_cache (world r2) !! user_id = None
  ∧ db (world r2) = db w
  ∧ (∀ stale, stale ≠ tag →
       handle_report_buttons cfg env user_id (report_ stale) w
       = (Ok tt, w, [answer_query None; edit_message OldSessionExpired])).
Proof.
  intros Hban Hlast Hq Hdel Hdel' Hreason. cbv zeta.
  assert (E1 : handle_report_buttons cfg env user_id (report_ tag) w =
               (Ok tt,
                set_user_states <[user_id := WAITING_REPORT_REASON]>
                  (set_reporting_cache <[user_id := MkTicket accused tag]> w),
                [answer_query None; send_message user_id (ReportingUser tag) []])).
  { unfold handle_report_buttons, proc, on_query. rewrite Hq.
    rewrite bind_emit, bind_get, Hlast. cbn [Bot.tag Bot.id].
    rewrite String.eqb_refl. do 2 step.
    unfold reply_text, deliver. rewrite Hdel. reflexivity. }
  rewrite E1. unfold world, calls, result. cbn [fst snd].
  split; [reflexivity|]. split; [apply lookup_insert_eq|].
  set (w1 := set_user_states _ _).
  assert (E2 : handle_text cfg env' true user_id reason w1 =
               (Ok tt,
                set_user_states (delete user_id) (set_reporting_cache (delete user_id) w1),
                (if negb (LOG_REPORTS cfg =? 0) && delivers env' (LOG_REPORTS cfg)
                 then [send_message (LOG_REPORTS cfg)
                         (UserReport user_id accused tag reason) []]
                 else [])
                ++ [send_message user_id ReportSubmitted []])).
  { rewrite handle_text_to_exit by exact Hban. unfold proc. cbv zeta.
    assert (Hst : user_states w1 !! user_id = Some WAITING_REPORT_REASON)
      by apply lookup_insert_eq.
    rewrite Hst.
    unfold exit_chat. rewrite (str_in_sub reason _ _ Hreason) by reflexivity.
    rewrite when_skip, bind_ret.
    unfold cancel_command. rewrite (str_in_sub reason _ _ Hreason) by reflexivity.
    rewrite when_skip, bind_ret.
    unfold capture_report_reason.
    rewrite bool_decide_eq_true_2 by reflexivity. rewrite when_true.
    rewrite (str_in_sub reason _ _ Hreason) by reflexivity.
    rewrite !bind_assoc, bind_get.
    assert (Hc : reporting_cache w1 !! user_id = Some (MkTicket accused tag))
      by apply lookup_insert_eq.
    rewrite Hc. cbn [Bot.tag Bot.id].
    rewrite !bind_assoc. erewrite bind_ok by apply send_log_run.
    repeat step. rewrite get_partner_state.
    unfold reply_text, deliver. rewrite Hdel'.
    repeat step. destruct w; reflexivity. }
  rewrite E2. cbn [fst snd]. fields.
  split; [reflexivity|]. split; [reflexivity|].
  split; [apply lookup_delete_eq|]. split; [apply lookup_delete_eq|].
  split; [reflexivity|].
  intros stale Hstale.
  unfold handle_report_buttons, proc, on_query. rewrite Hq.
  rewrite bind_emit, bind_get, Hlast. cbn [Bot.tag Bot.id].
  apply not_eq_sym in Hstale. apply String.eqb_neq in Hstale. rewrite Hstale.
  reflexivity.
Qed.

Lemma report_reaches_the_log_witness :
  calls (handle_text Example.cfg_logs Example.env0 true 101 "spam"
           (world (handle_report_buttons Example.cfg_logs Example.env0 101
                     (report_ "TAG00001") Example.left_world)))
  = [send_message 901 (UserReport 101 (Some 102) "TAG00001" "spam") [];
     send_message 101 ReportSubmitted []]
  ∧ handle_report_buttons Example.cfg_logs Example.env0 101 (report_ "TAG00000")
      Example.left_world
    = (Ok tt, Example.left_world, [answer_query None; edit_message OldSessionExpired]).
Proof.
  destruct (report_reaches_the_log Example.cfg_logs Example.env0 Example.env0
              Example.left_world 101 (Some 102) "TAG00001" "spam"
              ltac:(apply not_elem_of_empty) eq_refl eq_refl eq_refl eq_refl eq_refl)
    as (_ & _ & _ & Hcalls & _ & _ & _ & Hstale).
  split; [exact Hcalls|]. apply Hstale. discriminate.
Defined.


(** ** Searching *)

Section Search.

Context (cfg : Config) (env : Env).

Implicit Types (w : World) (text : string).

Lemma check_premium_state (d : Database) (t u : Z) : (run (check_premium t u) d).2 = d.
Proof.
  unfold check_premium. simpl. destruct (users d !! u) as [r|]; [|reflexivity].
  destruct (is_premium r); [reflexivity|].
  destruct (vip_expiry r) as [e|]; [|reflexivity]. by destruct (e >? t).
Qed.

Lemma is_vip_run w u :
  is_vip cfg env u w
  = (Ok ((run (check_premium (now env) u) (db w)).1 || (u =? ADMIN_ID cfg)), w, []).
Proof.
  unfold is_vip. rewrite bind_await, check_premium_state, set_db_id. reflexivity.
Qed.

Lemma reads_only_bind {A B : Type} (m : M A) (k : A → M B) :
  reads_only m → (∀ a, reads_only (k a)) → reads_only (m ≫= k).
Proof.
  intros Hm Hk w. unfold mbind, M_bind. specialize (Hm w).
  destruct (m w) as [[[a| |e] w1] out]; [|exact Hm..]. cbn [fst snd] in Hm.
  specialize (Hk a w1). destruct (k a w1) as [[r w2] out2]. cbn [fst snd] in *.
  congruence.
Qed.

Lemma reads_only_await {A : Type} (p : sql A) :
  (∀ d, (run p d).2 = d) → reads_only (await p).
Proof.
  intros H w. unfold await. specialize (H (db w)).
  destruct (run p (db w)) as [a d]. cbn [fst snd] in *. by subst d.
Qed.

Lemma reads_only_deliver chat_id a : reads_only (deliver env chat_id a).
Proof. intros w. unfold deliver. by destruct (delivers env chat_id). Qed.

Lemma reads_only_is_vip u : reads_only (is_vip cfg env u).
Proof. intros w. by rewrite is_vip_run. Qed.

(** [send_match_messages] reads the tables and writes none. *)
Lemma send_match_messages_db user1_id user2_id :
  reads_only (send_match_messages cfg env user1_id user2_id).
Proof.
  unfold send_match_messages. cbv zeta.
  apply reads_only_bind; [done|intros _].
  apply reads_only_bind; [done|intros _].
  apply reads_only_bind; [by apply reads_only_await|intros u1_data].
  apply reads_only_bind; [by apply reads_only_await|intros u2_data].
  apply reads_only_bind; [apply reads_only_is_vip|intros u1_vip].
  apply reads_only_bind; [apply reads_only_is_vip|intros u2_vip].
  destruct u2_data as [r2|]; [|done].
  destruct u1_data as [r1|]; [|by destruct (gender r2)].
  destruct (gender r2) as [g2|]; [|done].
  destruct (gender r1) as [g1|]; [|done].
  apply reads_only_bind; [apply reads_only_deliver|intros _].
  apply reads_only_deliver.
Qed.

Lemma reads_only_if_truthy (x : option Z) (body : Z → M unit) :
  (∀ n, reads_only (body n)) → reads_only (if_truthy x body).
Proof.
  intros H. unfold if_truthy. destruct x as [n|]; [|done].
  destruct (negb (n =? 0)); [apply H|done].
Qed.

(** A body that ends in [return] does not fall through. *)
Lemma bind_never_ok {A : Type} (m : M A) (k : A → M unit) w :
  (∀ a w', (k a w').1.1 ≠ Ok tt) → ((m ≫= k) w).1.1 ≠ Ok tt.
Proof.
  intros H. unfold mbind, M_bind.
  destruct (m w) as [[[a| |e] w1] out]; [|done..].
  specialize (H a w1). by destruct (k a w1) as [[r w2] out2].
Qed.

(** The search itself: its effect on the tables is that of the two
    methods, whatever is sent after a match. *)
Lemma search_db {B : Type} w user_id target (k : option Z → M B) :
  (∀ m, reads_only (k m)) →
  db ((await (add_to_queue user_id target);;
       match_id ← await (find_match user_id target); k match_id) w).1.2
  = (run (add_to_queue user_id target;; find_match user_id target) (db w)).2.
Proof.
  intros Hk. rewrite bind_await, bind_await. fields. apply Hk.
Qed.

(** The target of a search by someone who is not VIP. *)
Lemma target_without_vip (target : string) :
  (if negb (String.eqb target "any") && negb false then "any" else target) = "any".
Proof.
  destruct (String.eqb target "any") eqn:E; [|reflexivity].
  by apply String.eqb_eq in E.
Qed.

(** [/chat] by someone without a partner who is not VIP. *)
Lemma chat_search w user_id text :
  str_in text ["💬 Chat"; "/chat"] = true →
  (run (get_partner user_id) (db w)).1 = None →
  is_vip cfg env user_id w = (Ok false, w, []) →
  delivers env user_id = true →
  ∃ res w1 sent,
    chat cfg env user_id text w
    = (res, w1, send_message user_id (SearchingFor "any") [] :: sent)
    ∧ res ≠ Ok tt
    ∧ db w1 = (run (add_to_queue user_id "any";; find_match user_id "any") (db w)).2.
Proof.
  intros Htext Hp Hvip Hdel. unfold chat. rewrite Htext, when_true.
  rewrite bind_await, get_partner_state, set_db_id, Hp. cbn [truthy].
  rewrite when_skip, bind_ret, bind_get.
  erewrite bind_ok by exact Hvip. cbv zeta. rewrite target_without_vip.
  unfold reply_text, deliver. rewrite Hdel. cbn [app]. rewrite bind_emit.
  match goal with
  | |- context [(await (add_to_queue ?u ?t) ≫= ?k) ?w0] =>
      set (X := (await (add_to_queue u t) ≫= k) w0);
      assert (Hs : db X.1.2
                   = (run (add_to_queue user_id "any";; find_match user_id "any") (db w)).2);
      [|assert (Hres : X.1.1 ≠ Ok tt); [|destruct X as [[res w1] sent]]]
  end.
  - apply search_db. intros m. apply reads_only_bind; [|done].
    apply reads_only_if_truthy. intros n. apply send_match_messages_db.
  - do 3 (apply bind_never_ok; intros). done.
  - cbn [fst snd] in *. eauto 10.
Qed.

End Search.

(** X19.  The gender filter is for VIPs, and this is checked again at every
    search.  Someone who is neither VIP nor the admin cannot store the
    preference male or female, and a stored preference does not count: both
    [/chat] and the find-new-partner button search with the filter any,
    their effect on the tables being that of [add_to_queue] and [find_match]
    with it. *)
Theorem gender_filter_needs_vip (cfg : Config) (env : Env) (w : World) (user_id : Z) :
  (run (check_premium (now env) user_id) (db w)).1 = false →
  user_id ≠ ADMIN_ID cfg →
  query_ok env = true → delivers env user_id = true →
  let searched := (run (add_to_queue user_id "any";; find_match user_id "any") (db w)).2 in
  (∀ pref, str_in pref ["male"; "female"] = true →
     handle_report_buttons cfg env user_id (set_pref_ pref) w
     = (Ok tt, w, [answer_query None; send_message user_id VipOnly []]))
  ∧ (ready w user_id → (run (get_partner user_id) (db w)).1 = None →
     db (world (handle_text cfg env true user_id "/chat" w)) = searched
     ∧ ∃ sent, calls (handle_text cfg env true user_id "/chat" w)
               = send_message user_id (SearchingFor "any") [] :: sent)
  ∧ db (world (handle_report_buttons cfg env user_id find_new_partner w)) = searched.
Proof.
  intros Hfree Hadmin Hq Hdel. cbv zeta.
  apply Z.eqb_neq in Hadmin.
  assert (Hvip : is_vip cfg env user_id w = (Ok false, w, [])).
  { rewrite is_vip_run, Hfree, Hadmin. reflexivity. }
  split; [|split].
  - intros pref Hpref.
    unfold handle_report_buttons, proc, on_query. rewrite Hq, bind_emit.
    erewrite bind_ok by exact Hvip. rewrite Hpref. cbn [negb andb].
    rewrite when_true.
    erewrite bind_returned
      by (unfold reply_text, deliver; rewrite Hdel; reflexivity).
    reflexivity.
  - intros (Hban & Hst & r & Hr & Hreg) Hp.
    rewrite (handle_text_to_profile cfg env w user_id "/chat" Hban Hst)
      by (split; reflexivity).
    rewrite Hr, Hreg. unfold proc. cbn [negb].
    rewrite when_skip, bind_ret.
    erewrite bind_pure by reflexivity. erewrite bind_pure by reflexivity.
    destruct (chat_search cfg env w user_id "/chat" eq_refl Hp Hvip Hdel)
      as (res & w1 & sent & E & Hres & Hdb).
    unfold mbind, M_bind. rewrite E. unfold world, calls.
    destruct res as [[]| |e]; [done|..]; cbn [fst snd]; eauto.
  - unfold handle_report_buttons, proc, on_query. rewrite Hq, bind_emit, bind_get.
    erewrite bind_ok by exact Hvip. cbv zeta. rewrite target_without_vip.
    unfold reply_text, deliver. rewrite Hdel. cbn [app].
    rewrite !bind_emit.
    match goal with
    | |- context [(await (add_to_queue ?u ?t) ≫= ?k) ?w0] =>
        set (X := (await (add_to_queue u t) ≫= k) w0);
        assert (Hs : db X.1.2
                     = (run (add_to_queue user_id "any";; find_match user_id "any")
                          (db w)).2);
        [|destruct X as [[[[]| |e] w1] sent]; exact Hs]
    end.
    apply search_db. intros m.
    apply reads_only_if_truthy. intros n. apply send_match_messages_db.
Qed.

Lemma gender_filter_needs_vip_witness :
  handle_report_buttons Example.cfg0 Example.env0 101 (set_pref_ "female") Example.idle_world
  = (Ok tt, Example.idle_world, [answer_query None; send_message 101 VipOnly []])
  ∧ search_queue
      (db (world (handle_report_buttons Example.cfg0 Example.env0 101 find_new_partner
                    (set_user_preferences <[101 := "female"]> Example.idle_world))))
    = [(101, "any")].
Proof.
  split.
  - apply (proj1 (gender_filter_needs_vip Example.cfg0 Example.env0 Example.idle_world 101
                    eq_refl ltac:(discriminate) eq_refl eq_refl)).
    reflexivity.
  - rewrite (proj2 (proj2 (gender_filter_needs_vip Example.cfg0 Example.env0
                             (set_user_preferences <[101 := "female"]> Example.idle_world)
                             101 eq_refl ltac:(discriminate) eq_refl eq_refl))).
    reflexivity.
Defined.

(** ** Payments *)

(** X20.  Choosing a plan and then sending a photo hands the admin an
    approve button for exactly the days of that plan: the choice is
    answered with the QR code and remembered, and the next photo of the
    user, who is in no chat, goes to the admin as a payment proof carrying
    [approve_<user>_<days>]; the remembered choice is then dropped. *)
Theorem selected_plan_reaches_the_admin (cfg : Config) (env env' : Env) (w : World)
    (user_id : Z) (key lbl : string) (amt days : Z) :
  (key, (amt, days, lbl)) ∈ VIP_PLANS →
  user_id ∉ banned_users (db w) →
  truthy (run (get_partner user_id) (db w)).1 = false →
  qrcode_found env = true → delivers env user_id = true → query_ok env = true →
  delivers env' (ADMIN_ID cfg) = true → delivers env' user_id = true →
  let r1 := handle_payment_selection cfg env user_id (pay_ key) w in
  let r2 := handle_media cfg env' user_id photo (world r1) in
  calls r1 = [send_photo user_id (UpgradeToVip key (amt `div` 100)) []; answer_query None]
  ∧ user_states (world r1) !! user_id = Some (WAITING_PAYMENT days)
  ∧ calls r2 = [send_photo (ADMIN_ID cfg) (PaymentProof user_id (Some days))
                  [approve_ user_id days; reject_ user_id];
                send_message user_id ScreenshotReceived []]
  ∧ user_states (world r2) !! user_id = None
  ∧ db (world r2) = db w.
Proof.
  intros Hplan Hban Hidle Hqr Hdel Hq Hadmin Hdel'. cbv zeta.
  assert (Hfind : List.find (λ p : string * (Z * Z * string), String.eqb p.1 key) VIP_PLANS
                  = Some (key, (amt, days, lbl))).
  { unfold VIP_PLANS in Hplan.
    repeat (apply elem_of_cons in Hplan as [Hplan|Hplan];
            [injection Hplan as -> -> -> ->; reflexivity|]).
    by apply elem_of_nil in Hplan. }
  assert (E1 : handle_payment_selection cfg env user_id (pay_ key) w =
               (Ok tt, set_user_states <[user_id := WAITING_PAYMENT days]> w,
                [send_photo user_id (UpgradeToVip key (amt `div` 100)) [];
                 answer_query None])).
  { unfold handle_payment_selection, proc. rewrite Hfind, Hqr.
    unfold deliver, on_query. rewrite Hdel, Hq. reflexivity. }
  rewrite E1. unfold world, calls. cbn [fst snd].
  split; [reflexivity|]. split; [apply lookup_insert_eq|].
  set (w1 := set_user_states _ w).
  rewrite (handle_media_idle cfg env' w1 user_id photo Hban Hidle).
  rewrite bool_decide_eq_true_2 by reflexivity. cbv zeta.
  assert (Hst : user_states w1 !! user_id = Some (WAITING_PAYMENT days))
    by apply lookup_insert_eq.
  rewrite Hst, Hadmin, Hdel'. cbn [fst snd default].
  split; [reflexivity|]. split; [apply lookup_delete_eq|reflexivity].
Qed.

Lemma selected_plan_reaches_the_admin_witness :
  calls (handle_media Example.cfg0 Example.env0 101 photo
           (world (handle_payment_selection Example.cfg0 Example.env0 101 (pay_ "pay_3m")
                     Example.idle_world)))
  = [send_photo 1 (PaymentProof 101 (Some 90)) [approve_ 101 90; reject_ 101];
     send_message 101 ScreenshotReceived []].
Proof.
  refine (proj1 (proj2 (proj2 (selected_plan_reaches_the_admin Example.cfg0 Example.env0
            Example.env0 Example.idle_world 101 "pay_3m" "3 Months" 50000 90
            _ _ eq_refl eq_refl eq_refl eq_refl eq_refl eq_refl)))).
  - apply list_elem_of_further, list_elem_of_here.
  - apply not_elem_of_empty.
Defined.

(** ** Admin commands *)

Section Admin.

Context (cfg : Config) (env : Env).

Implicit Types (w : World).

(** [/ban <uid>] and [/unban <uid>] from the admin change the tables as the
    methods do and nothing else, delivered or not. *)
Lemma ban_world w uid :
  world (admin_op cfg env (ADMIN_ID cfg) "/ban" [TInt uid] w)
  = set_db (run (ban_user uid) (db w)).2 w.
Proof.
  unfold admin_op, world, proc. rewrite Z.eqb_refl. cbn [negb].
  rewrite when_skip, bind_ret. unfold try_catch, int.
  rewrite bind_ret.
  change (contains "/ban" "/ban") with true. cbv iota.
  rewrite bind_await. unfold reply_text, deliver.
  destruct (delivers env (ADMIN_ID cfg)); reflexivity.
Qed.

Lemma unban_world w uid :
  world (admin_op cfg env (ADMIN_ID cfg) "/unban" [TInt uid] w)
  = set_db (run (unban_user uid) (db w)).2 w.
Proof.
  unfold admin_op, world, proc. rewrite Z.eqb_refl. cbn [negb].
  rewrite when_skip, bind_ret. unfold try_catch, int.
  rewrite bind_ret.
  change (contains "/ban" "/unban") with false.
  change (contains "/unban" "/unban") with true. cbv iota.
  rewrite bind_await. unfold reply_text, deliver.
  destruct (delivers env (ADMIN_ID cfg)); reflexivity.
Qed.

End Admin.

(** X21.  An approval reads the target's profile with [user_data.get]: for
    a target without a row in [users] it raises [AttributeError] before
    anything is written or sent, whoever clicks and whatever the days.
    [/addvip] does not read the profile: for the same target it creates the
    row, with the expiry and no other column set. *)
Theorem approval_needs_a_profile_row (cfg : Config) (env : Env) (w : World) (target : Z) :
  users (db w) !! target = None →
  (∀ clicker days,
     handle_payment_selection cfg env clicker (approve_ target days) w
     = (Raised AttributeError, w, []))
  ∧ (∀ days e, days_from (now env) days = Some e →
       users (db (world (admin_op cfg env (ADMIN_ID cfg) "/addvip"
                           [TInt target; TInt days] w))) !! target
       = Some (UserRow None None None false (Some e) None)).
Proof.
  intros Hrow. split.
  - intros clicker days. unfold handle_payment_selection, proc.
    rewrite bind_await.
    change (run (get_user target) (db w)).1 with (users (db w) !! target).
    rewrite Hrow. change (run (get_user target) (db w)).2 with (db w).
    by rewrite set_db_id.
  - intros days e He. rewrite addvip_db, make_premium_run, He. cbn [snd].
    cbn [users set_users]. rewrite upsert_expiry_lookup, Hrow. reflexivity.
Qed.

Lemma approval_needs_a_profile_row_witness :
  handle_payment_selection Example.cfg0 Example.env0 1 (approve_ 104 30) Example.idle_world
  = (Raised AttributeError, Example.idle_world, []).
Proof.
  apply (proj1 (approval_needs_a_profile_row Example.cfg0 Example.env0
                  Example.idle_world 104 eq_refl)).
Defined.

(** X22.  [admin_op] acts for the admin only and on well-formed arguments
    only: from anyone else it does nothing at all; without a user id it
    answers with the usage line; a user id or a number of days that is no
    number is answered with the error line, and nothing is written, the grant
    of [/addvip] included. *)
Theorem admin_op_guards (cfg : Config) (env : Env) (w : World) :
  (∀ user_id cmd args, user_id ≠ ADMIN_ID cfg →
     admin_op cfg env user_id cmd args w = (Ok tt, w, []))
  ∧ (delivers env (ADMIN_ID cfg) = true →
     (∀ cmd, admin_op cfg env (ADMIN_ID cfg) cmd [] w
             = (Ok tt, w, [send_message (ADMIN_ID cfg) Usage []]))
     ∧ (∀ cmd s rest,
          admin_op cfg env (ADMIN_ID cfg) cmd (TWord s :: rest) w
          = (Ok tt, w, [send_message (ADMIN_ID cfg) UserIdMustBeNumber []]))
     ∧ (∀ uid s rest,
          admin_op cfg env (ADMIN_ID cfg) "/addvip" (TInt uid :: TWord s :: rest) w
          = (Ok tt, w, [send_message (ADMIN_ID cfg) UserIdMustBeNumber []]))).
Proof.
  split.
  - intros user_id cmd args Hne. apply Z.eqb_neq in Hne.
    unfold admin_op, proc. rewrite Hne. reflexivity.
  - intros Hdel.
    assert (Hgate : ∀ m : M unit,
      (when (negb (ADMIN_ID cfg =? ADMIN_ID cfg)) return_;; m) w = m w).
    { intros m. rewrite Z.eqb_refl. cbn [negb]. by rewrite when_skip, bind_ret. }
    split; [|split].
    + intros cmd. unfold admin_op, proc. rewrite Hgate.
      unfold try_catch, reply_text, deliver. rewrite Hdel. reflexivity.
    + intros cmd s rest. unfold admin_op, proc. rewrite Hgate.
      unfold try_catch, int. rewrite bind_raise.
      unfold reply_text, deliver. rewrite Hdel. reflexivity.
    + intros uid s rest. unfold admin_op, proc. rewrite Hgate.
      unfold try_catch, int. rewrite bind_ret.
      change (contains "/ban" "/addvip") with false.
      change (contains "/unban" "/addvip") with false.
      change (contains "/addvip" "/addvip") with true. cbv iota.
      rewrite bind_raise.
      unfold reply_text, deliver. rewrite Hdel. reflexivity.
Qed.

(** X23.  A ban is not undone by [/unban]: the ban deleted the profile row
    and nothing brings it back, while [user_states] is left as it was.  Once
    unbanned the user is no longer refused, but has no row: unless the user
    owes a typed answer, every text that is not an exit, a report or a menu
    label raises [AttributeError], with nothing sent. *)
Theorem unbanned_user_has_no_profile (cfg : Config) (env env' : Env) (w : World)
    (uid : Z) :
  let w1 := world (admin_op cfg env (ADMIN_ID cfg) "/ban" [TInt uid] w) in
  let w2 := world (admin_op cfg env' (ADMIN_ID cfg) "/unban" [TInt uid] w1) in
  (run (is_banned uid) (db w2)).1 = false
  ∧ users (db w2) !! uid = None
  ∧ user_states w2 = user_states w
  ∧ (∀ env'' text,
       awaits_input (user_states w !! uid) = false → passes_early text →
       handle_text cfg env'' true uid text w2 = (Raised AttributeError, w2, [])).
Proof.
  cbv zeta. rewrite ban_world, unban_world, ban_user_state.
  fields. cbn [run unban_user execute fetch snd fst banned_users set_banned users].
  assert (Hfree : uid ∉ ({[uid]} ∪ banned_users (db w)) ∖ ({[uid]} : gset Z)).
  { intros H. apply elem_of_difference in H as [_ H]. by apply H, elem_of_singleton. }
  split; [by apply bool_decide_eq_false|].
  split; [apply lookup_delete_eq|]. split; [reflexivity|].
  intros env'' text Hst Htext.
  rewrite handle_text_to_profile; [|exact Hfree|exact Hst|exact Htext].
  cbn [db users set_db set_banned]. rewrite lookup_delete_eq. reflexivity.
Qed.

Lemma unbanned_user_has_no_profile_witness :
  result (handle_text Example.cfg0 Example.env0 true 101 "/chat"
            (world (admin_op Example.cfg0 Example.env0 1 "/unban" [TInt 101]
                      (world (admin_op Example.cfg0 Example.env0 1 "/ban" [TInt 101]
                                Example.idle_world)))))
  = Raised AttributeError.
Proof.
  pose proof (proj2 (proj2 (proj2 (unbanned_user_has_no_profile Example.cfg0
                       Example.env0 Example.env0 Example.idle_world 101)))
                Example.env0 "/chat" eq_refl (conj eq_refl eq_refl)) as H.
  cbv zeta in H. change (ADMIN_ID Example.cfg0) with 1 in H. by rewrite H.
Defined.

(** ** Re-chat *)

Section Rechat.

Context (cfg : Config) (env : Env).

Implicit Types (w : World) (d : Database).

Lemma no_partner_not_in_ids d u :
  (run (get_partner u) d).1 = None → u ∉ session_ids (active_chats d).
Proof.
  rewrite get_partner_result. intros Hp Hin.
  destruct (List.find (mentions u) (active_chats d)) as [row|] eqn:E; [discriminate|].
  unfold session_ids in Hin. apply list_elem_of_In, in_flat_map in Hin as (row & Hrow & Hu).
  pose proof (find_none _ _ E row Hrow) as Hm. unfold mentions in Hm.
  apply orb_false_iff in Hm as [H1 H2]. apply Z.eqb_neq in H1, H2.
  destruct Hu as [Hu|[Hu|[]]]; congruence.
Qed.

Lemma find_app_none {A : Type} (f : A → bool) (l l' : list A) :
  List.find f l = None → List.find f (l ++ l') = List.find f l'.
Proof.
  induction l as [|x l IH]; [done|]. simpl. destruct (f x); [discriminate|exact IH].
Qed.

(** The partner of each side of a row added for two users without a
    session is the other side. *)
Lemma connect_users_partners d u v :
  (run (get_partner u) d).1 = None → (run (get_partner v) d).1 = None →
  let d' := (run (connect_users u v) d).2 in
  (run (get_partner u) d').1 = Some v ∧ (run (get_partner v) d').1 = Some u.
Proof.
  intros Hu Hv. cbv zeta. rewrite !get_partner_result in *. simpl.
  destruct (List.find (mentions u) (active_chats d)) eqn:Eu; [discriminate|].
  destruct (List.find (mentions v) (active_chats d)) eqn:Ev; [discriminate|].
  rewrite !find_app_none by assumption.
  cbn [List.find]. unfold mentions. cbn [fst snd].
  rewrite !Z.eqb_refl, orb_true_r. cbn [orb]. csimpl. rewrite Z.eqb_refl.
  split; [reflexivity|].
  destruct (u =? v) eqn:E; [|reflexivity].
  apply Z.eqb_eq in E. by subst.
Qed.

(** What [send_match_messages] leaves of the process memory, however it
    ends. *)
Lemma send_match_messages_world w user1_id user2_id :
  (send_match_messages cfg env user1_id user2_id w).1.2
  = set_active_sessions <[user2_id := MkSession (now env) (random_session_id env)]>
      (set_active_sessions <[user1_id := MkSession (now env) (random_session_id env)]> w).
Proof.
  unfold send_match_messages. cbv zeta.
  do 2 step. set (w1 := set_active_sessions _ _).
  rewrite bind_await. change (run (get_user user1_id) (db w1)).2 with (db w1).
  rewrite set_db_id.
  rewrite bind_await. change (run (get_user user2_id) (db w1)).2 with (db w1).
  rewrite set_db_id.
  erewrite bind_ok by apply is_vip_run. erewrite bind_ok by apply is_vip_run.
  cbn [app].
  destruct (run (get_user user2_id) (db w1)).1 as [r2|]; [|reflexivity].
  destruct (run (get_user user1_id) (db w1)).1 as [r1|];
    [|destruct (gender r2); reflexivity].
  destruct (gender r2) as [g2|]; [|reflexivity].
  destruct (gender r1) as [g1|]; [|reflexivity].
  unfold mbind, M_bind, deliver.
  destruct (delivers env user1_id); [|reflexivity].
  destruct (delivers env user2_id); reflexivity.
Qed.

End Rechat.

(** X24.  Accepting a re-chat request connects the two only if both are
    still free.  Someone already in a chat gets the alert, and a request
    whose sender has entered another chat is answered with the too-late
    notice; neither changes anything.  Otherwise the session row is added and
    both leave the queue: each is the other's partner, both get the same
    fresh entry of [active_sessions], and well-formed sessions stay well
    formed. *)
Theorem rechat_accept_connects (cfg : Config) (env : Env) (w : World)
    (user_id requester : Z) :
  query_ok env = true →
  let r := handle_rechat_accept cfg env user_id (accept_rechat_ requester) w in
  let meta := MkSession (now env) (random_session_id env) in
  (truthy (run (get_partner user_id) (db w)).1 = true →
     r = (Ok tt, w, [answer_query (Some YouAreAlreadyInAChat)]))
  ∧ (truthy (run (get_partner user_id) (db w)).1 = false →
     truthy (run (get_partner requester) (db w)).1 = true →
     r = (Ok tt, w, [edit_message TooLate]))
  ∧ ((run (get_partner user_id) (db w)).1 = None →
     (run (get_partner requester) (db w)).1 = None →
     world r = set_active_sessions <[requester := meta]>
                 (set_active_sessions <[user_id := meta]>
                    (set_db (run (connect_users user_id requester) (db w)).2 w))
     ∧ (run (get_partner user_id) (db (world r))).1 = Some requester
     ∧ (run (get_partner requester) (db (world r))).1 = Some user_id
     ∧ (run (is_searching user_id) (db (world r))).1 = false
     ∧ (run (is_searching requester) (db (world r))).1 = false
     ∧ (sessions_wf (db w) → user_id ≠ requester → sessions_wf (db (world r)))).
Proof.
  intros Hq. cbv zeta. unfold handle_rechat_accept, proc.
  rewrite bind_await, get_partner_state, set_db_id.
  split; [|split].
  - intros ->. rewrite when_true. unfold on_query. rewrite Hq. reflexivity.
  - intros -> Hbusy. rewrite when_skip, bind_ret.
    rewrite bind_await, get_partner_state, set_db_id, Hbusy, when_true.
    unfold on_query. rewrite Hq. reflexivity.
  - intros Hu Hv. rewrite Hu. cbn [truthy]. rewrite when_skip, bind_ret.
    rewrite bind_await, get_partner_state, set_db_id, Hv. cbn [truthy].
    rewrite when_skip, bind_ret, bind_await.
    unfold on_query. rewrite Hq. rewrite !bind_emit.
    set (w1 := set_db _ w).
    pose proof (send_match_messages_world cfg env w1 user_id requester) as Hw.
    destruct (send_match_messages cfg env user_id requester w1) as [[res w2] out].
    cbn [fst snd] in Hw. subst w2.
    assert (Hworld : ∀ res' : outcome unit * World * list action,
              res'.1.2 = set_active_sessions <[requester := MkSession (now env) (random_session_id env)]>
                           (set_active_sessions <[user_id := MkSession (now env) (random_session_id env)]> w1) →
              world res' = set_active_sessions <[requester := MkSession (now env) (random_session_id env)]>
                           (set_active_sessions <[user_id := MkSession (now env) (random_session_id env)]> w1))
      by (by intros [[? ?] ?]).
    rewrite Hworld by (by destruct res as [[]| |e]).
    split; [reflexivity|]. fields. subst w1. fields.
    destruct (connect_users_partners (db w) user_id requester Hu Hv) as [H1 H2].
    split; [exact H1|]. split; [exact H2|].
    split.
    { simpl. apply bool_decide_eq_false. intros Hin.
      apply list_elem_of_fmap in Hin as (row & -> & Hin).
      apply list_elem_of_filter in Hin as [Hne _]. apply Hne. by left. }
    split.
    { simpl. apply bool_decide_eq_false. intros Hin.
      apply list_elem_of_fmap in Hin as (row & -> & Hin).
      apply list_elem_of_filter in Hin as [Hne _]. apply Hne. by right. }
    intros Hwf Hne. unfold sessions_wf in *. simpl.
    unfold session_ids. rewrite flat_map_app. fold (session_ids (active_chats (db w))).
    cbn [flat_map app fst snd].
    pose proof (no_partner_not_in_ids (db w) user_id Hu) as Hu'.
    pose proof (no_partner_not_in_ids (db w) requester Hv) as Hv'.
    apply NoDup_app. split; [exact Hwf|]. split.
    + intros x Hx Hx'. apply elem_of_cons in Hx' as [->|Hx']; [done|].
      apply list_elem_of_singleton in Hx' as ->. done.
    + apply NoDup_cons. split; [|apply NoDup_singleton].
      intros H. by apply list_elem_of_singleton in H.
Qed.

Lemma rechat_accept_connects_witness :
  (run (get_partner 101)
     (db (world (handle_rechat_accept Example.cfg0 Example.env0 102 (accept_rechat_ 101)
                   Example.left_world)))).1 = Some 102
  ∧ handle_rechat_accept Example.cfg0 Example.env0 101 (accept_rechat_ 103)
      Example.chatting_world
    = (Ok tt, Example.chatting_world, [answer_query (Some YouAreAlreadyInAChat)]).
Proof.
  split.
  - destruct (proj2 (proj2 (rechat_accept_connects Example.cfg0 Example.env0
                              Example.left_world 102 101 eq_refl)) eq_refl eq_refl)
      as (_ & _ & H & _).
    exact H.
  - apply (proj1 (rechat_accept_connects Example.cfg0 Example.env0
                    Example.chatting_world 101 103 eq_refl)).
    reflexivity.
Defined.



(** ** Registration *)

Section Registration.

Context (cfg : Config) (env : Env).

Implicit Types (w : World) (text : string).

Lemma get_user_state (d : Database) (u : Z) : (run (get_user u) d).2 = d.
Proof. reflexivity. Qed.

Lemma reads_only_check_registration u : reads_only (check_registration env u).
Proof.
  unfold check_registration.
  apply reads_only_bind; [by apply reads_only_await|intros [r|]]; [|done].
  destruct (negb (truthy_str (gender r))).
  { apply reads_only_bind; [apply reads_only_deliver|done]. }
  destruct (negb (truthy (age r))).
  { apply reads_only_bind; [done|intros _].
    apply reads_only_bind; [apply reads_only_deliver|done]. }
  destruct (negb (truthy_str (country r))).
  { apply reads_only_bind; [apply reads_only_deliver|done]. }
  apply reads_only_bind; done.
Qed.

End Registration.



Section Age.

Context (cfg : Config) (env : Env).

Implicit Types (w : World) (text s : string) (l : list string).

(** A text of digits is none of the labels and commands, which are not. *)
Lemma isdigit_neq text s :
  isdigit text = true → isdigit s = false → String.eqb text s = false.
Proof.
  intros Ht Hs. destruct (String.eqb text s) eqn:E; [|reflexivity].
  apply String.eqb_eq in E. congruence.
Qed.

Lemma isdigit_not_in text l :
  isdigit text = true → forallb (λ s, negb (isdigit s)) l = true →
  str_in text l = false.
Proof.
  intros Hd Hl. unfold str_in. induction l as [|s l IH]; [reflexivity|].
  cbn [forallb] in Hl. apply andb_true_iff in Hl as [Hs Hl].
  cbn [existsb]. rewrite IH by exact Hl. rewrite orb_false_r.
  apply isdigit_neq; [exact Hd|]. by apply negb_true_iff.
Qed.

Lemma isdigit_no_slash text s :
  isdigit text = true → startswith (String "/" s) text = false.
Proof.
  intros Hd. unfold startswith. destruct text as [|c t]; [reflexivity|].
  cbn [String.prefix]. destruct (ascii_dec "/" c) as [<-|]; [|reflexivity].
  exfalso. unfold isdigit in Hd. cbn [code_points] in Hd.
  change (N_of_ascii "/") with 47%N in Hd. change (47 <? 128)%N with true in Hd.
  cbv iota in Hd. destruct (code_points t) as [cs|]; [|discriminate].
  csimpl in Hd. cbn [forallb] in Hd.
  change (isdigit_char 47) with false in Hd. discriminate.
Qed.

End Age.

(** X27.  The age typed by a user who was asked for it.  For a text that
    [str.isdigit] accepts, [int] gives the number its digits write, of
    whatever script: it is stored only if it lies between 16 and 80, both
    included, [set_age] then being the one change to the tables, and any
    other number is answered with the invalid-age notice, nothing being
    stored and the user still being asked.  For digits that are not decimal
    (a superscript two, say) [int] raises, and [ValueError] leaves the
    handler with nothing stored or sent. *)
Theorem age_is_validated (cfg : Config) (env : Env) (w : World)
    (user_id : Z) (text : string) :
  user_id ∉ banned_users (db w) →
  user_states w !! user_id = Some WAITING_AGE →
  isdigit text = true →
  delivers env user_id = true →
  let r := handle_text cfg env true user_id text w in
  (∀ a, int_str text = Some a → 16 ≤ a ≤ 80 →
     db (world r) = (run (set_age user_id (Some a)) (db w)).2
     ∧ ∃ sent, calls r = send_message user_id (AgeUpdated text) [] :: sent)
  ∧ (∀ a, int_str text = Some a → ¬ 16 ≤ a ≤ 80 →
     r = (Ok tt, w, [send_message user_id InvalidAge []]))
  ∧ (int_str text = None → r = (Raised ValueError, w, [])).
Proof.
  intros Hban Hst Hdigits Hdel. cbv zeta.
  rewrite handle_text_to_exit by assumption. unfold proc. cbv zeta. rewrite Hst.
  unfold exit_chat.
  rewrite (isdigit_not_in text _ Hdigits) by (vm_compute; reflexivity).
  rewrite when_skip, bind_ret.
  unfold cancel_command.
  rewrite (isdigit_not_in text _ Hdigits) by (vm_compute; reflexivity).
  rewrite when_skip, bind_ret.
  unfold capture_report_reason.
  rewrite bool_decide_eq_false_2 by discriminate. rewrite when_skip, bind_ret.
  unfold manual_report.
  rewrite (isdigit_neq text _ Hdigits) by (vm_compute; reflexivity).
  rewrite (isdigit_no_slash text _ Hdigits).
  cbn [orb]. rewrite when_skip, bind_ret.
  unfold menu_buttons.
  rewrite (isdigit_not_in text _ Hdigits) by (vm_compute; reflexivity).
  rewrite when_skip, bind_ret.
  unfold registration_input.
  rewrite (bool_decide_eq_false_2 (Some WAITING_AGE = Some WAITING_GENDER)) by discriminate.
  rewrite (bool_decide_eq_false_2 (Some WAITING_AGE = Some WAITING_COUNTRY)) by discriminate.
  rewrite (bool_decide_eq_true_2 (Some WAITING_AGE = Some WAITING_AGE)) by reflexivity.
  rewrite (bool_decide_eq_false_2 (Some WAITING_AGE = Some WAITING_MANUAL_LOC))
    by discriminate.
  rewrite !when_skip, when_true.
  rewrite bind_assoc, bind_ret, bind_assoc, bind_ret, bind_assoc, Hdigits.
  destruct (int_str text) as [a|].
  2: { split; [intros a [=]|]. split; [intros a [=]|]. intros _. reflexivity. }
  split; [|split; [|intros [=]]]; intros a' [= <-].
  - intros [Hlo Hhi]. apply Z.leb_le in Hlo, Hhi. rewrite Hlo, Hhi. cbn [andb].
    rewrite !bind_assoc, bind_await. unfold reply_text, deliver.
    rewrite Hdel. rewrite !bind_assoc, bind_emit.
    rewrite ?bind_assoc. set (w1 := set_db _ w).
    match goal with
    | |- context [(check_registration env user_id ≫= ?k) w1] =>
        set (X := (check_registration env user_id ≫= k) w1);
        assert (Hs : db X.1.2 = db w1);
        [|destruct X as [[[[]| |e] w2] sent]; cbn [fst snd] in Hs;
          unfold world, calls; cbn [fst snd]; rewrite Hs; eauto]
    end.
    apply reads_only_bind; [apply reads_only_check_registration|done].
  - intros Hout.
    assert (Hrange : (16 <=? a) && (a <=? 80) = false).
    { apply andb_false_iff. rewrite !Z.leb_gt. lia. }
    rewrite Hrange. unfold mbind, M_bind, reply_text, deliver. rewrite Hdel.
    reflexivity.
Qed.

Lemma age_is_validated_witness :
  handle_text Example.cfg0 Example.env0 true 101 "81"
    (set_user_states <[101 := WAITING_AGE]> Example.idle_world)
  = (Ok tt, set_user_states <[101 := WAITING_AGE]> Example.idle_world,
     [send_message 101 InvalidAge []])
  ∧ age <$> users (db (world (handle_text Example.cfg0 Example.env0 true 101 "١٨"
                               (set_user_states <[101 := WAITING_AGE]> Example.idle_world))))
            !! 101
    = Some (Some 18)
  ∧ handle_text Example.cfg0 Example.env0 true 101 "²"
      (set_user_states <[101 := WAITING_AGE]> Example.idle_world)
    = (Raised ValueError, set_user_states <[101 := WAITING_AGE]> Example.idle_world, []).
Proof.
  assert (Hban : 101 ∉ banned_users
                   (db (set_user_states <[101 := WAITING_AGE]> Example.idle_world)))
    by apply not_elem_of_empty.
  split; [|split].
  - apply (proj1 (proj2 (age_is_validated Example.cfg0 Example.env0
                    (set_user_states <[101 := WAITING_AGE]> Example.idle_world) 101 "81"
                    Hban eq_refl eq_refl eq_refl)) 81 eq_refl).
    lia.
  - destruct (proj1 (age_is_validated Example.cfg0 Example.env0
                       (set_user_states <[101 := WAITING_AGE]> Example.idle_world) 101
                       "١٨" Hban eq_refl eq_refl eq_refl) 18 eq_refl)
      as [Hdb _]; [lia|].
    rewrite Hdb. reflexivity.
  - apply (proj2 (proj2 (age_is_validated Example.cfg0 Example.env0
                    (set_user_states <[101 := WAITING_AGE]> Example.idle_world) 101 "²"
                    Hban eq_refl eq_refl eq_refl)) eq_refl).
Defined.

(** ** Invariants of the sessions *)

Section Invariants.

Context (cfg : Config) (env : Env).

Implicit Types (w : World) (text : string).

(** A piece that does not fall through ends the handler where it is. *)
Lemma bind_stops (m : M unit) (k : unit → M unit) w :
  (m w).1.1 ≠ Ok tt → (m ≫= k) w = m w.
Proof.
  intros H. unfold mbind, M_bind. by destruct (m w) as [[[[]| |e] w1] out].
Qed.

Lemma chat_never_ok w user_id text :
  str_in text ["💬 Chat"; "/chat"] = true → (chat cfg env user_id text w).1.1 ≠ Ok tt.
Proof.
  intros Htext. unfold chat. rewrite Htext, when_true.
  do 8 (apply bind_never_ok; intros). done.
Qed.

(** The tables after [/chat]: as before, or as the guarded search leaves
    them. *)
Lemma chat_db w user_id text :
  0 ∉ session_ids (active_chats (db w)) →
  db (chat cfg env user_id text w).1.2 = db w
  ∨ (user_id ∉ session_ids (active_chats (db w)))
    ∧ (∃ f, db (chat cfg env user_id text w).1.2
            = (run (add_to_queue user_id f;; find_match user_id f) (db w)).2).
Proof.
  intros H0. unfold chat. destruct (str_in text _); [|by left].
  rewrite when_true, bind_await, get_partner_state, set_db_id.
  destruct (run (get_partner user_id) (db w)).1 as [p|] eqn:Hp.
  - assert (Hp0 : p ≠ 0).
    { intros ->. apply H0. rewrite get_partner_result in Hp.
      destruct (List.find (mentions user_id) (active_chats (db w))) as [row|] eqn:E;
        [|discriminate].
      apply find_some in E as [Hin _]. injection Hp as Hp. rewrite <- Hp.
      apply other_side_in. by apply list_elem_of_In. }
    apply Z.eqb_neq in Hp0. unfold truthy. rewrite Hp0. cbn [negb].
    rewrite when_true. left.
    unfold mbind, M_bind, reply_text, deliver.
    by destruct (delivers env user_id).
  - cbn [truthy]. rewrite when_skip, bind_ret, bind_get.
    erewrite bind_ok by apply is_vip_run. cbv zeta. cbn [app].
    set (f := if _ : bool then "any" else _).
    unfold reply_text, deliver.
    destruct (delivers env user_id); [|by left].
    right. split; [by apply no_partner_not_in_ids|]. exists f.
    rewrite bind_emit.
    match goal with
    | |- context [(await (add_to_queue ?u ?t) ≫= ?k) ?w0] =>
        set (X := (await (add_to_queue u t) ≫= k) w0);
        assert (Hs : db X.1.2
                     = (run (add_to_queue user_id f;; find_match user_id f) (db w)).2);
        [|by destruct X as [[res w1] sent]]
    end.
    apply search_db. intros m. apply reads_only_bind; [|done].
    apply reads_only_if_truthy. intros n. apply send_match_messages_db.
Qed.

(** The guarded search brings the id 0 neither into a session nor into the
    queue. *)
Lemma guarded_search_no_zero (d : Database) (u : Z) (f : string) :
  u ≠ 0 → 0 ∉ session_ids (active_chats d) → 0 ∉ (search_queue d).*1 →
  let d' := (run (add_to_queue u f;; find_match u f) d).2 in
  (0 ∉ session_ids (active_chats d')) ∧ (0 ∉ (search_queue d').*1).
Proof.
  intros Hu Hs Hq. cbv zeta. unfold add_to_queue, find_match. simpl.
  set (dq := set_queue (upsert_queue u f) d).
  assert (Hrow : ∀ row, row ∈ search_queue dq → row.1 ≠ 0).
  { subst dq. simpl. intros row Hin E.
    destruct (upsert_queue_elem (search_queue d) u f row Hin) as [H|H]; [congruence|].
    apply Hq. rewrite <- E. apply list_elem_of_fmap. by exists row. }
  assert (Hids : ∀ l : list (Z * string),
            (∀ row, row ∈ l → row ∈ search_queue dq) → 0 ∉ l.*1).
  { intros l Hl Hin. apply list_elem_of_fmap in Hin as (row & E & Hin).
    by apply (Hrow row (Hl row Hin)). }
  destruct (select_candidate u f dq) as [row|] eqn:E; simpl.
  - apply find_eligible in E as (Hin & _ & _). split.
    + unfold session_ids. rewrite flat_map_app.
      fold (session_ids (active_chats d)). cbn [flat_map app fst snd].
      intros H. apply elem_of_app in H as [H|H]; [done|].
      apply elem_of_cons in H as [H|H]; [done|].
      apply list_elem_of_singleton in H. by apply (Hrow row Hin).
    + apply Hids. intros r Hr. by apply list_elem_of_filter in Hr as [_ Hr].
  - split; [exact Hs|]. by apply Hids.
Qed.

End Invariants.

(** X28.  [/chat] keeps the sessions well formed.  Take tables in which
    every id is in at most one session, nobody is both queued and in a
    session, and the id 0 is in no session and not queued.  After [/chat]
    from a registered sender whose id is not 0 all of this holds again,
    whether the sender was refused for being in a chat, was queued, or was
    matched. *)
Theorem chat_keeps_sessions_well_formed (cfg : Config) (env : Env) (w : World)
    (user_id : Z) :
  ready w user_id → user_id ≠ 0 →
  sessions_wf (db w) → queue_excl (db w) →
  0 ∉ session_ids (active_chats (db w)) → 0 ∉ (search_queue (db w)).*1 →
  let w' := world (handle_text cfg env true user_id "/chat" w) in
  sessions_wf (db w') ∧ queue_excl (db w')
  ∧ (0 ∉ session_ids (active_chats (db w'))) ∧ (0 ∉ (search_queue (db w')).*1).
Proof.
  intros (Hban & Hst & r & Hr & Hreg) Hu0 Hwf Hex H0 Hq0. cbv zeta.
  rewrite (handle_text_to_profile cfg env w user_id "/chat" Hban Hst)
    by (split; reflexivity).
  rewrite Hr, Hreg. unfold proc. cbn [negb].
  rewrite when_skip, bind_ret.
  erewrite bind_pure by reflexivity. erewrite bind_pure by reflexivity.
  rewrite bind_stops by (by apply chat_never_ok).
  assert (Hworld : ∀ res : outcome unit * World * list action,
            world (let (p, out) := res in
                   let (o, w') := p in
                   match o with
                   | Ok a => (Ok a, w', out)
                   | Returned => (Ok tt, w', out)
                   | Raised e => (Raised e, w', out)
                   end) = res.1.2)
    by (by intros [[[[]| |e] ?] ?]).
  rewrite Hworld.
  destruct (chat_db cfg env w user_id "/chat" H0) as [->|(Hu & f & ->)]; [done|].
  destruct (guarded_search_keeps_sessions_wf (db w) user_id f Hwf Hex Hu) as [H1 H2].
  destruct (guarded_search_no_zero (db w) user_id f Hu0 H0 Hq0) as [H3 H4].
  done.
Qed.

Lemma chat_keeps_sessions_well_formed_witness :
  sessions_wf
    (db (world (handle_text Example.cfg0 Example.env0 true 103 "/chat"
                  (empty_world Example.two_waiting))))
  ∧ active_chats
      (db (world (handle_text Example.cfg0 Example.env0 true 103 "/chat"
                    (empty_world Example.two_waiting))))
    = [(103, 101)].
Proof.
  split; [|reflexivity].
  apply (chat_keeps_sessions_well_formed Example.cfg0 Example.env0
           (empty_world Example.two_waiting) 103).
  - split; [apply not_elem_of_empty|]. split; [reflexivity|].
    exists (Example.profile "female" None). split; reflexivity.
  - discriminate.
  - apply NoDup_nil_2.
  - intros row _. apply not_elem_of_nil.
  - apply not_elem_of_nil.
  - simpl. intros H. apply elem_of_cons in H as [H|H]; [discriminate|].
    apply list_elem_of_singleton in H. discriminate.
Defined.

(** ** Settings *)

Section Settings.

Implicit Types (d : Database).

Lemma check_premium_result d t u :
  (run (check_premium t u) d).1 =
  match users d !! u with
  | Some r =>
      is_premium r || match vip_expiry r with
                      | Some e => e >? t
                      | None => false
                      end
  | None => false
  end.
Proof.
  unfold check_premium. simpl. destruct (users d !! u) as [r|]; [|reflexivity].
  destruct (is_premium r); [reflexivity|].
  destruct (vip_expiry r) as [e|]; [|reflexivity]. by destruct (e >? t).
Qed.

End Settings.



(** ** Group moderation *)

(** X30.  Three strikes: for an author who is not an administrator of the
    group and has no warning on record, the first two messages with a bad
    word are deleted and answered with the warnings 1/3 and 2/3; the third
    is deleted and the author is banned from the group, which clears the
    record.  If the platform refuses the ban, the record stays at three and
    the group is told that the ban failed.  A message without a bad word, or
    one in a private chat, changes nothing. *)
Theorem three_strikes (BAD_WORDS : list string) (env : Group.Env) (user_id : Z)
    (group_warnings : gmap Z Z) (t1 t2 t3 : string) :
  group_warnings !! user_id = None →
  Group.sends env = true →
  from_option (λ s, str_in s ["administrator"; "creator"]) false (Group.member_status env)
  = false →
  (∀ t, t ∈ [t1; t2; t3] → t ≠ "" ∧ Group.found_bad_word BAD_WORDS t = true) →
  let deleted := if Group.deletes env then [Group.delete_message] else [] in
  let r1 := Group.group_moderation BAD_WORDS env false user_id (Some t1) group_warnings in
  let r2 := Group.group_moderation BAD_WORDS env false user_id (Some t2) r1.1.2 in
  let r3 := Group.group_moderation BAD_WORDS env false user_id (Some t3) r2.1.2 in
  r1 = (Group.Done, <[user_id := 1]> group_warnings,
        deleted ++ [Group.send_message (Group.Warning 1 2)])
  ∧ r2.1.1 = Group.Done
  ∧ r2.2 = deleted ++ [Group.send_message (Group.Warning 2 1)]
  ∧ (Group.bans env = true →
     r3 = (Group.Done, group_warnings,
           deleted ++ [Group.ban_member user_id; Group.send_message Group.BannedNotice]))
  ∧ (Group.bans env = false →
     r3.1.1 = Group.Done ∧ r3.1.2 !! user_id = Some 3
     ∧ r3.2 = deleted ++ [Group.send_message Group.BanFailed])
  ∧ (∀ t private, Group.found_bad_word BAD_WORDS t = false ∨ private = true →
       Group.group_moderation BAD_WORDS env private user_id (Some t) group_warnings
       = (Group.Done, group_warnings, [])).
Proof.
  intros Hnone Hsends Hmember Hbad. cbv zeta.
  assert (Hstep : ∀ t gw, t ∈ [t1; t2; t3] →
    Group.group_moderation BAD_WORDS env false user_id (Some t) gw =
    let deleted := if Group.deletes env then [Group.delete_message] else [] in
    let current_warns := default 0 (gw !! user_id) + 1 in
    let warned := <[user_id := current_warns]> gw in
    if current_warns <? 3 then
      (Group.Done, warned,
       deleted ++ [Group.send_message (Group.Warning current_warns (3 - current_warns))])
    else if Group.bans env then
      (Group.Done, delete user_id warned,
       deleted ++ [Group.ban_member user_id; Group.send_message Group.BannedNotice])
    else (Group.Done, warned, deleted ++ [Group.send_message Group.BanFailed])).
  { intros t gw Ht. destruct (Hbad t Ht) as [Hne Hfound].
    unfold Group.group_moderation. apply String.eqb_neq in Hne.
    rewrite Hne, Hmember, Hfound, Hsends. reflexivity. }
  rewrite (Hstep t1) by apply list_elem_of_here. cbv zeta.
  rewrite Hnone. change (default 0 None + 1) with 1.
  change (1 <? 3) with true. cbv iota. cbn [fst snd].
  rewrite (Hstep t2) by apply list_elem_of_further, list_elem_of_here. cbv zeta.
  rewrite lookup_insert_eq. change (default 0 (Some 1) + 1) with 2.
  change (2 <? 3) with true. cbv iota. cbn [fst snd].
  rewrite (Hstep t3) by (do 2 apply list_elem_of_further; apply list_elem_of_here).
  cbv zeta. rewrite lookup_insert_eq. change (default 0 (Some 2) + 1) with 3.
  change (3 <? 3) with false. cbv iota.
  change (3 - 1) with 2. change (3 - 2) with 1.
  split; [reflexivity|]. split; [reflexivity|]. split; [reflexivity|].
  split; [|split].
  - intros ->. f_equal. f_equal.
    rewrite !delete_insert_eq. by apply delete_id.
  - intros ->. cbn [fst snd]. split; [reflexivity|].
    split; [apply lookup_insert_eq|reflexivity].
  - intros t private [Hclean| ->].
    + unfold Group.group_moderation. rewrite Hclean, Hmember.
      destruct (String.eqb t ""); [reflexivity|]. by destruct private.
    + unfold Group.group_moderation. by destruct (String.eqb t "").
Qed.

Lemma three_strikes_witness :
  Group.group_moderation Group.FALLBACK_BAD_WORDS Example.group_env false 7
    (Some "i kill you")
    (Group.group_moderation Group.FALLBACK_BAD_WORDS Example.group_env false 7
       (Some "fraud!")
       (Group.group_moderation Group.FALLBACK_BAD_WORDS Example.group_env false 7
          (Some "what a scam") ∅).1.2).1.2
  = (Group.Done, ∅,
     [Group.delete_message; Group.ban_member 7; Group.send_message Group.BannedNotice]).
Proof.
  refine (proj1 (proj2 (proj2 (proj2
            (three_strikes Group.FALLBACK_BAD_WORDS Example.group_env 7 ∅
               "what a scam" "fraud!" "i kill you" eq_refl eq_refl eq_refl _)))) eq_refl).
  intros t Ht.
  repeat (apply elem_of_cons in Ht as [->|Ht]; [split; [discriminate|reflexivity]|]).
  by apply elem_of_nil in Ht.
Defined.
